(** * Family6 SaaS: the spreadsheet-backed auth backend and the chat relay

    A shallow embedding of the Apps Script backend (handleSignup,
    handleLogin, handleValidateSession, handleRequestReset,
    handleResetPassword, handleConfirmEmail, handleSaveChatMessage,
    handleGetChatHistory, handleGetChatStats and the database helpers they
    call) and of the client's [sendMessage].

    Conventions of the embedding.
    - A sheet is the list of its data rows; the header row (index 0 of
      [getDataRange().getValues()]) is left out, and every scan of the
      source starts at [i = 1], so that the row found at list position [k]
      has array index [k + 1] and sheet row number [k + 2].
    - Columns are typed by what the code writes into them: texts are
      [string], the [verified] flag is a [bool], and a timestamp cell holds
      the ISO-8601 text of an instant, represented by that instant in
      milliseconds ([Z]); [reset_token_expires], which the code also sets
      to the empty text, is an [option Z] ([None]: [new Date('')] is an
      invalid date, and every comparison with it is false).
    - A request field is an [option string]: [None] is [undefined].
    - [new Date()] reads the clock of the world; a request is handled at
      one instant.
    - [Math.random] and [Utilities.computeDigest] are the environment: an
      entropy stream and a function from texts to byte arrays; so are
      [fetch] and [JSON.parse] for the relay.
    - [MailApp.sendEmail], the script's time zone and the header row of
      the chat sheet are the environment too: a mail joins the outbox
      unless the service refuses it, in which case [sendEmail] throws; the
      [Date] methods [getDate], [setDate] and [getDay] go by the zone; and
      the header is looked at by the one [filter] of [handleGetChatStats]
      that does not start at [i = 1]. The handlers they reach are defined
      in [Script], over any such environment.
    - A plain object used as a map ([sessionsMap]) keeps its own
      properties in creation order and inherits those of
      [Object.prototype]; a [Set] keeps its elements in insertion order.
    - A text is the sequence of its code units, each below 256. *)

From Stdlib Require Import ZArith String Ascii List Permutation Sorted.
From Stdlib Require Strings.Byte.
From stdpp Require Import base tactics option list strings pretty gmap.

Local Open Scope string_scope.
Local Open Scope Z_scope.

(** ** JavaScript values as far as the handlers look at them *)

(** [!x] for a request field: [undefined] and the empty text are falsy. *)
Definition truthy (v : option string) : bool :=
  match v with
  | Some s => negb (String.eqb s "")
  | None => false
  end.

(** The text of a field already known to be a string. *)
Definition text (v : option string) : string :=
  match v with
  | Some s => s
  | None => ""
  end.

(** [a || b] on texts. *)
Definition or_else (a b : string) : string :=
  if String.eqb a "" then b else a.

(** [s.substring(0, n)]. *)
Definition substring0 (n : nat) (s : string) : string := String.substring 0 n s.

(** [new Date(cell) < new Date(now)] for a cell that may hold the empty
    text. *)
Definition date_lt (cell : option Z) (now : Z) : bool :=
  match cell with
  | Some t => t <? now
  | None => false
  end.

(** ** The record store *)

Module User.
Record t := mk {
  email : string;
  username : string;
  password_hash : string;
  salt : string;
  created_at : Z;
  verified : bool;
  verify_token : string;
  reset_token : string;
  reset_token_expires : option Z;
  updated_at : Z
}.
End User.

Module Session.
Record t := mk {
  token : string;
  user_email : string;
  created_at : Z;
  expires_at : Z
}.
End Session.

Module Chat.
(** The id is [now + '_' + Math.random().toString(36).substr(2, 9)]: the
    instant and the random draw it is made of. *)
Record t := mk {
  id : Z * nat;
  session_id : string;
  user_email : string;
  message_type : string;
  content : string;
  created_at : Z
}.
End Chat.

Record Mail := mkMail {
  mail_to : string;
  mail_subject : string;
  mail_token : string
}.

Record World := mkWorld {
  users : list User.t;
  sessions : list Session.t;
  chat_history : list Chat.t;
  clock : Z;
  entropy : nat -> nat;
  cursor : nat;
  outbox : list Mail
}.

Definition set_users (f : list User.t -> list User.t) (w : World) : World :=
  mkWorld (f (users w)) (sessions w) (chat_history w) (clock w)
          (entropy w) (cursor w) (outbox w).

Definition set_sessions (f : list Session.t -> list Session.t) (w : World) : World :=
  mkWorld (users w) (f (sessions w)) (chat_history w) (clock w)
          (entropy w) (cursor w) (outbox w).

Definition set_chat_history (f : list Chat.t -> list Chat.t) (w : World) : World :=
  mkWorld (users w) (sessions w) (f (chat_history w)) (clock w)
          (entropy w) (cursor w) (outbox w).

Definition set_clock (t : Z) (w : World) : World :=
  mkWorld (users w) (sessions w) (chat_history w) t
          (entropy w) (cursor w) (outbox w).

(** ** Handlers run in a state monad with exceptions *)

Inductive Outcome (A : Type) : Type :=
| Return (a : A)
| Throw (message : string).
Arguments Return {A} a.
Arguments Throw {A} message.

Definition M (A : Type) : Type := World -> Outcome A * World.

Definition ret {A} (a : A) : M A := fun w => (Return a, w).

Definition bind {A B} (m : M A) (k : A -> M B) : M B :=
  fun w =>
    match m w with
    | (Return a, w') => k a w'
    | (Throw e, w') => (Throw e, w')
    end.

Definition throw {A} (e : string) : M A := fun w => (Throw e, w).

Definition gets {A} (f : World -> A) : M A := fun w => (Return (f w), w).

Definition modify (f : World -> World) : M unit := fun w => (Return tt, f w).

Declare Scope js_scope.
Delimit Scope js_scope with js.
Notation "'let*' x ':=' m 'in' k" := (bind m (fun x => k))
  (at level 10, x pattern, m at level 100, k at level 200) : js_scope.
Notation "'run' m 'in' k" := (bind m (fun _ => k))
  (at level 10, m at level 100, k at level 200) : js_scope.
Local Open Scope js_scope.

(** [new Date()] *)
Definition newDate : M Z := gets clock.

(** [Math.random()]: the next draw of the entropy stream. *)
Definition Math_random : M nat :=
  fun w =>
    (Return (entropy w (cursor w)),
     mkWorld (users w) (sessions w) (chat_history w) (clock w)
             (entropy w) (S (cursor w)) (outbox w)).

(** [Math.floor(Math.random() * n)] *)
Definition random_below (n : nat) : M nat :=
  let* r := Math_random in ret (r mod n)%nat.

(** A mail that [MailApp.sendEmail] accepts joins the outbox. *)
Definition deliver (m : Mail) : M unit :=
  modify (fun w =>
    mkWorld (users w) (sessions w) (chat_history w) (clock w)
            (entropy w) (cursor w) (outbox w ++ [m])).

(** The loop shared by the four finders: [for (let i = 1; i < data.length;
    i++) if (p(data[i])) return {row: i + 1, ...}]. The result carries the
    sheet row number [i + 1] and the row. *)
Fixpoint scan {A} (p : A -> bool) (i : nat) (data : list A) : option (nat * A) :=
  match data with
  | [] => None
  | r :: rest => if p r then Some (S i, r) else scan p (S i) rest
  end.

Definition getValues {A} (sheet : list A) : list A := sheet.

Definition findUserByEmail (email : string) : M (option (nat * User.t)) :=
  let* data := gets users in
  ret (scan (fun r => String.eqb (User.email r) email) 1 (getValues data)).

Definition findUserByVerifyToken (token : string) : M (option (nat * User.t)) :=
  let* data := gets users in
  ret (scan (fun r => String.eqb (User.verify_token r) token) 1 (getValues data)).

Definition findUserByResetToken (token : string) : M (option (nat * User.t)) :=
  let* data := gets users in
  ret (scan (fun r => String.eqb (User.reset_token r) token) 1 (getValues data)).

Definition findSessionByToken (token : string) : M (option (nat * Session.t)) :=
  let* data := gets sessions in
  ret (scan (fun r => String.eqb (Session.token r) token) 1 (getValues data)).

(** A field name of the users sheet together with the value written to it. *)
Inductive UserField :=
| F_email (v : string)
| F_username (v : string)
| F_password_hash (v : string)
| F_salt (v : string)
| F_created_at (v : Z)
| F_verified (v : bool)
| F_verify_token (v : string)
| F_reset_token (v : string)
| F_reset_token_expires (v : option Z)
| F_updated_at (v : Z).

Definition colMap (f : UserField) : nat :=
  match f with
  | F_email _ => 1
  | F_username _ => 2
  | F_password_hash _ => 3
  | F_salt _ => 4
  | F_created_at _ => 5
  | F_verified _ => 6
  | F_verify_token _ => 7
  | F_reset_token _ => 8
  | F_reset_token_expires _ => 9
  | F_updated_at _ => 10
  end%nat.

(** The cell of column [colMap f] of a row takes the value of [f]. *)
Definition setValue (f : UserField) (u : User.t) : User.t :=
  match f with
  | F_email v =>
      User.mk v (User.username u) (User.password_hash u) (User.salt u)
        (User.created_at u) (User.verified u) (User.verify_token u)
        (User.reset_token u) (User.reset_token_expires u) (User.updated_at u)
  | F_username v =>
      User.mk (User.email u) v (User.password_hash u) (User.salt u)
        (User.created_at u) (User.verified u) (User.verify_token u)
        (User.reset_token u) (User.reset_token_expires u) (User.updated_at u)
  | F_password_hash v =>
      User.mk (User.email u) (User.username u) v (User.salt u)
        (User.created_at u) (User.verified u) (User.verify_token u)
        (User.reset_token u) (User.reset_token_expires u) (User.updated_at u)
  | F_salt v =>
      User.mk (User.email u) (User.username u) (User.password_hash u) v
        (User.created_at u) (User.verified u) (User.verify_token u)
        (User.reset_token u) (User.reset_token_expires u) (User.updated_at u)
  | F_created_at v =>
      User.mk (User.email u) (User.username u) (User.password_hash u) (User.salt u)
        v (User.verified u) (User.verify_token u)
        (User.reset_token u) (User.reset_token_expires u) (User.updated_at u)
  | F_verified v =>
      User.mk (User.email u) (User.username u) (User.password_hash u) (User.salt u)
        (User.created_at u) v (User.verify_token u)
        (User.reset_token u) (User.reset_token_expires u) (User.updated_at u)
  | F_verify_token v =>
      User.mk (User.email u) (User.username u) (User.password_hash u) (User.salt u)
        (User.created_at u) (User.verified u) v
        (User.reset_token u) (User.reset_token_expires u) (User.updated_at u)
  | F_reset_token v =>
      User.mk (User.email u) (User.username u) (User.password_hash u) (User.salt u)
        (User.created_at u) (User.verified u) (User.verify_token u)
        v (User.reset_token_expires u) (User.updated_at u)
  | F_reset_token_expires v =>
      User.mk (User.email u) (User.username u) (User.password_hash u) (User.salt u)
        (User.created_at u) (User.verified u) (User.verify_token u)
        (User.reset_token u) v (User.updated_at u)
  | F_updated_at v =>
      User.mk (User.email u) (User.username u) (User.password_hash u) (User.salt u)
        (User.created_at u) (User.verified u) (User.verify_token u)
        (User.reset_token u) (User.reset_token_expires u) v
  end.

(** [sheet.getRange(row, col).setValue(value)] on the users sheet: sheet
    row [row] is the data row at list position [row - 2]. *)
Definition setCell (row : nat) (f : UserField) (sheet : list User.t) : list User.t :=
  alter (setValue f) (row - 2)%nat sheet.

Definition updateUserField (email : string) (f : UserField) : M unit :=
  let* user := findUserByEmail email in
  match user with
  | None => ret tt
  | Some (row, _) => modify (set_users (setCell row f))
  end.

(** [sheet.deleteRow(row)] *)
Definition deleteRow {A} (row : nat) (sheet : list A) : list A :=
  delete (row - 2)%nat sheet.

Definition deleteSession (token : string) : M unit :=
  let* session := findSessionByToken token in
  match session with
  | Some (row, _) => modify (set_sessions (deleteRow row))
  | None => ret tt
  end.

Definition appendRow {A} (r : A) (sheet : list A) : list A := sheet ++ [r].

(** ** Configuration *)

Definition APP_URL : string := "https://tranquil-taiyaki-cf0922.netlify.app".
Definition SESSION_DURATION_DAYS : Z := 7.
Definition RESET_TOKEN_DURATION_HOURS : Z := 24.

(** ** Requests and responses *)

Module Data.
Record t := mk {
  email : option string;
  password : option string;
  username : option string;
  token : option string;
  newPassword : option string;
  sessionId : option string;
  messageType : option string;
  content : option string
}.
Definition empty : t := mk None None None None None None None None.
End Data.

Record UserSummary := mkSummary {
  summary_email : string;
  summary_username : string;
  summary_id : string;
  summary_created_at : Z
}.

Definition summary (user : User.t) : UserSummary :=
  mkSummary (User.email user) (User.username user) (User.email user)
            (User.created_at user).

Record Message := mkMessage {
  msg_id : Z * nat;
  msg_type : string;
  msg_content : string;
  msg_created_at : Z
}.

(** An entry of [sessionsMap]. *)
Record Conv := mkConv {
  conv_sessionId : string;
  conv_messages : list Message;
  conv_firstMessageTime : Z
}.

Record Conversation := mkConversation {
  sessionId : string;
  title : string;
  preview : string;
  totalMessages : nat;
  humanMessages : nat;
  aiMessages : nat;
  messages : list Message;
  createdAt : Z
}.

Record DayEntry := mkDay {
  label : string;
  count : nat
}.

Record Recent := mkRecent {
  recent_sessionId : string;
  messageCount : nat
}.

(** The [stats] object. The [percentage] of a day, a rounded
    floating-point quotient, is left out. *)
Record Stats := mkStats {
  stats_totalSessions : nat;
  stats_totalMessages : nat;
  stats_humanMessages : nat;
  stats_aiMessages : nat;
  stats_messagesByDay : list DayEntry;
  stats_recentConversations : list Recent;
  stats_firstMessageDate : option Z;
  stats_lastMessageDate : option Z
}.

Inductive Response :=
| Error (error : string)
| Success (message : string)
| SuccessOnly
| LoginSuccess (token : string) (expiresAt : Z) (user : UserSummary)
| ValidSession (user : UserSummary)
| ProfileUpdated (user : UserSummary)
| CurrentUser (user : UserSummary)
| MessageSaved (id : Z * nat)
| ChatHistory (conversations : list Conversation) (messages : list Chat.t)
| ChatStats (stats : Stats).

(** The page [handleConfirmEmail] answers with: the redirect target and the
    message shown meanwhile. *)
Inductive Html :=
| RedirectPage (redirectUrl : string) (message : string)
| PlainPage (body : string).

(** ** Credential manager *)

(** [s.charAt(k)] *)
Definition charAt (k : nat) (s : string) : string :=
  match String.get k s with
  | Some c => String c ""
  | None => ""
  end.

Definition chars : string :=
  "ABCDEFGHIJKLMNOPQRSTUVWXYZabcdefghijklmnopqrstuvwxyz0123456789".

Fixpoint generateToken_loop (n : nat) (token : string) : M string :=
  match n with
  | O => ret token
  | S n' =>
      let* k := random_below (String.length chars) in
      generateToken_loop n' (token ++ charAt k chars)
  end.

Definition generateToken (length : nat) : M string := generateToken_loop length "".

(** An element of the [Byte[]] that [computeDigest] returns, as the signed
    number JavaScript sees. *)
Definition signed (b : Byte.byte) : Z :=
  let n := Z.of_N (Byte.to_N b) in
  if n <? 128 then n else n - 256.

(** [n.toString(16)] for [0 <= n < 256] *)
Definition toString16 (n : Z) : string :=
  let digit d := charAt (Z.to_nat d) "0123456789abcdef" in
  if n <? 16 then digit n else digit (n / 16) ++ digit (n mod 16).

Definition hex_of_byte (b : Byte.byte) : string :=
  let hex := toString16 (Z.land (signed b) 255) in
  if (String.length hex =? 1)%nat then "0" ++ hex else hex.

Section Backend.

(** [Utilities.computeDigest(Utilities.DigestAlgorithm.SHA_256, input)] *)
Variable computeDigest : string -> list Byte.byte.

Definition hashPassword (password salt : string) : string :=
  let input := password ++ salt in
  let rawHash := computeDigest input in
  fold_left (fun hash b => hash ++ hex_of_byte b) rawHash "".

(** ** Auth handlers *)

Definition handleLogin (data : Data.t) : M Response :=
  let email := Data.email data in
  let password := Data.password data in
  if negb (truthy email) || negb (truthy password) then
    ret (Error "Email and password are required")
  else
    let* user := findUserByEmail (text email) in
    match user with
    | None => ret (Error "Invalid login credentials")
    | Some (_, user) =>
        if negb (User.verified user) then
          ret (Error "Email not confirmed. Please check your inbox.")
        else
          let passwordHash := hashPassword (text password) (User.salt user) in
          if negb (String.eqb passwordHash (User.password_hash user)) then
            ret (Error "Invalid login credentials")
          else
            let* token := generateToken 64 in
            let* now := newDate in
            let expiresAt := now + SESSION_DURATION_DAYS * 24 * 60 * 60 * 1000 in
            let sessionData := Session.mk token (text email) now expiresAt in
            run modify (set_sessions (appendRow sessionData)) in
            ret (LoginSuccess token expiresAt (summary user))
    end.

Definition handleValidateSession (data : Data.t) : M Response :=
  let token := Data.token data in
  if negb (truthy token) then ret (Error "Token is required")
  else
    let* session := findSessionByToken (text token) in
    match session with
    | None => ret (Error "Invalid session")
    | Some (_, session) =>
        let* now := newDate in
        if Session.expires_at session <? now then
          run deleteSession (text token) in
          ret (Error "Session expired")
        else
          let* user := findUserByEmail (Session.user_email session) in
          match user with
          | None => ret (Error "User not found")
          | Some (_, user) => ret (ValidSession (summary user))
          end
    end.

Definition handleLogout (data : Data.t) : M Response :=
  let token := Data.token data in
  run (if truthy token then deleteSession (text token) else ret tt) in
  ret SuccessOnly.

Definition handleResetPassword (data : Data.t) : M Response :=
  let token := Data.token data in
  let newPassword := Data.newPassword data in
  if negb (truthy token) || negb (truthy newPassword) then
    ret (Error "Token and new password are required")
  else if (String.length (text newPassword) <? 8)%nat then
    ret (Error "Password must be at least 8 characters")
  else
    let* user := findUserByResetToken (text token) in
    match user with
    | None => ret (Error "Invalid or expired reset token")
    | Some (_, user) =>
        let* now := newDate in
        if date_lt (User.reset_token_expires user) now then
          ret (Error "Reset token has expired")
        else
          let* salt := generateToken 32 in
          let passwordHash := hashPassword (text newPassword) salt in
          run updateUserField (User.email user) (F_password_hash passwordHash) in
          run updateUserField (User.email user) (F_salt salt) in
          run updateUserField (User.email user) (F_reset_token "") in
          run updateUserField (User.email user) (F_reset_token_expires None) in
          let* now' := newDate in
          run updateUserField (User.email user) (F_updated_at now') in
          ret (Success "Password updated successfully")
    end.

Definition handleUpdatePassword (data : Data.t) : M Response :=
  let token := Data.token data in
  let newPassword := Data.newPassword data in
  if negb (truthy token) || negb (truthy newPassword) then
    ret (Error "Token and new password are required")
  else if (String.length (text newPassword) <? 8)%nat then
    ret (Error "Password must be at least 8 characters")
  else
    let* session := findSessionByToken (text token) in
    let* now := newDate in
    match session with
    | Some (_, session) =>
        if Session.expires_at session <? now then
          ret (Error "Invalid or expired session")
        else
          let* salt := generateToken 32 in
          let passwordHash := hashPassword (text newPassword) salt in
          run updateUserField (Session.user_email session) (F_password_hash passwordHash) in
          run updateUserField (Session.user_email session) (F_salt salt) in
          run updateUserField (Session.user_email session) (F_updated_at now) in
          ret (Success "Password updated successfully")
    | None => ret (Error "Invalid or expired session")
    end.

Definition handleUpdateProfile (data : Data.t) : M Response :=
  let token := Data.token data in
  let username := Data.username data in
  if negb (truthy token) then ret (Error "Token is required")
  else
    let* session := findSessionByToken (text token) in
    let* now := newDate in
    match session with
    | Some (_, session) =>
        if Session.expires_at session <? now then
          ret (Error "Invalid or expired session")
        else
          run (match username with
               | Some username =>
                   updateUserField (Session.user_email session) (F_username username)
               | None => ret tt
               end) in
          run updateUserField (Session.user_email session) (F_updated_at now) in
          let* user := findUserByEmail (Session.user_email session) in
          match user with
          | Some (_, user) => ret (ProfileUpdated (summary user))
          | None => throw "Cannot read properties of null (reading 'email')"
          end
    | None => ret (Error "Invalid or expired session")
    end.

Definition handleGetUser (data : Data.t) : M Response :=
  let token := Data.token data in
  if negb (truthy token) then ret (Error "Token is required")
  else
    let* session := findSessionByToken (text token) in
    let* now := newDate in
    match session with
    | Some (_, session) =>
        if Session.expires_at session <? now then
          ret (Error "Invalid or expired session")
        else
          let* user := findUserByEmail (Session.user_email session) in
          match user with
          | None => ret (Error "User not found")
          | Some (_, user) => ret (CurrentUser (summary user))
          end
    | None => ret (Error "Invalid or expired session")
    end.

Definition handleConfirmEmail (token : string) : M Html :=
  let* user := findUserByVerifyToken token in
  match user with
  | None =>
      ret (RedirectPage (APP_URL ++ "/confirm.html?error=invalid_token")
                        "Token invalido o expirado.")
  | Some (_, user) =>
      if User.verified user then
        ret (RedirectPage (APP_URL ++ "/confirm.html?error=already_verified")
                          "Esta cuenta ya fue verificada.")
      else
        run updateUserField (User.email user) (F_verified true) in
        run updateUserField (User.email user) (F_verify_token "") in
        let* now := newDate in
        run updateUserField (User.email user) (F_updated_at now) in
        ret (RedirectPage (APP_URL ++ "/confirm.html?success=true")
                          "Cuenta verificada exitosamente!")
  end.

Definition doGet (action token : option string) : M Html :=
  if match action with Some a => String.eqb a "confirmEmail" | None => false end
     && truthy token
  then handleConfirmEmail (text token)
  else ret (PlainPage "Invalid request").

(** ** Chat history handlers *)

Definition handleSaveChatMessage (data : Data.t) : M Response :=
  let token := Data.token data in
  if negb (truthy token) then ret (Error "Token is required")
  else
    let* session := findSessionByToken (text token) in
    let* now := newDate in
    match session with
    | Some (_, session) =>
        if Session.expires_at session <? now then
          ret (Error "Invalid or expired session")
        else
          let* r := Math_random in
          let id := (now, r) in
          let messageData :=
            Chat.mk id (text (Data.sessionId data)) (Session.user_email session)
                    (text (Data.messageType data)) (text (Data.content data)) now in
          run modify (set_chat_history (appendRow messageData)) in
          ret (MessageSaved id)
    | None => ret (Error "Invalid or expired session")
    end.

(** [sessionsMap] is a plain object: its own properties, in creation
    order, and behind them the properties every object inherits from
    [Object.prototype]. *)
Definition Object_prototype : list string :=
  [ "constructor"; "__proto__"; "hasOwnProperty"; "isPrototypeOf";
    "propertyIsEnumerable"; "toLocaleString"; "toString"; "valueOf";
    "__defineGetter__"; "__defineSetter__"; "__lookupGetter__";
    "__lookupSetter__" ].

Definition inherited (key : string) : bool :=
  existsb (String.eqb key) Object_prototype.

Fixpoint own {A} (key : string) (obj : list (string * A)) : option A :=
  match obj with
  | [] => None
  | (k, v) :: rest => if String.eqb k key then Some v else own key rest
  end.

Fixpoint alter_own {A} (f : A -> A) (key : string) (obj : list (string * A))
  : list (string * A) :=
  match obj with
  | [] => []
  | (k, v) :: rest =>
      if String.eqb k key then (k, f v) :: rest
      else (k, v) :: alter_own f key rest
  end.

Definition push (m : Message) (conv : Conv) : Conv :=
  mkConv (conv_sessionId conv) (conv_messages conv ++ [m])
         (conv_firstMessageTime conv).

Definition message_of (row : Chat.t) : Message :=
  mkMessage (Chat.id row) (Chat.message_type row) (Chat.content row)
            (Chat.created_at row).

(** The body of the grouping loop for one row. [sessionsMap[sessionId]]
    reads an own property or, failing that, an inherited one; an inherited
    one is truthy, so no entry is created, and it has no [messages], so
    that [.messages.push] raises a TypeError. *)
Definition group_row (email : string) (sessionsMap : list (string * Conv))
    (row : Chat.t) : Outcome (list (string * Conv)) :=
  if String.eqb (Chat.user_email row) email then
    let sessionId := Chat.session_id row in
    match own sessionId sessionsMap with
    | Some _ => Return (alter_own (push (message_of row)) sessionId sessionsMap)
    | None =>
        if inherited sessionId then
          Throw "Cannot read properties of undefined (reading 'push')"
        else
          Return (sessionsMap ++
                  [(sessionId,
                    push (message_of row) (mkConv sessionId [] (Chat.created_at row)))])%list
    end
  else Return sessionsMap.

Fixpoint group_rows (email : string) (sessionsMap : list (string * Conv))
    (rows : list Chat.t) : Outcome (list (string * Conv)) :=
  match rows with
  | [] => Return sessionsMap
  | row :: rest =>
      match group_row email sessionsMap row with
      | Return sessionsMap' => group_rows email sessionsMap' rest
      | Throw e => Throw e
      end
  end.

(** The value of a decimal numeral, if the text is one. *)
Fixpoint digits (s : string) (acc : N) : option N :=
  match s with
  | EmptyString => Some acc
  | String c rest =>
      let n := N_of_ascii c in
      if ((48 <=? n) && (n <=? 57))%N then digits rest (10 * acc + (n - 48))%N
      else None
  end.

(** A property key that is an array index: a canonical numeral below
    [2^32 - 1]. *)
Definition array_index (key : string) : option N :=
  match key with
  | EmptyString => None
  | String c rest =>
      if Ascii.eqb c "0" && negb (String.eqb rest "") then None
      else
        match digits key 0%N with
        | Some n => if (n <? 4294967295)%N then Some n else None
        | None => None
        end
  end.

Fixpoint insert_index {A} (n : N) (v : A) (l : list (N * A)) : list (N * A) :=
  match l with
  | [] => [(n, v)]
  | (m, u) :: rest =>
      if (n <=? m)%N then (n, v) :: (m, u) :: rest
      else (m, u) :: insert_index n v rest
  end.

(** [Object.values(obj)]: the values under array-index keys in ascending
    order of the index, then the others in creation order. *)
Definition Object_values {A} (obj : list (string * A)) : list A :=
  let indexed :=
    foldr (fun kv acc =>
             match array_index (fst kv) with
             | Some n => insert_index n (snd kv) acc
             | None => acc
             end) [] obj in
  let named :=
    List.filter (fun kv => match array_index (fst kv) with
                           | Some _ => false
                           | None => true
                           end) obj in
  (map snd indexed ++ map snd named)%list.

Definition is_type (ty : string) (m : Message) : bool := String.eqb (msg_type m) ty.

(** [humanMessages[0]?.content?.substring(0, n) || fallback] *)
Definition excerpt (n : nat) (fallback : string) (humanMessages : list Message)
  : string :=
  match humanMessages with
  | m :: _ => or_else (substring0 n (msg_content m)) fallback
  | [] => fallback
  end.

Definition conversation_of (conv : Conv) : Conversation :=
  let humanMessages := List.filter (is_type "human") (conv_messages conv) in
  let aiMessages := List.filter (is_type "ai") (conv_messages conv) in
  mkConversation
    (conv_sessionId conv)
    (excerpt 50 "Conversacion" humanMessages)
    (excerpt 100 "" humanMessages)
    (List.length (conv_messages conv))
    (List.length humanMessages)
    (List.length aiMessages)
    (conv_messages conv)
    (conv_firstMessageTime conv).

(** [conversations.sort((a, b) => new Date(b.createdAt) - new Date(a.createdAt))]:
    a stable sort, most recent first. *)
Fixpoint insert_conversation (a : Conversation) (l : list Conversation)
  : list Conversation :=
  match l with
  | [] => [a]
  | b :: rest =>
      if createdAt b - createdAt a <=? 0 then a :: b :: rest
      else b :: insert_conversation a rest
  end.

Definition sort_conversations (l : list Conversation) : list Conversation :=
  foldr insert_conversation [] l.

Definition of_user (email : string) (row : Chat.t) : bool :=
  String.eqb (Chat.user_email row) email.

Definition handleGetChatHistory (data : Data.t) : M Response :=
  let token := Data.token data in
  if negb (truthy token) then ret (Error "Token is required")
  else
    let* session := findSessionByToken (text token) in
    let* now := newDate in
    match session with
    | Some (_, session) =>
        if Session.expires_at session <? now then
          ret (Error "Invalid or expired session")
        else
          let* allData := gets chat_history in
          match group_rows (Session.user_email session) [] (getValues allData) with
          | Throw e => throw e
          | Return sessionsMap =>
              let conversations := map conversation_of (Object_values sessionsMap) in
              let conversations := sort_conversations conversations in
              let messages :=
                List.filter (of_user (Session.user_email session)) (getValues allData) in
              ret (ChatHistory conversations messages)
          end
    | None => ret (Error "Invalid or expired session")
    end.

(** Milliseconds in a day and the calendar day of an instant (the part of
    [toISOString()] before the ['T'], which is in UTC). *)
Definition MS_PER_DAY : Z := 24 * 60 * 60 * 1000.
Definition utc_day (t : Z) : Z := t / MS_PER_DAY.
Definition days : list string := ["Dom"; "Lun"; "Mar"; "Mie"; "Jue"; "Vie"; "Sab"].

(** A [Set] of texts: its elements in insertion order. *)
Definition set_add (x : string) (s : list string) : list string :=
  if existsb (String.eqb x) s then s else (s ++ [x])%list.

(** The running state of the counting loop. *)
Record Tally := mkTally {
  tally_sessions : list string;
  humanCount : nat;
  aiCount : nat;
  messagesByDay : gmap Z nat
}.

Definition tally_row (email : string) (acc : Tally) (row : Chat.t) : Tally :=
  if String.eqb (Chat.user_email row) email then
    let sessions := set_add (Chat.session_id row) (tally_sessions acc) in
    let humanCount :=
      if String.eqb (Chat.message_type row) "human"
      then S (humanCount acc) else humanCount acc in
    let aiCount :=
      if String.eqb (Chat.message_type row) "human" then aiCount acc
      else if String.eqb (Chat.message_type row) "ai"
           then S (aiCount acc) else aiCount acc in
    let date := utc_day (Chat.created_at row) in
    let byDay :=
      <[date := (default 0 (messagesByDay acc !! date) + 1)%nat]> (messagesByDay acc) in
    mkTally sessions humanCount aiCount byDay
  else acc.

(** [Array.from(sessions).slice(-5)] *)
Definition slice_last (n : nat) (l : list string) : list string :=
  skipn (List.length l - n) l.

(** The loop over the first and last message dates. *)
Definition date_row (email : string) (acc : option Z * option Z) (row : Chat.t)
  : option Z * option Z :=
  if String.eqb (Chat.user_email row) email then
    let date := Chat.created_at row in
    let firstMessageDate :=
      match fst acc with
      | None => Some date
      | Some first => if date <? first then Some date else Some first
      end in
    let lastMessageDate :=
      match snd acc with
      | None => Some date
      | Some last => if last <? date then Some date else Some last
      end in
    (firstMessageDate, lastMessageDate)
  else acc.

End Backend.

(** ** The script's environment *)

(** The time zone of the script, as far as [handleGetChatStats] looks at
    it. [days_before i d] is the instant that [d.setDate(d.getDate() - i)]
    leaves in [d]: the same time of day [i] calendar days earlier, both
    read in the zone. [getDay d] is [d.getDay()], the weekday of [d] in the
    zone, 0 for Sunday. *)
Record TimeZone := mkTimeZone {
  days_before : Z -> Z -> Z;
  getDay : Z -> Z
}.

(** Row 0 of the chat sheet, the header: its cells in column B
    (session_id) and column C (user_email), [None] for a cell that holds
    no text. *)
Record Header := mkHeader {
  header_session_id : option string;
  header_user_email : option string
}.

(** [cell === s] for a text [s]. *)
Definition cell_is (cell : option string) (s : string) : bool :=
  match cell with
  | Some c => String.eqb c s
  | None => false
  end.

(** ** The handlers that reach the environment *)

Module Script.
Section Backend.

Variable computeDigest : string -> list Byte.byte.

(** The message of the exception that [MailApp.sendEmail] throws for a
    mail (a recipient it does not take for an address, a spent quota);
    [None] for a mail it accepts. *)
Variable refusal : Mail -> option string.

Variable zone : TimeZone.

Variable header : Header.

(** [MailApp.sendEmail] *)
Definition sendEmail (m : Mail) : M unit :=
  match refusal m with
  | Some message => throw message
  | None => deliver m
  end.

Definition sendVerificationEmail (email token : string) : M unit :=
  sendEmail (mkMail email "Confirma tu cuenta - Family6 SaaS" token).

Definition sendResetEmail (email token : string) : M unit :=
  sendEmail (mkMail email "Restablecer contrasena - Family6 SaaS" token).

Definition handleSignup (data : Data.t) : M Response :=
  let email := Data.email data in
  let password := Data.password data in
  let username := Data.username data in
  if negb (truthy email) || negb (truthy password) then
    ret (Error "Email and password are required")
  else
    let* existingUser := findUserByEmail (text email) in
    match existingUser with
    | Some _ => ret (Error "This email is already registered")
    | None =>
        let* salt := generateToken 32 in
        let passwordHash := hashPassword computeDigest (text password) salt in
        let* verifyToken := generateToken 32 in
        let* now := newDate in
        let userData :=
          User.mk (text email) (or_else (text username) "") passwordHash salt
                  now false verifyToken "" None now in
        run modify (set_users (appendRow userData)) in
        run sendVerificationEmail (text email) verifyToken in
        ret (Success "Registration successful. Please check your email to verify your account.")
    end.

Definition handleRequestReset (data : Data.t) : M Response :=
  let email := Data.email data in
  if negb (truthy email) then ret (Error "Email is required")
  else
    let* user := findUserByEmail (text email) in
    run (match user with
         | Some _ =>
             let* resetToken := generateToken 32 in
             let* now := newDate in
             let expires := now + RESET_TOKEN_DURATION_HOURS * 60 * 60 * 1000 in
             run updateUserField (text email) (F_reset_token resetToken) in
             run updateUserField (text email) (F_reset_token_expires (Some expires)) in
             sendResetEmail (text email) resetToken
         | None => ret tt
         end) in
    ret (Success "If an account exists with this email, a password reset link has been sent.").

(** The loop over the last seven days: [new Date()], then
    [d.setDate(d.getDate() - i)] in the script's zone, then the UTC date of
    the instant reached as the key and its weekday in the zone as the
    label. *)
Definition last7Days (now : Z) (byDay : gmap Z nat) : list DayEntry :=
  map (fun i : Z =>
         let d := days_before zone i now in
         let dateStr := utc_day d in
         mkDay (nth (Z.to_nat (getDay zone d)) days "")
               (default 0%nat (byDay !! dateStr)))
      [6; 5; 4; 3; 2; 1; 0].

(** The message count of a recent conversation. [allData.filter] visits
    every row of the sheet: row 0, the header, and then the data rows. *)
Definition recent (email : string) (allData : list Chat.t) (sessionId : string) : Recent :=
  let row0 :=
    cell_is (header_session_id header) sessionId
    && cell_is (header_user_email header) email in
  let messages :=
    List.filter (fun row => String.eqb (Chat.session_id row) sessionId
                            && String.eqb (Chat.user_email row) email) allData in
  mkRecent sessionId ((if row0 then 1 else 0) + List.length messages).

Definition handleGetChatStats (data : Data.t) : M Response :=
  let token := Data.token data in
  if negb (truthy token) then ret (Error "Token is required")
  else
    let* session := findSessionByToken (text token) in
    let* now := newDate in
    match session with
    | Some (_, session) =>
        if Session.expires_at session <? now then
          ret (Error "Invalid or expired session")
        else
          let* allData := gets chat_history in
          let acc :=
            fold_left (tally_row (Session.user_email session)) (getValues allData)
                      (mkTally [] 0 0 ∅) in
          let recentConversations :=
            map (recent (Session.user_email session) (getValues allData))
                (slice_last 5 (tally_sessions acc)) in
          let dates :=
            fold_left (date_row (Session.user_email session)) (getValues allData)
                      (None, None) in
          ret (ChatStats
                 (mkStats (List.length (tally_sessions acc))
                          (humanCount acc + aiCount acc)
                          (humanCount acc)
                          (aiCount acc)
                          (last7Days now (messagesByDay acc))
                          (rev recentConversations)
                          (fst dates)
                          (snd dates)))
    | None => ret (Error "Invalid or expired session")
    end.

(** ** The POST entry point *)

Definition dispatch (action : string) (data : Data.t) : M Response :=
  if String.eqb action "signup" then handleSignup data
  else if String.eqb action "login" then handleLogin computeDigest data
  else if String.eqb action "validateSession" then handleValidateSession data
  else if String.eqb action "logout" then handleLogout data
  else if String.eqb action "requestReset" then handleRequestReset data
  else if String.eqb action "resetPassword" then handleResetPassword computeDigest data
  else if String.eqb action "updatePassword" then handleUpdatePassword computeDigest data
  else if String.eqb action "updateProfile" then handleUpdateProfile data
  else if String.eqb action "getUser" then handleGetUser data
  else if String.eqb action "saveChatMessage" then handleSaveChatMessage data
  else if String.eqb action "getChatHistory" then handleGetChatHistory data
  else if String.eqb action "getChatStats" then handleGetChatStats data
  else ret (Error "Unknown action").

(** [try { ... } catch (error) { return { error: error.message } }] *)
Definition doPost (action : string) (data : Data.t) (w : World) : Response * World :=
  match dispatch action data w with
  | (Return result, w') => (result, w')
  | (Throw message, w') => (Error message, w')
  end.

End Backend.
End Script.

(** ** The script in a plain environment

    Where a property is not stated for every environment, it is stated
    for this one: a mail service that accepts every mail, a script that
    runs in UTC, and a chat sheet whose header holds the titles of its
    columns. *)

Definition no_refusal : Mail -> option string := fun _ => None.

Definition UTC : TimeZone :=
  mkTimeZone (fun i d => d - i * MS_PER_DAY) (fun d => (utc_day d + 4) mod 7).

Definition titles : Header := mkHeader (Some "session_id") (Some "user_email").

Definition handleSignup (computeDigest : string -> list Byte.byte) : Data.t -> M Response :=
  Script.handleSignup computeDigest no_refusal.

Definition handleGetChatStats : Data.t -> M Response :=
  Script.handleGetChatStats UTC titles.

Definition dispatch (computeDigest : string -> list Byte.byte)
  : string -> Data.t -> M Response :=
  Script.dispatch computeDigest no_refusal UTC titles.

Definition doPost (computeDigest : string -> list Byte.byte)
  : string -> Data.t -> World -> Response * World :=
  Script.doPost computeDigest no_refusal UTC titles.

(** ** The chat relay (client side) *)

(** What [JSON.parse] returns. A number carries its decimal text, the one
    [String(n)] gives. *)
#[local] Unset Elimination Schemes.
Inductive json :=
| JNull
| JBool (b : bool)
| JNum (repr : string)
| JStr (s : string)
| JArr (items : list json)
| JObj (fields : list (string * json)).
#[local] Set Elimination Schemes.

(** [json.key] for the keys ['type'] and ['content']: the last field of
    that name of an object, [undefined] on other values, a TypeError on
    [null]. *)
Fixpoint field (key : string) (fields : list (string * json)) : option json :=
  match fields with
  | [] => None
  | (k, v) :: rest =>
      match field key rest with
      | Some v' => Some v'
      | None => if String.eqb k key then Some v else None
      end
  end.

Definition get (j : json) (key : string) : Outcome (option json) :=
  match j with
  | JNull => Throw ("Cannot read properties of null (reading '" ++ key ++ "')")
  | JObj fields => Return (field key fields)
  | _ => Return None
  end.

Definition truthy_json (v : option json) : bool :=
  match v with
  | None => false
  | Some JNull => false
  | Some (JBool b) => b
  | Some (JNum repr) => negb (String.eqb repr "0")
  | Some (JStr s) => negb (String.eqb s "")
  | Some (JArr _) => true
  | Some (JObj _) => true
  end.

Definition join (sep : string) (parts : list string) : string :=
  match parts with
  | [] => ""
  | p :: rest => fold_left (fun acc q => acc ++ sep ++ q) rest p
  end.

(** [String(v)] *)
Fixpoint ToString (j : json) : string :=
  match j with
  | JNull => "null"
  | JBool true => "true"
  | JBool false => "false"
  | JNum repr => repr
  | JStr s => s
  | JArr items =>
      join "," (map (fun x => match x with
                              | JNull => ""
                              | _ => ToString x
                              end) items)
  | JObj _ => "[object Object]"
  end.

Definition is_text (v : option json) (s : string) : bool :=
  match v with
  | Some (JStr s') => String.eqb s' s
  | _ => false
  end.

(** White space and line ends that [trim] removes, among the code units
    below 256: U+0009 to U+000D, U+0020 and U+00A0. *)
Definition white (c : ascii) : bool :=
  let n := nat_of_ascii c in
  ((9 <=? n) && (n <=? 13) || (n =? 32) || (n =? 160))%nat.

Fixpoint trimStart (s : string) : string :=
  match s with
  | String c rest => if white c then trimStart rest else s
  | EmptyString => EmptyString
  end.

Fixpoint trimEnd (s : string) : string :=
  match s with
  | String c rest =>
      match trimEnd rest with
      | EmptyString => if white c then EmptyString else String c EmptyString
      | rest' => String c rest'
      end
  | EmptyString => EmptyString
  end.

Definition trim (s : string) : string := trimEnd (trimStart s).

(** [s.split('\n')], with the line being read in [line] *)
Fixpoint split_newline (s : string) (line : string) : list string :=
  match s with
  | EmptyString => [line]
  | String c rest =>
      if Ascii.eqb c "010" then line :: split_newline rest ""
      else split_newline rest (line ++ String c "")
  end.

Inductive Fetched :=
| Failed (message : string)
| Responded (ok : bool) (status : nat) (body : string).

Inductive Payload :=
| Parsed (data : json)
| Output (output : string).

Record Result := mkResult {
  data : option Payload;
  error : option string
}.

Section ChatRelay.

Variable JSON_parse : string -> option json.

(** The body of the [try] block of the loop over the lines: the new
    [fullContent], or what it throws. *)
Definition read_line (fullContent line : string) : Outcome string :=
  match JSON_parse line with
  | None => Throw "Unexpected token in JSON"
  | Some json =>
      match get json "type" with
      | Throw e => Throw e
      | Return type =>
          match get json "content" with
          | Throw e => Throw e
          | Return content =>
              if is_text type "item" && truthy_json content then
                Return (fullContent ++ ToString (default JNull content))
              else if is_text type "error" then
                Throw (if truthy_json content
                       then ToString (default JNull content)
                       else "Error from n8n")
              else Return fullContent
          end
      end
  end.

(** [try { ... } catch (e) { /* Skip invalid JSON lines */ }] *)
Definition try_line (fullContent line : string) : string :=
  match read_line fullContent line with
  | Return fullContent' => fullContent'
  | Throw _ => fullContent
  end.

(** [sendMessage], given what [fetch] came back with. The request it
    posts (session id, trimmed message, metadata) does not bear on how the
    answer is read and is left out. *)
Definition sendMessage (message : string) (response : Fetched) : Result :=
  if String.eqb (trim message) "" then
    mkResult None (Some "Message cannot be empty")
  else
    match response with
    | Failed e => mkResult None (Some e)
    | Responded ok status text =>
        if negb ok then
          mkResult None (Some ("HTTP error! status: " ++ pretty status))
        else
          let lines := split_newline (trim text) "" in
          let fullContent := fold_left try_line lines "" in
          let fallback :=
            if String.eqb fullContent "" && (List.length lines =? 1)%nat then
              match JSON_parse (nth 0 lines "") with
              | Some data => inl (mkResult (Some (Parsed data)) None)
              | None => inr text
              end
            else inr fullContent in
          match fallback with
          | inl result => result
          | inr fullContent =>
              mkResult (Some (Output (or_else fullContent text))) None
          end
    end.

End ChatRelay.

(** * The pages (client side)

    The parts of the browser code that compute: the session id of the
    chat (chat.js), two form helpers (ui.js), the route protection
    (router.js, config.js), the session store and the API client
    (api.js), and the session and the callback links as the pages see
    them (auth.js). Conventions.
    - An item of [sessionStorage] or [localStorage] is an [option string]:
      [None] when there is none.
    - A function that awaits one [fetch] takes what came back, a
      [Fetched], as an argument; the request it posts is not modelled.
    - [JSON.parse] and [JSON.stringify] are the environment; values are
      [json], and [null] or [undefined] is [None] where a value may be
      missing.
    - [Math.random() * 16 | 0] is the next draw of the page's entropy
      stream, reduced modulo 16. *)

(** ** The chat page: session ids *)

Module Page.
(** What [chat.js] keeps between calls: its variables [sessionId] and
    [currentUser] (of which only [currentUser?.id] is read here), the
    item 'chat_session_id' of [sessionStorage], and the stream that
    [Math.random] draws from. *)
Record t := mk {
  sessionId : option string;
  currentUser_id : option string;
  chat_session_id : option string;
  entropy : nat -> nat;
  cursor : nat
}.
End Page.

(** ['...'.replace(/[xy]/g, function(c) {...})]: the callback runs once
    for each [x] or [y], from left to right, with
    [r = Math.random() * 16 | 0]. *)
Fixpoint replace_xy (template : string) (p : Page.t) : string * Page.t :=
  match template with
  | EmptyString => (EmptyString, p)
  | String c rest =>
      if Ascii.eqb c "x" || Ascii.eqb c "y" then
        let r := Z.of_nat (Page.entropy p (Page.cursor p) mod 16) in
        let v := if Ascii.eqb c "x" then r else Z.lor (Z.land r 3) 8 in
        let p1 := Page.mk (Page.sessionId p) (Page.currentUser_id p)
                          (Page.chat_session_id p) (Page.entropy p)
                          (S (Page.cursor p)) in
        let (s, p2) := replace_xy rest p1 in
        (toString16 v ++ s, p2)
      else
        let (s, p1) := replace_xy rest p in
        (String c s, p1)
  end.

Definition uuid_template : string := "xxxxxxxx-xxxx-4xxx-yxxx-xxxxxxxxxxxx".

Definition generateSessionId (p : Page.t) : string * Page.t :=
  replace_xy uuid_template p.

(** [s.split(sep)[0]] *)
Fixpoint before_first (sep : ascii) (s : string) : string :=
  match s with
  | EmptyString => EmptyString
  | String c rest =>
      if Ascii.eqb c sep then EmptyString else String c (before_first sep rest)
  end.

(** [sessionId = `${userId}_${generateSessionId()}`] followed by
    [sessionStorage.setItem('chat_session_id', sessionId)] *)
Definition new_session (p : Page.t) : string * Page.t :=
  let userId := or_else (text (Page.currentUser_id p)) "anonymous" in
  let (uuid, p1) := generateSessionId p in
  let id := userId ++ "_" ++ uuid in
  (id, Page.mk (Some id) (Page.currentUser_id p1) (Some id)
               (Page.entropy p1) (Page.cursor p1)).

Definition getSessionId (p : Page.t) : string * Page.t :=
  if negb (truthy (Page.sessionId p)) then
    let sessionId := Page.chat_session_id p in
    let sessionId :=
      if truthy sessionId && truthy (Page.currentUser_id p) then
        let sessionUserId := before_first "_" (text sessionId) in
        if negb (String.eqb sessionUserId (text (Page.currentUser_id p)))
        then None else sessionId
      else sessionId in
    if negb (truthy sessionId) then new_session p
    else
      (text sessionId,
       Page.mk sessionId (Page.currentUser_id p) (Page.chat_session_id p)
               (Page.entropy p) (Page.cursor p))
  else (text (Page.sessionId p), p).

(** [clearChat()], as far as the session id goes. *)
Definition clearChat (p : Page.t) : Page.t := snd (new_session p).

(** ** Form helpers (ui.js) *)

Record Validation := mkValidation {
  isValid : bool;
  validation_message : string
}.

Definition validatePassword (password : string) : Validation :=
  if (String.length password <? 8)%nat then
    mkValidation false "La contrasena debe tener al menos 8 caracteres"
  else mkValidation true "".

(** [formatRelativeTime(date)] when the page's clock shows [now]; both are
    instants in milliseconds ([new Date(date)] being a valid date), and
    [Math.floor] is the division of [Z]. *)
Definition formatRelativeTime (date now : Z) : string :=
  let diff := now - date in
  let seconds := diff / 1000 in
  let minutes := seconds / 60 in
  let hours := minutes / 60 in
  let days := hours / 24 in
  if 0 <? days then "hace " ++ pretty days ++ " dia" ++ (if 1 <? days then "s" else "")
  else if 0 <? hours then
    "hace " ++ pretty hours ++ " hora" ++ (if 1 <? hours then "s" else "")
  else if 0 <? minutes then
    "hace " ++ pretty minutes ++ " minuto" ++ (if 1 <? minutes then "s" else "")
  else "ahora mismo".

(** ** Route protection (router.js with the routes of config.js) *)

Definition LOGIN : string := "/login.html".
Definition DASHBOARD : string := "/dashboard.html".

Definition PROTECTED_ROUTES : list string :=
  ["/dashboard.html"; "/conversaciones.html"; "/analiticas.html"; "/configuracion.html"].

Definition AUTH_ROUTES : list string := ["/login.html"; "/register.html"].

(** [s.endsWith(suffix)] *)
Fixpoint endsWith (s suffix : string) : bool :=
  String.eqb s suffix ||
  match s with
  | String _ rest => endsWith rest suffix
  | EmptyString => false
  end.

(** [isProtectedRoute()] and [isAuthRoute()] on the page whose
    [window.location.pathname] is [currentPath]. *)
Definition isProtectedRoute (currentPath : string) : bool :=
  existsb (fun route => endsWith currentPath route || String.eqb currentPath route)
          PROTECTED_ROUTES.

Definition isAuthRoute (currentPath : string) : bool :=
  existsb (fun route => endsWith currentPath route || String.eqb currentPath route)
          AUTH_ROUTES.

(** [initRouteProtection()], given whether [getSession()] came back with
    a session: the route it redirects to, if any, and its result. *)
Definition initRouteProtection (currentPath : string) (session : bool)
  : option string * bool :=
  if isProtectedRoute currentPath && negb session then (Some LOGIN, false)
  else if isAuthRoute currentPath && session then (Some DASHBOARD, false)
  else (None, true).

(** ** The session store and the API client (api.js) *)

Module Api.

(** [{ data, error }]. [null] is [None]; of an error object only its
    [message] is kept. *)
Record Result := mk {
  data : option json;
  error : option json
}.

Definition failure (message : json) : Result := mk None (Some message).

(** [j?.key], and [j.key] where [j] is known not to be [null]: [undefined]
    on [null] and on values that are no objects (the keys read here are
    no properties of texts, numbers or arrays). *)
Definition prop (j : option json) (key : string) : option json :=
  match j with
  | Some (JObj fields) => field key fields
  | _ => None
  end.

(** An object literal as [JSON.stringify] sees it: a property whose value
    is [undefined] is left out. *)
Definition object_of (props : list (string * option json)) : json :=
  JObj (omap (fun kv => match snd kv with
                        | Some v => Some (fst kv, v)
                        | None => None
                        end) props).

(** [session.key = v] on an object. *)
Definition set_field (key : string) (v : json) (fields : list (string * json))
  : list (string * json) :=
  if existsb (fun kv => String.eqb (fst kv) key) fields then
    map (fun kv => if String.eqb (fst kv) key then (fst kv, v) else kv) fields
  else (fields ++ [(key, v)])%list.

Definition set_prop (key : string) (v : json) (j : json) : json :=
  match j with
  | JObj fields => JObj (set_field key v fields)
  | _ => j
  end.

Section Client.

Variable JSON_parse : string -> option json.
Variable JSON_stringify : json -> string.

(** [apiRequest(action, data)], given what [fetch] came back with. The
    request it posts does not bear on how the answer is read. *)
Definition apiRequest (response : Fetched) : Result :=
  match response with
  | Failed e => failure (JStr e)
  | Responded ok status body =>
      if negb ok then failure (JStr ("HTTP error! status: " ++ pretty status))
      else
        match JSON_parse body with
        | None => failure (JStr "Unexpected token in JSON")
        | Some result =>
            match get result "error" with
            | Throw e => failure (JStr e)
            | Return e =>
                if truthy_json e then failure (default JNull e)
                else mk (Some result) None
            end
        end
  end.

(** The functions below work on the item 'family6_session' of
    [localStorage]: its text, or [None] when there is none. *)
Definition saveSession (session : json) (item : option string) : option string :=
  if truthy_json (Some session) then Some (JSON_stringify session) else item.

Definition getStoredSession (item : option string) : option json :=
  match item with
  | Some stored =>
      if String.eqb stored "" then None
      else
        match JSON_parse stored with
        | Some JNull => None
        | Some session => Some session
        | None => None
        end
  | None => None
  end.

Definition clearSession (item : option string) : option string := None.

Definition getSessionToken (item : option string) : option json :=
  let token := prop (getStoredSession item) "token" in
  if truthy_json token then token else None.

Definition login (response : Fetched) (item : option string)
  : Result * option string :=
  let result := apiRequest response in
  if truthy_json (data result) && truthy_json (prop (data result) "token") then
    (result,
     saveSession (object_of [("token", prop (data result) "token");
                             ("user", prop (data result) "user");
                             ("expiresAt", prop (data result) "expiresAt")]) item)
  else (result, item).

Definition validateSession (response : Fetched) (item : option string)
  : Result * option string :=
  match getSessionToken item with
  | None => (failure (JStr "No session token"), item)
  | Some _ =>
      let result := apiRequest response in
      match error result with
      | Some _ => (result, clearSession item)
      | None => (result, item)
      end
  end.

Definition logout (response : Fetched) (item : option string)
  : Result * option string :=
  (mk (Some (JObj [("success", JBool true)])) None, clearSession item).

(** [updatePassword(newPassword)] and [updateProfile(fields)] *)
Definition with_token (response : Fetched) (item : option string) : Result :=
  match getSessionToken item with
  | None => failure (JStr "No session token")
  | Some _ => apiRequest response
  end.

(** [getUser()]. Where it writes [session.user], the stored session has
    a token and so is an object. *)
Definition getUser (response : Fetched) (item : option string)
  : Result * option string :=
  match getSessionToken item with
  | None => (failure (JStr "No session token"), item)
  | Some _ =>
      let result := apiRequest response in
      if truthy_json (data result) && truthy_json (prop (data result) "user") then
        match getStoredSession item with
        | Some session =>
            if truthy_json (Some session) then
              (result,
               saveSession (set_prop "user" (default JNull (prop (data result) "user"))
                                     session) item)
            else (result, item)
        | None => (result, item)
        end
      else (result, item)
  end.

End Client.

End Api.

(** ** Sessions as the pages see them (auth.js) *)

Module Auth.

Section Client.

Variable JSON_parse : string -> option json.

(** [getSession()]: the [data.session] it returns and the item
    afterwards. *)
Definition getSession (response : Fetched) (item : option string)
  : option json * option string :=
  let storedSession := Api.getStoredSession JSON_parse item in
  if negb (truthy_json storedSession) then (None, item)
  else
    let (result, item1) := Api.validateSession JSON_parse response item in
    match Api.error result with
    | Some _ => (None, Api.clearSession item1)
    | None =>
        (Some (Api.object_of
                 [("token", Api.prop storedSession "token");
                  ("user",
                   if truthy_json (Api.prop (Api.data result) "user")
                   then Api.prop (Api.data result) "user"
                   else Api.prop storedSession "user");
                  ("expiresAt", Api.prop storedSession "expiresAt")]),
         item1)
    end.

End Client.

End Auth.

(** ** Links that lead back to the app (auth.js) *)

(** [s.split(sep)], with the part being read in [part] *)
Fixpoint split_on (sep : ascii) (s : string) (part : string) : list string :=
  match s with
  | EmptyString => [part]
  | String c rest =>
      if Ascii.eqb c sep then part :: split_on sep rest ""
      else split_on sep rest (part ++ String c "")
  end.

(** What follows the first [sep], if there is one. *)
Fixpoint after_first (sep : ascii) (s : string) : string :=
  match s with
  | EmptyString => EmptyString
  | String c rest => if Ascii.eqb c sep then rest else after_first sep rest
  end.

(** [new URLSearchParams(window.location.search)] on the page at [url]:
    the pairs [name=value] of the query, in order. Neither the link of
    [handleConfirmEmail] nor that of [sendResetEmail] has a fragment or an
    escaped character, and none is decoded here. *)
Definition URLSearchParams (url : string) : list (string * string) :=
  map (fun pair => (before_first "=" pair, after_first "=" pair))
      (List.filter (fun pair => negb (String.eqb pair ""))
                   (split_on "&" (after_first "?" url) "")).

(** [urlParams.get(name)] *)
Definition searchParam (name : string) (urlParams : list (string * string))
  : option string :=
  own name urlParams.

(** The link that [sendResetEmail] mails. *)
Definition resetUrl (token : string) : string :=
  APP_URL ++ "/update-password.html?token=" ++ token.

Inductive CallbackData :=
| Confirmed
| HasResetToken (token : string).

(** [{ data, error, type }], an error by its message *)
Record Callback := mkCallback {
  callback_data : option CallbackData;
  callback_error : option string;
  callback_type : option string
}.

Definition errorMessages : list (string * string) :=
  [ ("invalid_token", "El enlace de confirmacion es invalido o ha expirado.");
    ("already_verified", "Esta cuenta ya fue verificada anteriormente.");
    ("expired", "El enlace ha expirado. Solicita uno nuevo.") ].

(** [handleAuthCallback()] on the page whose query is [urlParams], with
    the item 'reset_token' of [sessionStorage]. [errorMessages[errorParam]]
    reads an own property or, failing that, one inherited from
    [Object.prototype], whose text [describe] gives. *)
Definition handleAuthCallback (describe : string -> string)
    (urlParams : list (string * string)) (reset_token : option string)
  : Callback * option string :=
  let success := searchParam "success" urlParams in
  let errorParam := searchParam "error" urlParams in
  if match success with Some s => String.eqb s "true" | None => false end then
    (mkCallback (Some Confirmed) None (Some "email_confirm"), reset_token)
  else if truthy errorParam then
    let message :=
      match own (text errorParam) errorMessages with
      | Some message => message
      | None =>
          if inherited (text errorParam) then describe (text errorParam)
          else "Error en la confirmacion."
      end in
    (mkCallback None (Some message) None, reset_token)
  else
    let resetToken := searchParam "token" urlParams in
    if truthy resetToken then
      (mkCallback (Some (HasResetToken (text resetToken))) None (Some "password_reset"),
       Some (text resetToken))
    else (mkCallback None None None, reset_token).

(** ** Vocabulary of the properties *)

(** A computation that never throws. *)
Definition returns {A} (m : M A) : Prop :=
  forall w, exists a w', m w = (Return a, w').

(** The pages of [handleConfirmEmail]. *)
Definition confirm_success : Html :=
  RedirectPage (APP_URL ++ "/confirm.html?success=true")
               "Cuenta verificada exitosamente!".

Definition confirm_invalid_token : Html :=
  RedirectPage (APP_URL ++ "/confirm.html?error=invalid_token")
               "Token invalido o expirado.".

Definition confirm_already_verified : Html :=
  RedirectPage (APP_URL ++ "/confirm.html?error=already_verified")
               "Esta cuenta ya fue verificada.".

(** A finder comes back with a row, at a sheet row number, or with
    [null]. *)
Definition finds {A} (finder : M (option (nat * A))) (w : World) (row : nat) (r : A)
  : Prop :=
  finder w = (Return (Some (row, r)), w).

Definition finds_nothing {A} (finder : M (option (nat * A))) (w : World) : Prop :=
  finder w = (Return None, w).

(** The three ways a login with both fields present is turned down. *)
Definition unknown_email (data : Data.t) (w : World) : Prop :=
  finds_nothing (findUserByEmail (text (Data.email data))) w.

Definition unverified_email (data : Data.t) (w : World) : Prop :=
  exists row user,
    finds (findUserByEmail (text (Data.email data))) w row user /\
    User.verified user = false.

Definition hash_mismatch (computeDigest : string -> list Byte.byte)
    (data : Data.t) (w : World) : Prop :=
  exists row user,
    finds (findUserByEmail (text (Data.email data))) w row user /\
    User.verified user = true /\
    hashPassword computeDigest (text (Data.password data)) (User.salt user)
      <> User.password_hash user.


(** The number a text of hexadecimal digits stands for. *)
Definition hex_digit_value (c : ascii) : N :=
  let n := N_of_ascii c in
  if (n <? 58)%N then (n - 48)%N else (n - 87)%N.

Fixpoint hex_value (s : string) (acc : N) : N :=
  match s with
  | EmptyString => acc
  | String c rest => hex_value rest (16 * acc + hex_digit_value c)%N
  end.

(** [hashPassword] is the concatenation of the two hexadecimal digits of
    each byte. *)
Fixpoint hex_of_bytes (l : list Byte.byte) : string :=
  match l with
  | [] => ""
  | b :: rest => hex_of_byte b ++ hex_of_bytes rest
  end.

(** Tests on the rows of the chat_history sheet. *)
Definition has_type (ty : string) (row : Chat.t) : bool :=
  String.eqb (Chat.message_type row) ty.

Definition on_day (day : Z) (row : Chat.t) : bool :=
  utc_day (Chat.created_at row) =? day.

Definition in_session (sid : string) (row : Chat.t) : bool :=
  String.eqb (Chat.session_id row) sid.

(** The rows of a user that belong to one session, in sheet order, and the
    entry of [sessionsMap] they should make up. *)
Definition session_rows (email sid : string) (rows : list Chat.t) : list Chat.t :=
  List.filter (fun r => of_user email r && in_session sid r) rows.

Definition conv_for (email sid : string) (rows : list Chat.t) : option Conv :=
  match session_rows email sid rows with
  | [] => None
  | first :: rest =>
      Some (mkConv sid (map message_of (first :: rest)) (Chat.created_at first))
  end.

(** What the loop maintains: distinct keys, and under each key the
    conversation of the rows read so far. *)
Definition grouped (email : string) (sessionsMap : list (string * Conv))
    (rows : list Chat.t) : Prop :=
  NoDup (map fst sessionsMap) /\
  forall sid, own sid sessionsMap = conv_for email sid rows.

(** ** Vocabulary of the further properties *)

(** A computation that leaves a part of the world as it found it,
    whatever it returns or throws. *)
Definition keeps {A B} (part : World -> B) (m : M A) : Prop :=
  forall w out w', m w = (out, w') -> part w' = part w.

Definition emails (w : World) : list string := map User.email (users w).

(** A request that came to nothing: a thrown exception, or an error
    answer other than the "Session expired" of [validateSession]. *)
Definition failed (out : Outcome Response) : bool :=
  match out with
  | Throw _ => true
  | Return (Error e) => negb (String.eqb e "Session expired")
  | Return _ => false
  end.

(** The actions that may write to the users sheet, those that may write
    to the sessions sheet, and those that may send mail. *)
Definition writes_users : list string :=
  ["signup"; "requestReset"; "resetPassword"; "updatePassword"; "updateProfile"].

Definition writes_sessions : list string :=
  ["login"; "validateSession"; "logout"].

Definition sends_mail : list string := ["signup"; "requestReset"].

(** The characters of a text, and the texts made of the characters of an
    alphabet only. *)
Definition made_of (alphabet s : string) : Prop :=
  Forall (fun c => In c (list_ascii_of_string alphabet)) (list_ascii_of_string s).

(** The number of messages held in [sessionsMap], and in a list of
    conversations. *)
Definition held (sessionsMap : list (string * Conv)) : nat :=
  list_sum (map (fun kv => List.length (conv_messages (snd kv))) sessionsMap).

Definition total (conversations : list Conversation) : nat :=
  list_sum (map totalMessages conversations).

(** A conversation comes before another in the answer only if it did not
    start earlier. *)
Definition not_older (a b : Conversation) : Prop := createdAt b <= createdAt a.

(** The shape of a version 4 UUID, character by character against the
    template: a hexadecimal digit for each [x], one of 8, 9, a, b for the
    [y], and the template's own character elsewhere. *)
Definition uuid_char (t c : ascii) : Prop :=
  if Ascii.eqb t "x" then In c (list_ascii_of_string "0123456789abcdef")
  else if Ascii.eqb t "y" then In c (list_ascii_of_string "89ab")
  else c = t.

Definition uuid_shape (s : string) : Prop :=
  Forall2 uuid_char (list_ascii_of_string uuid_template) (list_ascii_of_string s).

(** The page after [n] more draws of [Math.random]. *)
Definition drawn (n : nat) (p : Page.t) : Page.t :=
  Page.mk (Page.sessionId p) (Page.currentUser_id p) (Page.chat_session_id p)
          (Page.entropy p) (Page.cursor p + n).

(** The page once the chat runs under the session id [id]. *)
Definition chatting (id : string) (stored : option string) (p : Page.t) : Page.t :=
  Page.mk (Some id) (Page.currentUser_id p) stored (Page.entropy p) (Page.cursor p).

(** The number of [x] and [y] in a template. *)
Definition count_xy (template : string) : nat :=
  List.length (List.filter (fun c => Ascii.eqb c "x" || Ascii.eqb c "y")
                           (list_ascii_of_string template)).

(** "hace [n] [unit]", with the plural [s] when [n] is more than one. *)
Definition ago (n : Z) (unit : string) : string :=
  "hace " ++ pretty n ++ " " ++ unit ++ (if 1 <? n then "s" else "").

(** The backend's answer to a request arrived, was read as [result] and
    carries no error. *)
Definition accepted (JSON_parse : string -> option json) (response : Fetched)
    (result : json) : Prop :=
  exists status body e,
    response = Responded true status body /\ JSON_parse body = Some result /\
    get result "error" = Return e /\ truthy_json e = false.

(** [!!session] *)
Definition has_session (session : option json) : bool :=
  match session with
  | Some _ => true
  | None => false
  end.

(** Where a page of [handleConfirmEmail] sends the browser. *)
Definition redirect_of (page : Html) : string :=
  match page with
  | RedirectPage redirectUrl _ => redirectUrl
  | PlainPage _ => ""
  end.

(** The distinct texts of a list, each where it comes first. *)
Fixpoint distinct (l : list string) : list string :=
  match l with
  | [] => []
  | x :: rest => x :: List.filter (fun y => negb (String.eqb y x)) (distinct rest)
  end.

(** One when the header row passes the filter of a recent conversation,
    its cells being the session id and the email; none when it does
    not. *)
Definition header_counted (header : Header) (email sid : string) : nat :=
  if cell_is (header_session_id header) sid && cell_is (header_user_email header) email
  then 1 else 0.

(** The columns verified and verify_token of the users sheet, and the sheets
    in which every verified row has a blank verify_token. *)
Definition marks (w : World) : list (bool * string) :=
  map (fun u => (User.verified u, User.verify_token u)) (users w).

Definition consumed (w : World) : Prop :=
  Forall (fun u => User.verified u = true -> User.verify_token u = "") (users w).

(** ** Sample data *)

(** A digest that is one-to-one, to run the handlers on: the bytes of the
    text itself. *)
Definition plain_digest (s : string) : list Byte.byte :=
  map byte_of_ascii (list_ascii_of_string s).

Definition no_entropy : nat -> nat := fun _ => 0%nat.

Definition request_token (t : string) : Data.t :=
  Data.mk None None None (Some t) None None None None.

Definition request_login (email password : string) : Data.t :=
  Data.mk (Some email) (Some password) None None None None None None.

Definition request_signup (email password username : string) : Data.t :=
  Data.mk (Some email) (Some password) (Some username) None None None None None.

Definition request_reset (token newPassword : string) : Data.t :=
  Data.mk None None None (Some token) (Some newPassword) None None None.

Definition request_email (email : string) : Data.t :=
  Data.mk (Some email) None None None None None None None.

Definition request_save (token sessionId messageType content : string) : Data.t :=
  Data.mk None None None (Some token) None (Some sessionId) (Some messageType)
          (Some content).

Definition empty_world (now : Z) : World :=
  mkWorld [] [] [] now no_entropy 0 [].

(** Ann, verified, with the password "pw123456" under the salt "s1"; her
    session "tok-ann" was created at instant 0 and expires at 604800000. *)
Definition ann : User.t :=
  User.mk "a@x.com" "ann" (hashPassword plain_digest "pw123456" "s1") "s1"
          0 true "" "" None 0.

Definition ann_session : Session.t :=
  Session.mk "tok-ann" "a@x.com" 0 604800000.

Definition ann_world (now : Z) : World :=
  mkWorld [ann] [ann_session] [] now no_entropy 0 [].

(** Ann with a reset pending: token "reset-1", good until instant 5000. *)
Definition ann_resetting : User.t :=
  setValue (F_reset_token_expires (Some 5000)) (setValue (F_reset_token "reset-1") ann).

Definition reset_world (now : Z) : World :=
  mkWorld [ann_resetting] [] [] now no_entropy 0 [].

(** Ann is logged in and one of her messages is stored under the session
    id "constructor". *)
Definition save_constructor : Data.t :=
  request_save "tok-ann" "constructor" "human" "hola".

(** A response body of three lines, the second of kind "error". *)
Definition dq : string := String (ascii_of_nat 34) "".
Definition nl : string := String (ascii_of_nat 10) "".

Definition json_line (type content : string) : string :=
  "{" ++ dq ++ "type" ++ dq ++ ":" ++ dq ++ type ++ dq ++ ","
      ++ dq ++ "content" ++ dq ++ ":" ++ dq ++ content ++ dq ++ "}".

Definition json_object (type content : string) : json :=
  JObj [("type", JStr type); ("content", JStr content)].

Definition stream_with_error : string :=
  json_line "item" "Hi" ++ nl ++ json_line "error" "boom" ++ nl
    ++ json_line "item" " there".

(** A parser that knows the three lines of that body. *)
Definition sample_parse (line : string) : option json :=
  if String.eqb line (json_line "item" "Hi") then Some (json_object "item" "Hi")
  else if String.eqb line (json_line "error" "boom") then Some (json_object "error" "boom")
  else if String.eqb line (json_line "item" " there") then Some (json_object "item" " there")
  else None.

(** Bea signed up and has not confirmed her email yet. *)
Definition bea : User.t :=
  User.mk "b@x.com" "bea" (hashPassword plain_digest "secret99" "s2") "s2"
          0 false "verify-bea" "" None 0.

Definition two_users_world (now : Z) : World :=
  mkWorld [ann; bea] [ann_session] [] now no_entropy 0 [].

(** Ann's chat: a question and its answer in one session, and in another
    session a row whose type is neither "human" nor "ai". *)
Definition ann_chat : list Chat.t :=
  [ Chat.mk (100, 1%nat) "a@x.com_s1" "a@x.com" "human" "hola" 100;
    Chat.mk (200, 2%nat) "a@x.com_s1" "a@x.com" "ai" "buenas" 200;
    Chat.mk (300, 3%nat) "a@x.com_s2" "a@x.com" "system" "ping" 300 ].

Definition chat_world (now : Z) : World :=
  mkWorld [ann] [ann_session] ann_chat now no_entropy 0 [].

(** New York in March 2024: five hours behind UTC until 2024-03-10 at
    07:00 UTC, four hours behind from then on. A wall-clock time is read
    with the later offset if that gives an instant from the change on,
    and with the earlier one if not. *)
Definition HOUR : Z := 60 * 60 * 1000.

Definition summer_time_starts : Z := 1710054000000.

Definition New_York_offset (t : Z) : Z :=
  if t <? summer_time_starts then -5 * HOUR else -4 * HOUR.

Definition New_York_instant (wall : Z) : Z :=
  if summer_time_starts <=? wall + 4 * HOUR then wall + 4 * HOUR else wall + 5 * HOUR.

Definition New_York : TimeZone :=
  mkTimeZone
    (fun i d => New_York_instant (d + New_York_offset d - i * MS_PER_DAY))
    (fun d => (utc_day (d + New_York_offset d) + 4) mod 7).

(** Ann's chat of 2024-03-10 (at 10:00, 10:01 and 15:00 UTC), under a
    session that runs from 2024-03-08 to 2024-03-15. *)
Definition march_session : Session.t :=
  Session.mk "tok-march" "a@x.com" 1709899200000 1710504000000.

Definition march_chat : list Chat.t :=
  [ Chat.mk (1710064800000, 1%nat) "a@x.com_s1" "a@x.com" "human" "hola" 1710064800000;
    Chat.mk (1710064860000, 2%nat) "a@x.com_s1" "a@x.com" "ai" "buenas" 1710064860000;
    Chat.mk (1710082800000, 3%nat) "a@x.com_s2" "a@x.com" "system" "ping" 1710082800000 ].

Definition march_world (now : Z) : World :=
  mkWorld [ann] [march_session] march_chat now no_entropy 0 [].

(** A mail service that takes the recipient "bad" for no address. *)
Definition address_check (m : Mail) : option string :=
  if String.eqb (mail_to m) "bad" then Some "Invalid email: bad" else None.

(** ** More sample data *)

(** Ann's session and Bea's reset token are both live at instant 1000. *)
Definition bea_resetting : User.t :=
  setValue (F_reset_token_expires (Some 5000)) (setValue (F_reset_token "reset-bea") bea).

Definition busy_world (now : Z) : World :=
  mkWorld [ann; bea_resetting] [ann_session] ann_chat now no_entropy 0 [].

(** Cy signs up next to Ann at instant 10: the request, the world after
    it, and the mail that was sent. *)
Definition cy_signup : Data.t := request_signup "c@x.com" "pw123456" "cy".

Definition cy_world : World :=
  snd (handleSignup plain_digest cy_signup (ann_world 10)).

Definition cy_mail : Mail :=
  mkMail "c@x.com" "Confirma tu cuenta - Family6 SaaS" "AAAAAAAAAAAAAAAAAAAAAAAAAAAAAAAA".

(** Ann logs in at instant 1000; without entropy the token is 64 times
    the first character of [chars]. *)
Definition ann_login : Data.t := request_login "a@x.com" "pw123456".

Definition ann_token : string :=
  "AAAAAAAAAAAAAAAAAAAAAAAAAAAAAAAAAAAAAAAAAAAAAAAAAAAAAAAAAAAAAAAA".

Definition ann_logged_in : World :=
  snd (handleLogin plain_digest ann_login (ann_world 1000)).

(** Requests Ann makes with her session "tok-ann". *)
Definition ann_new_password : Data.t := request_reset "tok-ann" "newpass99".

Definition ann_rename : Data.t :=
  Data.mk None None (Some "anna") (Some "tok-ann") None None None None.

Definition ann_says : Data.t := request_save "tok-ann" "a@x.com_s1" "human" "otra".

(** The parts of an answer. *)
Definition conversations_of (out : Outcome Response) : list Conversation :=
  match out with
  | Return (ChatHistory conversations _) => conversations
  | _ => []
  end.

Definition stats_of (out : Outcome Response) : Stats :=
  match out with
  | Return (ChatStats stats) => stats
  | _ => mkStats 0 0 0 0 [] [] None None
  end.

(** A page just loaded, for a user and with an item in [sessionStorage]. *)
Definition loaded_page (user stored : option string) : Page.t :=
  Page.mk None user stored no_entropy 0.

(** A browser that knows two texts: Ann's stored session and the
    backend's answer to her. *)
Definition ann_stored : json :=
  JObj [("token", JStr "tok-ann"); ("user", JObj [("id", JStr "a@x.com")]);
        ("expiresAt", JNum "604800000")].

Definition ann_answer : json :=
  JObj [("success", JBool true); ("token", JStr "tok-ann");
        ("user", JObj [("id", JStr "a@x.com")]); ("expiresAt", JNum "604800000")].

Definition page_parse (text : string) : option json :=
  if String.eqb text "{session}" then Some ann_stored
  else if String.eqb text "{answer}" then Some ann_answer
  else None.

Definition page_stringify (j : json) : string := "{session}".

(** How a browser may print the functions of [Object.prototype]. *)
Definition native_text (key : string) : string :=
  "function " ++ key ++ "() { [native code] }".

(** Uma signed up under the email "user_email" and chats under the
    session id "session_id": the titles of columns C and B of the chat
    sheet. *)
Definition uma : User.t :=
  User.mk "user_email" "uma" (hashPassword plain_digest "pw123456" "s3") "s3"
          0 true "" "" None 0.

Definition uma_session : Session.t :=
  Session.mk "tok-uma" "user_email" 0 604800000.

Definition uma_chat : list Chat.t :=
  [ Chat.mk (100, 1%nat) "session_id" "user_email" "human" "hola" 100 ].

Definition titled_world (now : Z) : World :=
  mkWorld [uma] [uma_session] uma_chat now no_entropy 0 [].

(** * Properties *)

Local Open Scope list_scope.
Create HintDb returns.

(** ** Running the monad *)

Lemma run_bind {A B} (m : M A) (k : A -> M B) w a w1 :
  m w = (Return a, w1) -> bind m k w = k a w1.
Proof. intros H. unfold bind. now rewrite H. Qed.

Lemma returns_ret {A} (a : A) : returns (ret a).
Proof. intros w. now exists a, w. Qed.

Lemma returns_bind {A B} (m : M A) (k : A -> M B) :
  returns m -> (forall a, returns (k a)) -> returns (bind m k).
Proof.
  intros Hm Hk w. destruct (Hm w) as (a & w1 & H1).
  destruct (Hk a w1) as (b & w2 & H2).
  exists b, w2. now rewrite (run_bind _ _ _ _ _ H1).
Qed.

Lemma returns_gets {A} (f : World -> A) : returns (gets f).
Proof. intros w. now exists (f w), w. Qed.

Lemma returns_modify f : returns (modify f).
Proof. intros w. now exists tt, (f w). Qed.

Lemma returns_Math_random : returns Math_random.
Proof. intros w. now eexists _, _. Qed.

#[local] Hint Resolve returns_ret returns_gets returns_modify returns_Math_random
  : returns.

Lemma returns_random_below n : returns (random_below n).
Proof. apply returns_bind; auto with returns. Qed.

Lemma returns_generateToken_loop n token : returns (generateToken_loop n token).
Proof.
  revert token. induction n as [|n IH]; intros token; simpl.
  - auto with returns.
  - apply returns_bind; [apply returns_random_below | intros k; apply IH].
Qed.

Lemma returns_generateToken n : returns (generateToken n).
Proof. apply returns_generateToken_loop. Qed.

Lemma returns_findUserByEmail e : returns (findUserByEmail e).
Proof. apply returns_bind; auto with returns. Qed.

Lemma returns_updateUserField e f : returns (updateUserField e f).
Proof.
  apply returns_bind; [apply returns_findUserByEmail |].
  intros [[row u]|]; auto with returns.
Qed.

Lemma returns_deliver m : returns (deliver m).
Proof. apply returns_modify. Qed.

#[local] Hint Resolve returns_random_below returns_generateToken
  returns_findUserByEmail returns_updateUserField returns_deliver : returns.

(** The finders read the sheets and leave the world alone. *)
Lemma findUserByEmail_run e w :
  findUserByEmail e w =
  (Return (scan (fun r => String.eqb (User.email r) e) 1 (users w)), w).
Proof. reflexivity. Qed.

Lemma findUserByVerifyToken_run t w :
  findUserByVerifyToken t w =
  (Return (scan (fun r => String.eqb (User.verify_token r) t) 1 (users w)), w).
Proof. reflexivity. Qed.

Lemma findUserByResetToken_run t w :
  findUserByResetToken t w =
  (Return (scan (fun r => String.eqb (User.reset_token r) t) 1 (users w)), w).
Proof. reflexivity. Qed.

Lemma findSessionByToken_run t w :
  findSessionByToken t w =
  (Return (scan (fun r => String.eqb (Session.token r) t) 1 (sessions w)), w).
Proof. reflexivity. Qed.

Lemma finds_user_by_email e w row u :
  finds (findUserByEmail e) w row u ->
  scan (fun r => String.eqb (User.email r) e) 1 (users w) = Some (row, u).
Proof. unfold finds. rewrite findUserByEmail_run. congruence. Qed.

Lemma finds_user_by_reset_token t w row u :
  finds (findUserByResetToken t) w row u ->
  scan (fun r => String.eqb (User.reset_token r) t) 1 (users w) = Some (row, u).
Proof. unfold finds. rewrite findUserByResetToken_run. congruence. Qed.

Lemma finds_session_by_token t w row s :
  finds (findSessionByToken t) w row s ->
  scan (fun r => String.eqb (Session.token r) t) 1 (sessions w) = Some (row, s).
Proof. unfold finds. rewrite findSessionByToken_run. congruence. Qed.

Lemma finds_no_user_by_email e w :
  finds_nothing (findUserByEmail e) w ->
  scan (fun r => String.eqb (User.email r) e) 1 (users w) = None.
Proof. unfold finds_nothing. rewrite findUserByEmail_run. congruence. Qed.

Lemma updateUserField_run e f w :
  updateUserField e f w =
  (Return tt,
   match scan (fun r => String.eqb (User.email r) e) 1 (users w) with
   | Some (row, _) => set_users (setCell row f) w
   | None => w
   end).
Proof.
  unfold updateUserField. rewrite (run_bind _ _ _ _ _ (findUserByEmail_run e w)).
  now destruct (scan _ 1 (users w)) as [[row u]|].
Qed.

(** ** The scan *)

Lemma scan_None {A} (p : A -> bool) i l :
  scan p i l = None <-> Forall (fun r => p r = false) l.
Proof.
  revert i. induction l as [|r l IH]; intros i; simpl.
  - split; [constructor | reflexivity].
  - destruct (p r) eqn:E.
    + split; [discriminate | intros H; inversion H; congruence].
    + rewrite IH. split; [now constructor | intros H; now inversion H].
Qed.

Lemma scan_app {A} (p : A -> bool) i l1 l2 :
  scan p i (l1 ++ l2) =
  match scan p i l1 with
  | Some found => Some found
  | None => scan p (i + List.length l1) l2
  end.
Proof.
  revert i. induction l1 as [|r l1 IH]; intros i; simpl.
  - now rewrite Nat.add_0_r.
  - destruct (p r); [reflexivity |].
    rewrite IH. now rewrite Nat.add_succ_comm.
Qed.

(** A hit is the first row that satisfies the test; its row number is two
    more than its position among the data rows when the scan starts at
    array index 1. *)
Lemma scan_Some {A} (p : A -> bool) i l row r :
  scan p i l = Some (row, r) ->
  exists pre post,
    l = pre ++ r :: post /\ row = (i + List.length pre + 1)%nat /\
    p r = true /\ Forall (fun x => p x = false) pre.
Proof.
  revert i. induction l as [|x l IH]; intros i; simpl; [discriminate |].
  destruct (p x) eqn:E.
  - intros [= <- <-]. exists [], l. simpl. repeat split; auto. lia.
  - intros H. destruct (IH _ H) as (pre & post & -> & -> & Hp & Hpre).
    exists (x :: pre), post. simpl. repeat split; auto. lia.
Qed.

Lemma scan_middle {A} (p : A -> bool) i pre r post :
  Forall (fun x => p x = false) pre -> p r = true ->
  scan p i (pre ++ r :: post) = Some ((i + List.length pre + 1)%nat, r).
Proof.
  intros Hpre Hr. rewrite scan_app.
  apply scan_None with (i := i) in Hpre. rewrite Hpre. simpl. rewrite Hr.
  f_equal. f_equal. lia.
Qed.

Lemma bind_result {A B} (m : M A) (k : A -> M B) w out w' :
  returns m -> bind m k w = (out, w') ->
  exists a w1, m w = (Return a, w1) /\ k a w1 = (out, w').
Proof.
  intros Hm H. destruct (Hm w) as (a & w1 & H1).
  rewrite (run_bind _ _ _ _ _ H1) in H. eauto.
Qed.

(** Peels the first statement off a sequence whose result is known. *)
Ltac peel H :=
  let a := fresh "a" in
  let w1 := fresh "w" in
  let H1 := fresh "Hrun" in
  apply bind_result in H; [destruct H as (a & w1 & H1 & H) | auto with returns].

Section AuthProperties.

Variable computeDigest : string -> list Byte.byte.

(** C9. A [resetPassword] request that is answered with an error has
    written nothing: the world after it, and with it the users sheet, is
    the world before it. The error is one of four (missing token or
    password, short password, unknown reset token, expired reset token),
    and all four are returned before the first [updateUserField]. *)
Theorem resetPassword_error_writes_nothing (data : Data.t) (w w' : World) (e : string) :
  handleResetPassword computeDigest data w = (Return (Error e), w') ->
  w' = w /\ users w' = users w /\
  (e = "Token and new password are required" \/
   e = "Password must be at least 8 characters" \/
   e = "Invalid or expired reset token" \/
   e = "Reset token has expired").
Proof.
  intros H.
  cut (w' = w /\
       (e = "Token and new password are required" \/
        e = "Password must be at least 8 characters" \/
        e = "Invalid or expired reset token" \/
        e = "Reset token has expired")).
  { intros [-> He]. auto. }
  unfold handleResetPassword in H.
  destruct (negb (truthy (Data.token data)) || negb (truthy (Data.newPassword data)));
    [inversion H; auto |].
  destruct (String.length (text (Data.newPassword data)) <? 8)%nat;
    [inversion H; auto |].
  rewrite (run_bind _ _ _ _ _ (findUserByResetToken_run _ w)) in H.
  destruct (scan _ 1 (users w)) as [[row user]|]; [| inversion H; auto].
  erewrite run_bind in H by reflexivity.
  destruct (date_lt (User.reset_token_expires user) (clock w)); [inversion H; auto 6 |].
  do 5 peel H. erewrite run_bind in H by reflexivity.
  peel H. discriminate H.
Qed.

(** *** Login failures *)

Lemma login_unknown_email data w :
  truthy (Data.email data) = true -> truthy (Data.password data) = true ->
  unknown_email data w ->
  handleLogin computeDigest data w = (Return (Error "Invalid login credentials"), w).
Proof.
  intros He Hp Hu. unfold handleLogin. rewrite He, Hp. simpl.
  rewrite (run_bind _ _ _ _ _ (findUserByEmail_run _ w)).
  apply finds_no_user_by_email in Hu. now rewrite Hu.
Qed.

Lemma login_hash_mismatch data w :
  truthy (Data.email data) = true -> truthy (Data.password data) = true ->
  hash_mismatch computeDigest data w ->
  handleLogin computeDigest data w = (Return (Error "Invalid login credentials"), w).
Proof.
  intros He Hp (row & user & Hs & Hv & Hh). apply finds_user_by_email in Hs.
  unfold handleLogin. rewrite He, Hp. simpl.
  rewrite (run_bind _ _ _ _ _ (findUserByEmail_run _ w)). rewrite Hs, Hv. simpl.
  apply String.eqb_neq in Hh. now rewrite Hh.
Qed.

Lemma login_unverified data w :
  truthy (Data.email data) = true -> truthy (Data.password data) = true ->
  unverified_email data w ->
  handleLogin computeDigest data w =
  (Return (Error "Email not confirmed. Please check your inbox."), w).
Proof.
  intros He Hp (row & user & Hs & Hv). apply finds_user_by_email in Hs.
  unfold handleLogin. rewrite He, Hp. simpl.
  rewrite (run_bind _ _ _ _ _ (findUserByEmail_run _ w)). now rewrite Hs, Hv.
Qed.

(** C5. Two login runs, one turned down because the email is unknown and
    one because the password hash does not match, answer with the same
    response, the error "Invalid login credentials", and neither writes to
    the store; a run turned down because the email is not verified answers
    with a different error. *)
Theorem login_failures_indistinguishable
    (d1 d2 d3 : Data.t) (w1 w2 w3 : World) :
  truthy (Data.email d1) = true -> truthy (Data.password d1) = true ->
  truthy (Data.email d2) = true -> truthy (Data.password d2) = true ->
  truthy (Data.email d3) = true -> truthy (Data.password d3) = true ->
  unknown_email d1 w1 -> hash_mismatch computeDigest d2 w2 -> unverified_email d3 w3 ->
  handleLogin computeDigest d1 w1 = (Return (Error "Invalid login credentials"), w1) /\
  handleLogin computeDigest d2 w2 = (Return (Error "Invalid login credentials"), w2) /\
  fst (handleLogin computeDigest d1 w1) = fst (handleLogin computeDigest d2 w2) /\
  (exists e, handleLogin computeDigest d3 w3 = (Return (Error e), w3) /\
             e <> "Invalid login credentials") /\
  fst (handleLogin computeDigest d3 w3) <> fst (handleLogin computeDigest d1 w1).
Proof.
  intros He1 Hp1 He2 Hp2 He3 Hp3 H1 H2 H3.
  rewrite (login_unknown_email d1 w1), (login_hash_mismatch d2 w2),
    (login_unverified d3 w3) by assumption.
  repeat split.
  - eexists. split; [reflexivity | discriminate].
  - simpl. discriminate.
Qed.

(** *** Password reset requests *)

Lemma throw_bind {A B} (m : M A) (k : A -> M B) w e w1 :
  m w = (Throw e, w1) -> bind m k w = (Throw e, w1).
Proof. intros H. unfold bind. now rewrite H. Qed.

(** One run of [requestReset], whatever the mail service. Without a row
    for the email: the success payload. With one: a token is drawn and the
    two cells are written, and then comes the payload, or the exception
    of [MailApp.sendEmail]. *)
Lemma requestReset_run data w :
  truthy (Data.email data) = true ->
  exists token w1,
    forall refusal,
      Script.handleRequestReset refusal data w =
      match scan (fun r => String.eqb (User.email r) (text (Data.email data))) 1 (users w) with
      | None =>
          (Return (Success "If an account exists with this email, a password reset link has been sent."),
           w)
      | Some _ =>
          let mail :=
            mkMail (text (Data.email data)) "Restablecer contrasena - Family6 SaaS" token in
          match refusal mail with
          | Some e => (Throw e, w1)
          | None =>
              (Return (Success "If an account exists with this email, a password reset link has been sent."),
               snd (deliver mail w1))
          end
      end.
Proof.
  intros He. destruct (returns_generateToken 32 w) as (token & wa & Hg).
  destruct (returns_updateUserField (text (Data.email data)) (F_reset_token token) wa)
    as ([] & wb & Hb).
  destruct (returns_updateUserField (text (Data.email data))
              (F_reset_token_expires
                 (Some (clock wa + RESET_TOKEN_DURATION_HOURS * 60 * 60 * 1000))) wb)
    as ([] & wc & Hc).
  exists token, wc. intros refusal.
  unfold Script.handleRequestReset. cbv zeta. rewrite He. cbn [negb].
  rewrite (run_bind _ _ _ _ _ (findUserByEmail_run _ w)).
  destruct (scan _ 1 (users w)) as [[row user]|]; [| reflexivity].
  assert (Hsend :
    bind (generateToken 32)
      (fun resetToken =>
         bind newDate
           (fun now =>
              bind (updateUserField (text (Data.email data)) (F_reset_token resetToken))
                (fun _ =>
                   bind (updateUserField (text (Data.email data))
                           (F_reset_token_expires
                              (Some (now + RESET_TOKEN_DURATION_HOURS * 60 * 60 * 1000))))
                     (fun _ =>
                        Script.sendResetEmail refusal (text (Data.email data)) resetToken)))) w
    = Script.sendEmail refusal
        (mkMail (text (Data.email data)) "Restablecer contrasena - Family6 SaaS" token) wc).
  { rewrite (run_bind _ _ _ _ _ Hg).
    erewrite run_bind by reflexivity.
    rewrite (run_bind _ _ _ _ _ Hb), (run_bind _ _ _ _ _ Hc). reflexivity. }
  unfold Script.sendEmail in Hsend.
  destruct (refusal _) as [e|].
  - apply throw_bind. exact Hsend.
  - erewrite run_bind; [reflexivity | rewrite Hsend; reflexivity].
Qed.

(** C7 fails on the code for a mail that [MailApp.sendEmail] refuses (the
    recipient is no address: signup stores any non-empty email; or the
    quota of the day is spent). Only the run that finds a row calls
    [MailApp.sendEmail]; its exception passes through
    [handleRequestReset] and [doPost] answers it as an error, while the
    run that finds no row answers with the success payload: the two
    responses differ, and tell that the row exists. *)
Theorem requestReset_reveals_row_when_mail_is_refused
    (refusal : Mail -> option string) (zone : TimeZone) (header : Header)
    (data : Data.t) (w1 w2 : World) (row : nat) (u : User.t) (e : string) :
  truthy (Data.email data) = true ->
  finds (findUserByEmail (text (Data.email data))) w1 row u ->
  finds_nothing (findUserByEmail (text (Data.email data))) w2 ->
  (forall token,
     refusal (mkMail (text (Data.email data)) "Restablecer contrasena - Family6 SaaS" token)
     = Some e) ->
  fst (Script.doPost computeDigest refusal zone header "requestReset" data w1) = Error e /\
  fst (Script.doPost computeDigest refusal zone header "requestReset" data w2) =
    Success "If an account exists with this email, a password reset link has been sent.".
Proof.
  intros He H1 H2 Hr.
  apply finds_user_by_email in H1. apply finds_no_user_by_email in H2.
  change (Script.doPost computeDigest refusal zone header "requestReset" data)
    with (fun w => match Script.handleRequestReset refusal data w with
                   | (Return result, w') => (result, w')
                   | (Throw message, w') => (Error message, w')
                   end).
  cbv beta.
  destruct (requestReset_run data w1 He) as (t1 & w1' & R1).
  destruct (requestReset_run data w2 He) as (t2 & w2' & R2).
  rewrite (R1 refusal), (R2 refusal), H1, H2. cbv zeta. rewrite Hr.
  split; reflexivity.
Qed.

(** When the mail service accepts the reset mails to the address, the
    response is the one C7 describes: the same in any two worlds, and the
    success payload whenever an email is given. *)
Lemma requestReset_response_with_accepted_mail
    (refusal : Mail -> option string) (data : Data.t) (w1 w2 : World) :
  (forall token,
     refusal (mkMail (text (Data.email data)) "Restablecer contrasena - Family6 SaaS" token)
     = None) ->
  fst (Script.handleRequestReset refusal data w1)
    = fst (Script.handleRequestReset refusal data w2) /\
  fst (Script.handleRequestReset refusal data w1) =
    if truthy (Data.email data)
    then Return (Success "If an account exists with this email, a password reset link has been sent.")
    else Return (Error "Email is required").
Proof.
  intros Hr. destruct (truthy (Data.email data)) eqn:He.
  - destruct (requestReset_run data w1 He) as (t1 & w1' & R1).
    destruct (requestReset_run data w2 He) as (t2 & w2' & R2).
    rewrite (R1 refusal), (R2 refusal). cbv zeta. rewrite !Hr.
    destruct (scan _ 1 (users w1)), (scan _ 1 (users w2)); split; reflexivity.
  - unfold Script.handleRequestReset. rewrite He. split; reflexivity.
Qed.

(** *** Session validation *)

Lemma truthy_Some s : s <> "" -> truthy (Some s) = true.
Proof. intros H. simpl. apply String.eqb_neq in H. now rewrite H. Qed.

Lemma deleteSession_run t w :
  deleteSession t w =
  (Return tt,
   match scan (fun r => String.eqb (Session.token r) t) 1 (sessions w) with
   | Some (row, _) => set_sessions (deleteRow row) w
   | None => w
   end).
Proof.
  unfold deleteSession. rewrite (run_bind _ _ _ _ _ (findSessionByToken_run t w)).
  now destruct (scan _ 1 (sessions w)) as [[row s]|].
Qed.

Lemma other_tokens t (l : list Session.t) :
  Forall (fun x => Session.token x <> t) l ->
  Forall (fun x => String.eqb (Session.token x) t = false) l.
Proof.
  intros H. eapply Forall_impl; [exact H |]. intros x. apply String.eqb_neq.
Qed.

Lemma deleteRow_middle {A} (pre post : list A) r :
  deleteRow (1 + List.length pre + 1) (pre ++ r :: post) = pre ++ post.
Proof.
  unfold deleteRow.
  replace (1 + List.length pre + 1 - 2)%nat with (List.length pre) by lia.
  apply delete_middle.
Qed.

(** C1. Take a session row whose [expires_at] lies before the current
    time, its token being non-empty and the key of that row only (no other
    row of the sheet carries it). [validateSession] with that token answers
    with the error "Session expired" and deletes the row: the sessions
    sheet afterwards is the sheet without it, the other sheets are as
    before. A second [validateSession] with the same token, at whatever
    time, answers with the error "Invalid session", throws nothing and
    leaves the world, and so the sessions sheet, unchanged. *)
Theorem validateSession_expired_deletes_row
    (data : Data.t) (w : World) (pre post : list Session.t) (r : Session.t) :
  sessions w = pre ++ r :: post ->
  Data.token data = Some (Session.token r) ->
  Session.token r <> "" ->
  Forall (fun x => Session.token x <> Session.token r) (pre ++ post) ->
  Session.expires_at r < clock w ->
  exists w1,
    handleValidateSession data w = (Return (Error "Session expired"), w1) /\
    sessions w1 = pre ++ post /\
    users w1 = users w /\ chat_history w1 = chat_history w /\
    forall t,
      handleValidateSession data (set_clock t w1) =
      (Return (Error "Invalid session"), set_clock t w1).
Proof.
  intros Hs Ht Hne Huniq Hexp.
  apply other_tokens in Huniq.
  assert (Hpre : Forall (fun x => String.eqb (Session.token x) (Session.token r) = false) pre)
    by (apply Forall_app in Huniq; tauto).
  assert (Hfind : scan (fun x => String.eqb (Session.token x) (Session.token r)) 1 (sessions w)
                  = Some ((1 + List.length pre + 1)%nat, r)).
  { rewrite Hs. apply scan_middle; [exact Hpre | apply String.eqb_refl]. }
  exists (set_sessions (deleteRow (1 + List.length pre + 1)) w).
  split; [| split; [| split; [| split]]].
  - unfold handleValidateSession. rewrite Ht, (truthy_Some _ Hne). simpl.
    rewrite (run_bind _ _ _ _ _ (findSessionByToken_run _ w)), Hfind.
    erewrite run_bind by reflexivity.
    apply Z.ltb_lt in Hexp. rewrite Hexp.
    rewrite (run_bind _ _ _ _ _ (deleteSession_run _ w)), Hfind.
    reflexivity.
  - cbn [set_sessions sessions]. rewrite Hs. apply deleteRow_middle.
  - reflexivity.
  - reflexivity.
  - intros t. unfold handleValidateSession. rewrite Ht, (truthy_Some _ Hne).
    cbn [negb text].
    erewrite run_bind by apply findSessionByToken_run.
    cbn [set_clock set_sessions sessions]. rewrite Hs, deleteRow_middle.
    apply scan_None with (i := 1%nat) in Huniq. rewrite Huniq. reflexivity.
Qed.

(** C6, as the claim states it, fails at the boundary: when the current
    time equals [expires_at], [validateSession] still answers
    [valid: true]. *)
Lemma session_valid_at_expiry_instant :
  clock (ann_world 604800000) = Session.expires_at ann_session /\
  sessions (ann_world 604800000) = [ann_session] /\
  handleValidateSession (request_token "tok-ann") (ann_world 604800000) =
  (Return (ValidSession (summary ann)), ann_world 604800000).
Proof. repeat split. Qed.

(** A token draws from the entropy stream and touches nothing else; it
    has the length asked for. *)
Lemma charAt_length k s :
  (k < String.length s)%nat -> String.length (charAt k s) = 1%nat.
Proof.
  revert k. induction s as [|c s IH]; intros k Hk; simpl in Hk; [lia |].
  destruct k as [|k]; [reflexivity |].
  unfold charAt in *. simpl. apply IH. lia.
Qed.

Lemma length_append (a b : string) :
  String.length (a +:+ b) = (String.length a + String.length b)%nat.
Proof. induction a as [|c a IH]; simpl; [reflexivity | now rewrite IH]. Qed.

Lemma random_below_run n w k w' :
  n <> 0%nat ->
  random_below n w = (Return k, w') ->
  (k < n)%nat /\ k = (entropy w (cursor w) mod n)%nat /\
  w' = mkWorld (users w) (sessions w) (chat_history w) (clock w)
               (entropy w) (S (cursor w)) (outbox w).
Proof.
  intros Hn H. unfold random_below, Math_random, bind, ret in H.
  inversion H; subst. split; [| split]; try reflexivity.
  now apply Nat.mod_upper_bound.
Qed.

Lemma generateToken_loop_frame n acc w t w' :
  generateToken_loop n acc w = (Return t, w') ->
  users w' = users w /\ sessions w' = sessions w /\
  chat_history w' = chat_history w /\ clock w' = clock w /\
  outbox w' = outbox w /\ entropy w' = entropy w /\
  String.length t = (String.length acc + n)%nat.
Proof.
  revert acc w. induction n as [|n IH]; intros acc w Hrun.
  - inversion Hrun; subst. repeat split; lia.
  - change (generateToken_loop (S n) acc)
      with (bind (random_below (String.length chars))
                 (fun k => generateToken_loop n (acc +:+ charAt k chars))) in Hrun.
    apply bind_result in Hrun; [| auto with returns].
    destruct Hrun as (k & w3 & Hk & Hrun). apply IH in Hrun.
    apply random_below_run in Hk; [| discriminate]. destruct Hk as (Hk & -> & Hw3).
    rewrite length_append, charAt_length in Hrun by exact Hk.
    rewrite Hw3 in Hrun. cbn in Hrun. repeat split; try tauto. lia.
Qed.

Lemma generateToken_frame n w t w' :
  generateToken n w = (Return t, w') ->
  users w' = users w /\ sessions w' = sessions w /\
  chat_history w' = chat_history w /\ clock w' = clock w /\
  outbox w' = outbox w /\ entropy w' = entropy w /\
  String.length t = n.
Proof. intros H. apply generateToken_loop_frame in H. simpl in H. tauto. Qed.

Lemma login_success_inv data w tok exp us w1 :
  handleLogin computeDigest data w = (Return (LoginSuccess tok exp us), w1) ->
  exists r,
    sessions w1 = sessions w ++ [r] /\ users w1 = users w /\
    Session.token r = tok /\ Session.user_email r = text (Data.email data) /\
    Session.created_at r = clock w /\ Session.expires_at r = exp /\
    exp = clock w + 7 * 24 * 60 * 60 * 1000.
Proof.
  intros H. unfold handleLogin in H.
  destruct (negb (truthy (Data.email data)) || negb (truthy (Data.password data)));
    [discriminate H |].
  rewrite (run_bind _ _ _ _ _ (findUserByEmail_run _ w)) in H.
  destruct (scan _ 1 (users w)) as [[row user]|]; [| discriminate H].
  destruct (negb (User.verified user)); [discriminate H |].
  destruct (negb _); [discriminate H |].
  peel H.
  assert (Hw : users w0 = users w /\ sessions w0 = sessions w /\ clock w0 = clock w).
  { apply generateToken_frame in Hrun. tauto. }
  destruct Hw as (Hu & Hs & Hc).
  erewrite run_bind in H by reflexivity.
  erewrite run_bind in H by reflexivity.
  inversion H; subst. eexists. cbn. rewrite Hu, Hs, Hc.
  repeat split; reflexivity.
Qed.

Lemma validateSession_found data w row s :
  truthy (Data.token data) = true ->
  scan (fun r => String.eqb (Session.token r) (text (Data.token data))) 1 (sessions w)
    = Some (row, s) ->
  handleValidateSession data w =
  if Session.expires_at s <? clock w then
    (Return (Error "Session expired"), set_sessions (deleteRow row) w)
  else
    match scan (fun r => String.eqb (User.email r) (Session.user_email s)) 1 (users w) with
    | Some (_, user) => (Return (ValidSession (summary user)), w)
    | None => (Return (Error "User not found"), w)
    end.
Proof.
  intros Ht Hs. unfold handleValidateSession. rewrite Ht. cbn [negb].
  rewrite (run_bind _ _ _ _ _ (findSessionByToken_run _ w)), Hs.
  erewrite run_bind by reflexivity.
  destruct (Session.expires_at s <? clock w).
  - rewrite (run_bind _ _ _ _ _ (deleteSession_run _ w)), Hs. reflexivity.
  - rewrite (run_bind _ _ _ _ _ (findUserByEmail_run _ w)).
    now destruct (scan _ 1 (users w)) as [[rowu user]|].
Qed.

(** C6, amended. A session row created by a successful login has
    [expires_at = created_at + 7 days] (604800000 ms), which is also the
    [expiresAt] of the response. And for a session row found by its token,
    [validateSession] treats it as expired (answers "Session expired")
    exactly when [expires_at] is strictly before the current time, and,
    the user row of the session being there, as valid exactly when the
    current time is at most [expires_at]: at the instant the current time
    equals [expires_at] the session is still valid. *)
Theorem session_expiry_boundary
    (d : Data.t) (w w1 : World) (tok : string) (exp : Z) (us : UserSummary)
    (d2 : Data.t) (w2 : World) (row : nat) (s : Session.t)
    (rowu : nat) (u : User.t) :
  handleLogin computeDigest d w = (Return (LoginSuccess tok exp us), w1) ->
  truthy (Data.token d2) = true ->
  finds (findSessionByToken (text (Data.token d2))) w2 row s ->
  finds (findUserByEmail (Session.user_email s)) w2 rowu u ->
  (exists r,
     sessions w1 = sessions w ++ [r] /\ Session.token r = tok /\
     Session.created_at r = clock w /\
     Session.expires_at r = Session.created_at r + 7 * 24 * 60 * 60 * 1000 /\
     exp = Session.expires_at r) /\
  ((exists w', handleValidateSession d2 w2 = (Return (Error "Session expired"), w'))
   <-> Session.expires_at s < clock w2) /\
  (handleValidateSession d2 w2 = (Return (ValidSession (summary u)), w2)
   <-> clock w2 <= Session.expires_at s).
Proof.
  intros Hlogin Ht Hs Hu.
  apply finds_session_by_token in Hs. apply finds_user_by_email in Hu.
  split; [| split].
  - destruct (login_success_inv _ _ _ _ _ _ Hlogin)
      as (r & Hs1 & _ & Htok & _ & Hc & He & Hexp).
    exists r. rewrite Hc. repeat split; auto; congruence.
  - rewrite (validateSession_found _ _ _ _ Ht Hs), Hu.
    destruct (Z.ltb_spec (Session.expires_at s) (clock w2)) as [Hlt|Hge].
    + split; [intros _; exact Hlt | intros _; eauto].
    + split; [intros (w' & H); discriminate H | lia].
  - rewrite (validateSession_found _ _ _ _ Ht Hs), Hu.
    destruct (Z.ltb_spec (Session.expires_at s) (clock w2)) as [Hlt|Hge].
    + split; [intros H; discriminate H | lia].
    + split; [intros _; exact Hge | reflexivity].
Qed.

(** *** Writing a field of a user row *)

Lemma setValue_email f u :
  colMap f <> 1%nat -> User.email (setValue f u) = User.email u.
Proof. destruct f; simpl; congruence. Qed.

Lemma setCell_middle (pre post : list User.t) u f :
  setCell (1 + List.length pre + 1) f (pre ++ u :: post) = pre ++ setValue f u :: post.
Proof.
  unfold setCell.
  replace (1 + List.length pre + 1 - 2)%nat with (List.length pre + 0)%nat by lia.
  now rewrite alter_app_r.
Qed.

(** [updateUserField] writes to the first row that carries the email. *)
Lemma updateUserField_at e f w pre u post :
  users w = pre ++ u :: post ->
  Forall (fun x => String.eqb (User.email x) e = false) pre ->
  User.email u = e ->
  updateUserField e f w =
  (Return tt, set_users (fun _ => pre ++ setValue f u :: post) w).
Proof.
  intros Hu Hpre He. rewrite updateUserField_run, Hu.
  rewrite scan_middle; [| exact Hpre | rewrite He; apply String.eqb_refl].
  unfold set_users. now rewrite Hu, setCell_middle.
Qed.

(** *** Signup and confirmation *)

Lemma signup_success_inv data w m w1 :
  handleSignup computeDigest data w = (Return (Success m), w1) ->
  exists u,
    users w1 = users w ++ [u] /\ clock w1 = clock w /\
    User.email u = text (Data.email data) /\
    User.verified u = false /\
    String.length (User.verify_token u) = 32%nat /\
    Forall (fun x => String.eqb (User.email x) (User.email u) = false) (users w).
Proof.
  intros H. unfold handleSignup, Script.handleSignup in H.
  destruct (negb (truthy (Data.email data)) || negb (truthy (Data.password data)));
    [discriminate H |].
  rewrite (run_bind _ _ _ _ _ (findUserByEmail_run _ w)) in H.
  destruct (scan _ 1 (users w)) as [[row user]|] eqn:Hscan; [discriminate H |].
  apply scan_None in Hscan.
  peel H. apply generateToken_frame in Hrun.
  peel H. apply generateToken_frame in Hrun0.
  erewrite run_bind in H by reflexivity.
  erewrite run_bind in H by reflexivity.
  erewrite run_bind in H by reflexivity.
  inversion H; subst; clear H. eexists. cbn.
  destruct Hrun as (Hu & _ & _ & Hc & _), Hrun0 as (Hu0 & _ & _ & Hc0 & _ & _ & Hlen).
  rewrite Hu0, Hu, Hc0, Hc. unfold appendRow.
  repeat split; try reflexivity; assumption.
Qed.

(** C3 fails on the code: after a signup and a first, successful
    confirmation, the second confirmation with the same verify_token is
    answered with "invalid_token", not with "already_verified". *)
Lemma second_confirmation_reports_invalid_token :
  let signup :=
    handleSignup plain_digest (request_signup "a@x.com" "pw123456" "ann") (empty_world 0) in
  let vt := "AAAAAAAAAAAAAAAAAAAAAAAAAAAAAAAA" in
  let first := doGet (Some "confirmEmail") (Some vt) (snd signup) in
  let second := doGet (Some "confirmEmail") (Some vt) (snd first) in
  map User.verify_token (users (snd signup)) = [vt] /\
  fst first = Return confirm_success /\
  fst second = Return confirm_invalid_token /\
  fst second <> Return confirm_already_verified.
Proof. vm_compute. repeat split; congruence. Qed.

Lemma confirmEmail_first w pre u :
  users w = pre ++ [u] ->
  Forall (fun x => String.eqb (User.email x) (User.email u) = false) pre ->
  Forall (fun x => String.eqb (User.verify_token x) (User.verify_token u) = false) pre ->
  User.verified u = false ->
  handleConfirmEmail (User.verify_token u) w =
  (Return confirm_success,
   set_users (fun _ =>
     pre ++ [setValue (F_updated_at (clock w))
               (setValue (F_verify_token "") (setValue (F_verified true) u))]) w).
Proof.
  intros Hu Hemail Htok Hv. unfold handleConfirmEmail.
  rewrite (run_bind _ _ _ _ _ (findUserByVerifyToken_run _ w)), Hu.
  rewrite scan_middle; [| exact Htok | apply String.eqb_refl].
  rewrite Hv.
  erewrite run_bind
    by (eapply updateUserField_at with (pre := pre) (post := []);
        [exact Hu | exact Hemail | reflexivity]).
  erewrite run_bind
    by (eapply updateUserField_at with (pre := pre) (post := []);
        [reflexivity | exact Hemail | reflexivity]).
  erewrite run_bind by reflexivity.
  erewrite run_bind
    by (eapply updateUserField_at with (pre := pre) (post := []);
        [reflexivity | exact Hemail | reflexivity]).
  reflexivity.
Qed.

Lemma nonempty_of_length (s : string) n :
  String.length s = S n -> s <> "".
Proof. intros H ->. discriminate H. Qed.

(** The branch of [handleConfirmEmail] that answers "already_verified" is
    taken for a verified row that the lookup finds under the token of the
    link, a token that [doGet] has checked not to be blank. *)
Lemma already_verified_needs_token action token w w' :
  doGet action token w = (Return confirm_already_verified, w') ->
  exists row u,
    finds (findUserByVerifyToken (text token)) w row u /\
    User.verified u = true /\ User.verify_token u = text token /\ text token <> "".
Proof.
  intros H. unfold doGet in H.
  destruct (match action with Some a => String.eqb a "confirmEmail" | None => false end);
    [| discriminate H].
  destruct (truthy token) eqn:Ht; [| discriminate H]. cbn [andb] in H.
  unfold handleConfirmEmail in H.
  rewrite (run_bind _ _ _ _ _ (findUserByVerifyToken_run _ w)) in H.
  destruct (scan _ 1 (users w)) as [[row u]|] eqn:Hscan; [| discriminate H].
  exists row, u. split; [unfold finds; now rewrite findUserByVerifyToken_run, Hscan |].
  apply scan_Some in Hscan. destruct Hscan as (pre & post & _ & _ & Hu & _).
  apply String.eqb_eq in Hu.
  destruct (User.verified u) eqn:Hv.
  - split; [reflexivity |]. split; [exact Hu |].
    destruct token as [t|]; [| discriminate Ht]. cbn in Ht |- *.
    intros ->. discriminate Ht.
  - exfalso.
    destruct (returns_updateUserField (User.email u) (F_verified true) w) as ([] & wa & Ha).
    rewrite (run_bind _ _ _ _ _ Ha) in H.
    destruct (returns_updateUserField (User.email u) (F_verify_token "") wa) as ([] & wb & Hb).
    rewrite (run_bind _ _ _ _ _ Hb) in H.
    erewrite run_bind in H by reflexivity.
    destruct (returns_updateUserField (User.email u) (F_updated_at (clock wb)) wb)
      as ([] & wc & Hc).
    rewrite (run_bind _ _ _ _ _ Hc) in H.
    discriminate H.
Qed.

(** C3 fails on the code, whatever the signup. After a successful signup
    whose verify_token is not already the verify_token of an earlier row,
    the first [confirmEmail] with that token succeeds and leaves the new
    row verified with a blank verify_token. A second [confirmEmail] with
    the same token, at whatever time, is answered with "invalid_token"
    and not with "already_verified": the lookup by token finds no row any
    more, so the branch written for a verified row is not reached. The
    second attempt does not write: the world, and so the user row, is
    left as it was. *)
Theorem confirmEmail_is_one_shot
    (data : Data.t) (w w1 : World) (m : string) (u : User.t) :
  handleSignup computeDigest data w = (Return (Success m), w1) ->
  last (users w1) = Some u ->
  Forall (fun x => User.verify_token x <> User.verify_token u) (users w) ->
  exists w2 u2,
    handleConfirmEmail (User.verify_token u) w1 = (Return confirm_success, w2) /\
    users w2 = users w ++ [u2] /\
    User.email u2 = User.email u /\ User.verified u2 = true /\
    User.verify_token u2 = "" /\
    forall t,
      handleConfirmEmail (User.verify_token u) (set_clock t w2) =
      (Return confirm_invalid_token, set_clock t w2).
Proof.
  intros Hsignup Hlast Hfresh.
  destruct (signup_success_inv _ _ _ _ Hsignup) as (u' & Hu & Hc & He & Hv & Hlen & Hemail).
  rewrite Hu, last_snoc in Hlast. injection Hlast as ->.
  assert (Htok : Forall (fun x => String.eqb (User.verify_token x) (User.verify_token u) = false)
                        (users w)).
  { eapply Forall_impl; [exact Hfresh |]. intros x. apply String.eqb_neq. }
  eexists _, _. split; [apply (confirmEmail_first w1 (users w) u); assumption |].
  split; [reflexivity |]. split; [reflexivity |]. split; [reflexivity |].
  split; [reflexivity |].
  intros t. unfold handleConfirmEmail.
  erewrite run_bind by apply findUserByVerifyToken_run.
  cbn [set_clock set_users users].
  rewrite scan_app. apply scan_None with (i := 1%nat) in Htok. rewrite Htok.
  cbn [scan setValue User.verify_token].
  apply nonempty_of_length in Hlen.
  assert (Hb : String.eqb "" (User.verify_token u) = false)
    by (apply String.eqb_neq; congruence).
  rewrite Hb. reflexivity.
Qed.

(** *** The password hash *)

Lemma hex_of_byte_length b : String.length (hex_of_byte b) = 2%nat.
Proof. destruct b; reflexivity. Qed.

Lemma hex_value_of_byte b : hex_value (hex_of_byte b) 0 = Byte.to_N b.
Proof. destruct b; reflexivity. Qed.

Lemma hex_of_byte_inj b1 b2 : hex_of_byte b1 = hex_of_byte b2 -> b1 = b2.
Proof.
  intros H. apply (f_equal (fun s => hex_value s 0)) in H.
  rewrite !hex_value_of_byte in H.
  apply (f_equal Byte.of_N) in H. rewrite !Byte.of_to_N in H. congruence.
Qed.

Lemma append_cons c (a b : string) : String c a +:+ b = String c (a +:+ b).
Proof. reflexivity. Qed.

Lemma append_assoc (a b c : string) : (a +:+ b) +:+ c = a +:+ (b +:+ c).
Proof.
  induction a as [|x a IH]; [reflexivity |]. now rewrite !append_cons, IH.
Qed.

Lemma append_empty_r (a : string) : a +:+ "" = a.
Proof.
  induction a as [|x a IH]; [reflexivity |]. now rewrite append_cons, IH.
Qed.

Lemma append_inv (a b x y : string) :
  String.length a = String.length b -> a +:+ x = b +:+ y -> a = b /\ x = y.
Proof.
  revert b. induction a as [|c a IH]; intros [|d b] Hlen H; simpl in *;
    try discriminate Hlen.
  - auto.
  - injection H as -> H. injection Hlen as Hlen.
    destruct (IH b Hlen H) as [-> ->]. auto.
Qed.

Lemma append_inv_tail (a b s : string) : a +:+ s = b +:+ s -> a = b.
Proof.
  intros H. apply (append_inv a b s s); [| exact H].
  apply (f_equal String.length) in H. rewrite !length_append in H. lia.
Qed.

Lemma hash_loop l acc :
  fold_left (fun hash b => hash +:+ hex_of_byte b) l acc = acc +:+ hex_of_bytes l.
Proof.
  revert acc. induction l as [|b l IH]; intros acc; cbn [fold_left hex_of_bytes].
  - now rewrite append_empty_r.
  - now rewrite IH, append_assoc.
Qed.

Lemma hex_of_bytes_inj l1 l2 : hex_of_bytes l1 = hex_of_bytes l2 -> l1 = l2.
Proof.
  revert l2. induction l1 as [|b1 l1 IH]; intros [|b2 l2] H; cbn [hex_of_bytes] in H.
  - reflexivity.
  - apply (f_equal String.length) in H.
    rewrite length_append, hex_of_byte_length in H. discriminate H.
  - apply (f_equal String.length) in H.
    rewrite length_append, hex_of_byte_length in H. discriminate H.
  - apply append_inv in H; [| now rewrite !hex_of_byte_length].
    destruct H as [Hb Hl]. apply hex_of_byte_inj in Hb. apply IH in Hl. congruence.
Qed.

(** With a digest that is one-to-one, two passwords hashed under the same
    salt collide only if they are the same password. *)
Lemma hashPassword_inj p1 p2 salt :
  (forall a b, computeDigest a = computeDigest b -> a = b) ->
  hashPassword computeDigest p1 salt = hashPassword computeDigest p2 salt -> p1 = p2.
Proof.
  intros Hinj H. unfold hashPassword in H. rewrite !hash_loop in H. simpl in H.
  apply hex_of_bytes_inj, Hinj, append_inv_tail in H. exact H.
Qed.

(** *** Password reset *)

Lemma resetPassword_success_inv data w m w1 row u pre post :
  handleResetPassword computeDigest data w = (Return (Success m), w1) ->
  scan (fun r => String.eqb (User.reset_token r) (text (Data.token data))) 1 (users w)
    = Some (row, u) ->
  users w = pre ++ u :: post ->
  Forall (fun x => String.eqb (User.email x) (User.email u) = false) pre ->
  exists salt,
    users w1 =
      pre ++ User.mk (User.email u) (User.username u)
               (hashPassword computeDigest (text (Data.newPassword data)) salt) salt
               (User.created_at u) (User.verified u) (User.verify_token u)
               "" None (clock w) :: post /\
    truthy (Data.newPassword data) = true.
Proof.
  intros H Hfind Hu Hpre. unfold handleResetPassword in H.
  destruct (truthy (Data.token data)); [| discriminate H].
  destruct (truthy (Data.newPassword data)); [| discriminate H].
  cbn [negb orb] in H.
  destruct (String.length (text (Data.newPassword data)) <? 8)%nat; [discriminate H |].
  rewrite (run_bind _ _ _ _ _ (findUserByResetToken_run _ w)), Hfind in H.
  erewrite run_bind in H by reflexivity.
  destruct (date_lt (User.reset_token_expires u) (clock w)); [discriminate H |].
  peel H. apply generateToken_frame in Hrun.
  destruct Hrun as (Hu0 & _ & _ & Hc0 & _).
  rewrite <- Hu0 in Hu.
  erewrite run_bind in H
    by (eapply updateUserField_at with (pre := pre) (post := post);
        [exact Hu | exact Hpre | reflexivity]).
  do 3 (erewrite run_bind in H
    by (eapply updateUserField_at with (pre := pre) (post := post);
        [reflexivity | exact Hpre | reflexivity])).
  erewrite run_bind in H by reflexivity.
  erewrite run_bind in H
    by (eapply updateUserField_at with (pre := pre) (post := post);
        [reflexivity | exact Hpre | reflexivity]).
  inversion H; subst; clear H. exists a. cbn. rewrite Hc0. split; reflexivity.
Qed.

Lemma plain_digest_inj a b : plain_digest a = plain_digest b -> a = b.
Proof.
  unfold plain_digest. revert b.
  induction a as [|c a IH]; intros [|d b] H; simpl in H; try discriminate H.
  - reflexivity.
  - injection H as Hc H. apply IH in H. subst b.
    apply (f_equal ascii_of_byte) in Hc.
    rewrite !ascii_of_byte_of_ascii in Hc. now subst d.
Qed.

(** C2, as the claim states it, fails when the new password is the
    previous one: the digest is one-to-one, the reset succeeds, and the
    previous password still logs in. *)
Lemma old_password_still_valid_when_reused :
  (forall a b, plain_digest a = plain_digest b -> a = b) /\
  fst (handleLogin plain_digest (request_login "a@x.com" "pw123456") (reset_world 1000))
    = Return (LoginSuccess "AAAAAAAAAAAAAAAAAAAAAAAAAAAAAAAAAAAAAAAAAAAAAAAAAAAAAAAAAAAAAAAA"
                           604801000 (summary ann)) /\
  fst (handleResetPassword plain_digest (request_reset "reset-1" "pw123456") (reset_world 1000))
    = Return (Success "Password updated successfully") /\
  fst (handleLogin plain_digest (request_login "a@x.com" "pw123456")
         (snd (handleResetPassword plain_digest (request_reset "reset-1" "pw123456")
                 (reset_world 1000))))
    = Return (LoginSuccess "AAAAAAAAAAAAAAAAAAAAAAAAAAAAAAAAAAAAAAAAAAAAAAAAAAAAAAAAAAAAAAAA"
                           604801000 (summary ann)).
Proof.
  split; [exact plain_digest_inj | vm_compute; repeat split].
Qed.

Lemma login_found data w row u :
  truthy (Data.email data) = true -> truthy (Data.password data) = true ->
  scan (fun r => String.eqb (User.email r) (text (Data.email data))) 1 (users w)
    = Some (row, u) ->
  User.verified u = true ->
  if String.eqb (hashPassword computeDigest (text (Data.password data)) (User.salt u))
                (User.password_hash u)
  then exists tok w',
         handleLogin computeDigest data w =
         (Return (LoginSuccess tok (clock w + 7 * 24 * 60 * 60 * 1000) (summary u)), w')
  else handleLogin computeDigest data w = (Return (Error "Invalid login credentials"), w).
Proof.
  intros He Hp Hs Hv. unfold handleLogin. rewrite He, Hp. cbn [negb orb].
  rewrite (run_bind _ _ _ _ _ (findUserByEmail_run _ w)), Hs, Hv. cbn [negb].
  destruct (String.eqb _ (User.password_hash u)); cbn [negb]; [| reflexivity].
  destruct (returns_generateToken 64 w) as (tok & w0 & Htok).
  rewrite (run_bind _ _ _ _ _ Htok).
  apply generateToken_frame in Htok. destruct Htok as (_ & _ & _ & Hc & _).
  erewrite run_bind by reflexivity. erewrite run_bind by reflexivity.
  rewrite Hc. eexists _, _. reflexivity.
Qed.

(** C2, amended. Let the digest be one-to-one. After a successful
    [resetPassword(token, newPassword)] for a verified user (the row the
    reset token finds being also the row its email finds), a login with
    that user's email and the new password succeeds, whenever it is made;
    and a login with any other non-empty password, in particular with the
    previous password if the new one differs from it, is answered with
    "Invalid login credentials" and creates no session. *)
Theorem resetPassword_then_login
    (data : Data.t) (w w1 : World) (m : string) (row : nat) (u : User.t) :
  (forall a b, computeDigest a = computeDigest b -> a = b) ->
  handleResetPassword computeDigest data w = (Return (Success m), w1) ->
  finds (findUserByResetToken (text (Data.token data))) w row u ->
  finds (findUserByEmail (User.email u)) w row u ->
  User.verified u = true ->
  User.email u <> "" ->
  (forall t, exists tok exp us w2,
     handleLogin computeDigest
       (request_login (User.email u) (text (Data.newPassword data))) (set_clock t w1)
     = (Return (LoginSuccess tok exp us), w2)) /\
  (forall t p, p <> "" -> p <> text (Data.newPassword data) ->
     handleLogin computeDigest (request_login (User.email u) p) (set_clock t w1)
     = (Return (Error "Invalid login credentials"), set_clock t w1)).
Proof.
  intros Hinj Hreset Hfind Hemail Hv Hne.
  apply finds_user_by_reset_token in Hfind. apply finds_user_by_email in Hemail.
  destruct (scan_Some _ _ _ _ _ Hemail) as (pre & post & Hu & _ & _ & Hpre).
  destruct (resetPassword_success_inv _ _ _ _ _ _ _ _ Hreset Hfind Hu Hpre)
    as (salt & Hu1 & Hnew).
  assert (Hnew' : text (Data.newPassword data) <> "").
  { destruct (Data.newPassword data) as [s|]; [| discriminate Hnew].
    simpl in *. intros ->. discriminate Hnew. }
  set (u1 := User.mk _ _ _ _ _ _ _ _ _ _) in Hu1.
  assert (Hscan : forall t,
    scan (fun r => String.eqb (User.email r) (User.email u)) 1 (users (set_clock t w1))
    = Some ((1 + List.length pre + 1)%nat, u1)).
  { intros t. cbn [set_clock users]. rewrite Hu1.
    apply scan_middle; [exact Hpre | apply String.eqb_refl]. }
  split.
  - intros t.
    pose proof (login_found
      (request_login (User.email u) (text (Data.newPassword data))) (set_clock t w1)
      _ u1 (truthy_Some _ Hne) (truthy_Some _ Hnew') (Hscan t) Hv) as H.
    cbn [request_login Data.password text u1 User.salt User.password_hash] in H.
    rewrite String.eqb_refl in H. destruct H as (tok & w2 & H). eauto.
  - intros t p Hp Hdiff.
    pose proof (login_found
      (request_login (User.email u) p) (set_clock t w1)
      _ u1 (truthy_Some _ Hne) (truthy_Some _ Hp) (Hscan t) Hv) as H.
    cbn [request_login Data.password text u1 User.salt User.password_hash] in H.
    destruct (String.eqb_spec
      (hashPassword computeDigest p salt)
      (hashPassword computeDigest (text (Data.newPassword data)) salt)) as [Heq|_].
    + apply hashPassword_inj in Heq; [contradiction | exact Hinj].
    + exact H.
Qed.

End AuthProperties.

(** ** Chat history and statistics *)

(** *** Chat statistics *)

Lemma existsb_eqb x (s : list string) : existsb (String.eqb x) s = true <-> x ∈ s.
Proof.
  rewrite existsb_exists, list_elem_of_In. split.
  - intros (y & Hy & He). apply String.eqb_eq in He. now subst.
  - intros H. exists x. split; [exact H | apply String.eqb_refl].
Qed.

Lemma set_add_spec x (s : list string) :
  NoDup s -> NoDup (set_add x s) /\ forall y, y ∈ set_add x s <-> y ∈ s \/ y = x.
Proof.
  intros Hs. unfold set_add. destruct (existsb (String.eqb x) s) eqn:E.
  - apply existsb_eqb in E. split; [exact Hs |]. intros y. split; [auto |].
    intros [H | ->]; assumption.
  - assert (x ∉ s) by (rewrite <- existsb_eqb, E; discriminate).
    split.
    + apply NoDup_app. split; [exact Hs |]. split; [| apply NoDup_singleton].
      intros y Hy Hy'. apply list_elem_of_singleton in Hy'. now subst.
    + intros y. rewrite elem_of_app, list_elem_of_singleton. tauto.
Qed.

(** What a row of the user adds to the tally. *)
Lemma tally_row_eq email acc row :
  tally_row email acc row =
  if of_user email row then
    mkTally (set_add (Chat.session_id row) (tally_sessions acc))
            (if has_type "human" row then S (humanCount acc) else humanCount acc)
            (if has_type "human" row then aiCount acc
             else if has_type "ai" row then S (aiCount acc) else aiCount acc)
            (<[utc_day (Chat.created_at row) :=
                 (default 0 (messagesByDay acc !! utc_day (Chat.created_at row)) + 1)%nat]>
               (messagesByDay acc))
  else acc.
Proof. reflexivity. Qed.

Lemma tally_fold_sessions email rows acc :
  NoDup (tally_sessions acc) ->
  NoDup (tally_sessions (fold_left (tally_row email) rows acc)) /\
  forall y, y ∈ tally_sessions (fold_left (tally_row email) rows acc) <->
            y ∈ tally_sessions acc \/
            y ∈ map Chat.session_id (List.filter (of_user email) rows).
Proof.
  revert acc. induction rows as [|r rows IH]; intros acc Hacc; cbn [fold_left List.filter].
  - split; [exact Hacc |]. intros y. cbn. rewrite elem_of_nil. tauto.
  - rewrite tally_row_eq. destruct (of_user email r).
    + destruct (set_add_spec (Chat.session_id r) _ Hacc) as [Hnd Hin].
      match goal with
      | |- context [fold_left _ rows ?a] => destruct (IH a Hnd) as [IH1 IH2]
      end.
      split; [exact IH1 |]. intros y. rewrite IH2. cbn [tally_sessions map].
      rewrite Hin, elem_of_cons. tauto.
    + apply IH, Hacc.
Qed.

Lemma tally_fold_counts email rows acc :
  humanCount (fold_left (tally_row email) rows acc) =
    (humanCount acc +
     List.length (List.filter (has_type "human") (List.filter (of_user email) rows)))%nat /\
  aiCount (fold_left (tally_row email) rows acc) =
    (aiCount acc +
     List.length (List.filter (has_type "ai") (List.filter (of_user email) rows)))%nat /\
  forall day,
    default 0%nat (messagesByDay (fold_left (tally_row email) rows acc) !! day) =
    (default 0%nat (messagesByDay acc !! day) +
     List.length (List.filter (on_day day) (List.filter (of_user email) rows)))%nat.
Proof.
  revert acc. induction rows as [|r rows IH]; intros acc; cbn [fold_left List.filter].
  - cbn. repeat split; intros; lia.
  - rewrite tally_row_eq. destruct (of_user email r).
    + match goal with
      | |- context [fold_left _ rows ?a] => destruct (IH a) as (IH1 & IH2 & IH3)
      end.
      rewrite IH1, IH2. cbn [humanCount aiCount messagesByDay List.filter].
      split; [| split].
      * destruct (has_type "human" r); cbn [List.length]; lia.
      * destruct (has_type "human" r) eqn:Eh, (has_type "ai" r) eqn:Ea;
          cbn [List.length]; try lia.
        unfold has_type in Eh, Ea. apply String.eqb_eq in Eh, Ea.
        rewrite Eh in Ea. discriminate Ea.
      * intros day. rewrite IH3. cbn [messagesByDay]. unfold on_day at 2.
        rewrite lookup_insert.
        destruct (Z.eqb_spec (utc_day (Chat.created_at r)) day) as [E|E].
        -- rewrite decide_True by exact E. subst day. cbn [default List.length]. unfold id. lia.
        -- rewrite decide_False by exact E. lia.
    + apply IH.
Qed.

(** C10. For an authenticated user (the token finds a session that has not
    expired) [getChatStats] returns statistics in which [totalMessages] is
    [humanMessages + aiMessages], [humanMessages] counts the user's rows
    of type "human" and [aiMessages] those of type "ai": a row of the user
    with any other message_type is in none of the three counts. Such rows
    are counted all the same in [totalSessions], the number of distinct
    session ids among all the user's rows, and in the histogram, whose
    seven entries count all the user's rows of their day. This holds in
    every time zone of the script and over every header of the sheet; the
    day of the entry [i] is the UTC date of the instant that
    [d.setDate(d.getDate() - i)] reaches from the current time in the
    script's zone. *)
Theorem chatStats_counts (zone : TimeZone) (header : Header)
    (data : Data.t) (w : World) (row : nat) (s : Session.t) :
  truthy (Data.token data) = true ->
  finds (findSessionByToken (text (Data.token data))) w row s ->
  clock w <= Session.expires_at s ->
  let mine := List.filter (of_user (Session.user_email s)) (chat_history w) in
  exists st,
    Script.handleGetChatStats zone header data w = (Return (ChatStats st), w) /\
    stats_totalMessages st = (stats_humanMessages st + stats_aiMessages st)%nat /\
    stats_humanMessages st = List.length (List.filter (has_type "human") mine) /\
    stats_aiMessages st = List.length (List.filter (has_type "ai") mine) /\
    stats_totalMessages st =
      List.length (List.filter (fun r => has_type "human" r || has_type "ai" r) mine) /\
    stats_totalSessions st = List.length (remove_dups (map Chat.session_id mine)) /\
    map count (stats_messagesByDay st) =
      map (fun i =>
             List.length (List.filter (on_day (utc_day (days_before zone i (clock w)))) mine))
          [6; 5; 4; 3; 2; 1; 0].
Proof.
  intros Ht Hs Hexp mine. apply finds_session_by_token in Hs.
  unfold Script.handleGetChatStats. rewrite Ht. cbn [negb].
  rewrite (run_bind _ _ _ _ _ (findSessionByToken_run _ w)), Hs.
  erewrite run_bind by reflexivity.
  assert (Hnot : (Session.expires_at s <? clock w) = false) by (apply Z.ltb_ge; exact Hexp).
  rewrite Hnot. erewrite run_bind by reflexivity.
  eexists. split; [reflexivity |].
  cbn [stats_totalMessages stats_humanMessages stats_aiMessages stats_totalSessions
       stats_messagesByDay].
  unfold getValues.
  destruct (tally_fold_counts (Session.user_email s) (chat_history w) (mkTally [] 0 0 ∅))
    as (Hh & Ha & Hd).
  destruct (tally_fold_sessions (Session.user_email s) (chat_history w) (mkTally [] 0 0 ∅))
    as (Hnd & Hin); [apply NoDup_nil_2 |].
  fold mine in Hh, Ha, Hd, Hin. cbn [humanCount aiCount messagesByDay tally_sessions] in *.
  split; [reflexivity |]. split; [exact Hh |]. split; [exact Ha |]. split; [| split].
  - rewrite Hh, Ha. clear. induction mine as [|r l IH]; [reflexivity |].
    cbn [List.filter].
    destruct (has_type "human" r) eqn:Eh, (has_type "ai" r) eqn:Ea;
      cbn [orb List.length]; try lia.
    unfold has_type in Eh, Ea. apply String.eqb_eq in Eh, Ea.
    rewrite Eh in Ea. discriminate Ea.
  - apply Permutation_length, NoDup_Permutation;
      [exact Hnd | apply NoDup_remove_dups |].
    intros y. rewrite Hin, elem_of_remove_dups, elem_of_nil. tauto.
  - unfold Script.last7Days. rewrite map_map. apply map_ext. intros i.
    cbn [count]. rewrite Hd. rewrite lookup_empty. reflexivity.
Qed.

(** *** Chat history *)

(** C8 fails on the code for a session id that is the name of a property
    every object inherits. A logged-in user stores one message under the
    session id "constructor"; [getChatHistory] for that user then throws
    in the grouping loop and answers with an error instead of the
    conversation. *)
Theorem chatHistory_breaks_on_inherited_session_id :
  let saved := doPost plain_digest "saveChatMessage" save_constructor (ann_world 1000) in
  fst saved = MessageSaved (1000, 0%nat) /\
  map Chat.session_id (chat_history (snd saved)) = ["constructor"] /\
  fst (doPost plain_digest "getChatHistory" (request_token "tok-ann") (snd saved))
    = Error "Cannot read properties of undefined (reading 'push')".
Proof. vm_compute. repeat split. Qed.

(** Away from those names the grouping is as C8 describes it. The entries
    of [sessionsMap] are a function of the rows read so far. *)
Lemma own_alter_own {A} (f : A -> A) key key' (obj : list (string * A)) :
  own key' (alter_own f key obj) =
  if String.eqb key key' then f <$> own key obj else own key' obj.
Proof.
  induction obj as [|[k v] obj IH]; cbn [alter_own own].
  - now destruct (String.eqb key key').
  - destruct (String.eqb_spec k key) as [->|Hk]; cbn [own].
    + destruct (String.eqb_spec key key') as [->|Hk']; [reflexivity |].
      reflexivity.
    + destruct (String.eqb_spec k key') as [->|Hk'].
      * apply String.eqb_neq in Hk. rewrite String.eqb_sym in Hk. now rewrite Hk.
      * exact IH.
Qed.

Lemma keys_alter_own {A} (f : A -> A) key (obj : list (string * A)) :
  map fst (alter_own f key obj) = map fst obj.
Proof.
  induction obj as [|[k v] obj IH]; [reflexivity |]. cbn [alter_own].
  destruct (String.eqb k key); cbn [map fst]; [reflexivity | now rewrite IH].
Qed.

Lemma own_app {A} key (obj : list (string * A)) k v :
  own key (obj ++ [(k, v)]) =
  match own key obj with
  | Some x => Some x
  | None => if String.eqb k key then Some v else None
  end.
Proof.
  induction obj as [|[k' v'] obj IH]; cbn [app own]; [reflexivity |].
  now destruct (String.eqb k' key).
Qed.

Lemma own_None {A} key (obj : list (string * A)) :
  own key obj = None <-> key ∉ map fst obj.
Proof.
  induction obj as [|[k v] obj IH]; cbn [own map fst].
  - split; [intros _; apply not_elem_of_nil | reflexivity].
  - rewrite not_elem_of_cons. destruct (String.eqb_spec k key) as [->|Hk].
    + split; [discriminate | intros [H _]; congruence].
    + rewrite IH. split; [intros H; split; [congruence | exact H] | tauto].
Qed.

Lemma own_elem_of {A} key (v : A) (obj : list (string * A)) :
  NoDup (map fst obj) -> (key, v) ∈ obj <-> own key obj = Some v.
Proof.
  induction obj as [|[k x] obj IH]; cbn [own map fst]; intros Hnd.
  - rewrite elem_of_nil. split; [tauto | discriminate].
  - apply NoDup_cons in Hnd. destruct Hnd as [Hk Hnd].
    rewrite elem_of_cons, (IH Hnd). destruct (String.eqb_spec k key) as [->|Hne].
    + split.
      * intros [[= ->] | H]; [reflexivity |].
        apply own_None in Hk. congruence.
      * intros [= ->]. now left.
    + split; [intros [[= -> ->] | H]; [congruence | exact H] | auto].
Qed.

Lemma session_rows_snoc email sid rows r :
  session_rows email sid (rows ++ [r]) =
  session_rows email sid rows ++
  (if of_user email r && in_session sid r then [r] else []).
Proof.
  unfold session_rows. rewrite List.filter_app. cbn [List.filter].
  now destruct (of_user email r && in_session sid r).
Qed.

Lemma conv_for_snoc_other email sid rows r :
  of_user email r && in_session sid r = false ->
  conv_for email sid (rows ++ [r]) = conv_for email sid rows.
Proof.
  intros H. unfold conv_for. rewrite session_rows_snoc, H. now rewrite app_nil_r.
Qed.

Lemma conv_for_snoc_same email rows r :
  of_user email r = true ->
  conv_for email (Chat.session_id r) (rows ++ [r]) =
  match conv_for email (Chat.session_id r) rows with
  | Some conv => Some (push (message_of r) conv)
  | None =>
      Some (push (message_of r) (mkConv (Chat.session_id r) [] (Chat.created_at r)))
  end.
Proof.
  intros Hu. unfold conv_for. rewrite session_rows_snoc, Hu.
  unfold in_session at 1. rewrite String.eqb_refl. cbn [andb].
  destruct (session_rows email (Chat.session_id r) rows) as [|first rest];
    cbn [app]; [reflexivity |].
  unfold push. cbn [conv_sessionId conv_messages conv_firstMessageTime map app].
  now rewrite map_app.
Qed.

Lemma group_row_grouped email sessionsMap sessionsMap' rows r :
  grouped email sessionsMap rows ->
  group_row email sessionsMap r = Return sessionsMap' ->
  grouped email sessionsMap' (rows ++ [r]).
Proof.
  intros [Hnd Hown] H. unfold group_row in H. fold (of_user email r) in H.
  destruct (of_user email r) eqn:Hu.
  - destruct (own (Chat.session_id r) sessionsMap) as [conv|] eqn:Ho.
    + injection H as <-. split; [now rewrite keys_alter_own |].
      intros sid. rewrite own_alter_own.
      destruct (String.eqb_spec (Chat.session_id r) sid) as [<-|Hne].
      * rewrite conv_for_snoc_same, <- Hown, Ho by exact Hu. reflexivity.
      * rewrite conv_for_snoc_other; [apply Hown |].
        unfold in_session. apply String.eqb_neq in Hne. rewrite Hne.
        apply andb_false_r.
    + destruct (inherited (Chat.session_id r)); [discriminate H |].
      injection H as <-. split.
      * rewrite map_app. apply NoDup_app. split; [exact Hnd |].
        split; [| apply NoDup_singleton].
        intros x Hx Hx'. apply list_elem_of_singleton in Hx'. subst x.
        apply own_None in Ho. contradiction.
      * intros sid. rewrite own_app.
        destruct (String.eqb_spec (Chat.session_id r) sid) as [<-|Hne].
        -- rewrite Ho, conv_for_snoc_same, <- Hown, Ho by exact Hu. reflexivity.
        -- rewrite conv_for_snoc_other; [rewrite Hown; now destruct (conv_for _ _ _) |].
           unfold in_session. apply String.eqb_neq in Hne. rewrite Hne.
           apply andb_false_r.
  - injection H as <-. split; [exact Hnd |]. intros sid.
    rewrite conv_for_snoc_other; [apply Hown | now rewrite Hu].
Qed.

Lemma group_rows_grouped email rest sessionsMap sessionsMap' rows :
  grouped email sessionsMap rows ->
  group_rows email sessionsMap rest = Return sessionsMap' ->
  grouped email sessionsMap' (rows ++ rest).
Proof.
  revert sessionsMap rows. induction rest as [|r rest IH]; intros m rows Hg H;
    cbn [group_rows] in H.
  - injection H as <-. now rewrite app_nil_r.
  - destruct (group_row email m r) as [m1|e] eqn:Hr; [| discriminate H].
    replace (rows ++ r :: rest) with ((rows ++ [r]) ++ rest)
      by (now rewrite <- app_assoc).
    eapply IH; [| exact H]. eapply group_row_grouped; eassumption.
Qed.

Lemma group_rows_returns email rest sessionsMap :
  Forall (fun r => of_user email r = true -> inherited (Chat.session_id r) = false) rest ->
  exists sessionsMap', group_rows email sessionsMap rest = Return sessionsMap'.
Proof.
  revert sessionsMap. induction rest as [|r rest IH]; intros m H; cbn [group_rows].
  - eauto.
  - apply Forall_cons in H. destruct H as [Hr H].
    unfold group_row. fold (of_user email r).
    destruct (of_user email r); [| apply IH, H].
    destruct (own (Chat.session_id r) m); [apply IH, H |].
    rewrite Hr by reflexivity. apply IH, H.
Qed.

Lemma insert_index_perm {A} n (v : A) l : insert_index n v l ≡ₚ (n, v) :: l.
Proof.
  induction l as [|[m u] l IH]; cbn [insert_index]; [reflexivity |].
  destruct (n <=? m)%N; [reflexivity |].
  rewrite IH. apply perm_swap.
Qed.

(** [Object.values] lists every value once, in some order. *)
Lemma Object_values_perm {A} (obj : list (string * A)) :
  Object_values obj ≡ₚ map snd obj.
Proof.
  unfold Object_values. induction obj as [|[k v] obj IH]; [reflexivity |].
  cbn [foldr List.filter map fst snd].
  destruct (array_index k) as [n|].
  - rewrite insert_index_perm. cbn [map snd app]. now rewrite IH.
  - cbn [map snd]. rewrite <- Permutation_middle. now rewrite IH.
Qed.

Lemma insert_conversation_perm a l : insert_conversation a l ≡ₚ a :: l.
Proof.
  induction l as [|b l IH]; cbn [insert_conversation]; [reflexivity |].
  destruct (createdAt b - createdAt a <=? 0); [reflexivity |].
  rewrite IH. apply perm_swap.
Qed.

Lemma sort_conversations_perm l : sort_conversations l ≡ₚ l.
Proof.
  unfold sort_conversations. induction l as [|a l IH]; [reflexivity |].
  cbn [foldr]. now rewrite insert_conversation_perm, IH.
Qed.

Lemma substring0_length n s : (String.length (substring0 n s) <= n)%nat.
Proof.
  unfold substring0. revert s. induction n as [|n IH]; intros [|c s]; cbn; try lia.
  specialize (IH s). lia.
Qed.

Lemma excerpt_length n l : (String.length (excerpt n "" l) <= n)%nat.
Proof.
  destruct l as [|m l]; cbn [excerpt]; [cbn; lia |].
  unfold or_else. destruct (String.eqb _ ""); [cbn; lia | apply substring0_length].
Qed.

(** The grouping of [getChatHistory], for an authenticated user none of
    whose rows carries an inherited property name as session id: the
    conversations have distinct session ids; each holds exactly the user's
    rows of its session id, in sheet order, and has a preview of at most
    100 characters; and every row of the user has its conversation. *)
Lemma chatHistory_groups (data : Data.t) (w : World) (row : nat) (s : Session.t) :
  truthy (Data.token data) = true ->
  finds (findSessionByToken (text (Data.token data))) w row s ->
  clock w <= Session.expires_at s ->
  Forall (fun r => of_user (Session.user_email s) r = true ->
                   inherited (Chat.session_id r) = false) (chat_history w) ->
  exists conversations msgs,
    handleGetChatHistory data w = (Return (ChatHistory conversations msgs), w) /\
    NoDup (map sessionId conversations) /\
    (forall c, c ∈ conversations ->
       messages c =
         map message_of (session_rows (Session.user_email s) (sessionId c) (chat_history w)) /\
       messages c <> [] /\
       (String.length (preview c) <= 100)%nat) /\
    (forall r, r ∈ chat_history w -> of_user (Session.user_email s) r = true ->
       exists c, c ∈ conversations /\ sessionId c = Chat.session_id r).
Proof.
  intros Ht Hs Hexp Hok. apply finds_session_by_token in Hs.
  set (email := Session.user_email s) in *.
  destruct (group_rows_returns email (chat_history w) [] Hok) as (m & Hm).
  assert (Hg : grouped email m (chat_history w)).
  { apply (group_rows_grouped email (chat_history w) [] m []); [| exact Hm].
    split; [apply NoDup_nil_2 | reflexivity]. }
  destruct Hg as [Hnd Hown].
  assert (Hentry : forall k cv, (k, cv) ∈ m ->
            exists first rest,
              session_rows email k (chat_history w) = first :: rest /\
              cv = mkConv k (map message_of (first :: rest)) (Chat.created_at first)).
  { intros k cv Hin. apply (own_elem_of _ _ _ Hnd) in Hin.
    rewrite Hown in Hin. unfold conv_for in Hin.
    destruct (session_rows email k (chat_history w)) as [|first rest]; [discriminate Hin |].
    injection Hin as <-. eauto. }
  eexists _, _. split.
  { unfold handleGetChatHistory. rewrite Ht. cbn [negb].
    rewrite (run_bind _ _ _ _ _ (findSessionByToken_run _ w)), Hs.
    erewrite run_bind by reflexivity.
    assert (Hnot : (Session.expires_at s <? clock w) = false)
      by (apply Z.ltb_ge; exact Hexp).
    rewrite Hnot. erewrite run_bind by reflexivity.
    unfold getValues. fold email. rewrite Hm. reflexivity. }
  assert (Hperm : sort_conversations (map conversation_of (Object_values m))
                  ≡ₚ map conversation_of (map snd m)).
  { rewrite sort_conversations_perm. now rewrite Object_values_perm. }
  split; [| split].
  - rewrite Hperm, !map_map.
    erewrite map_ext_in; [exact Hnd |].
    intros [k cv] Hin. apply list_elem_of_In in Hin.
    destruct (Hentry k cv Hin) as (first & rest & _ & ->). reflexivity.
  - intros c Hc. rewrite Hperm in Hc.
    apply list_elem_of_fmap in Hc. destruct Hc as (cv & -> & Hc).
    apply list_elem_of_fmap in Hc. destruct Hc as ([k cv'] & -> & Hc).
    destruct (Hentry k cv' Hc) as (first & rest & Hrows & ->).
    cbn [snd conversation_of sessionId messages preview conv_sessionId conv_messages].
    rewrite Hrows. split; [reflexivity |]. split; [discriminate |].
    apply excerpt_length.
  - intros r Hr Hu.
    destruct (conv_for email (Chat.session_id r) (chat_history w)) as [cv|] eqn:Hcv.
    + rewrite <- Hown in Hcv. apply (own_elem_of _ _ _ Hnd) in Hcv.
      exists (conversation_of cv). split.
      * rewrite Hperm. apply list_elem_of_fmap. exists cv. split; [reflexivity |].
        apply list_elem_of_fmap. now exists (Chat.session_id r, cv).
      * destruct (Hentry _ _ Hcv) as (first & rest & _ & ->). reflexivity.
    + exfalso. unfold conv_for in Hcv.
      assert (Hin : r ∈ session_rows email (Chat.session_id r) (chat_history w)).
      { apply list_elem_of_In, List.filter_In. split; [now apply list_elem_of_In |].
        rewrite Hu. unfold in_session. now rewrite String.eqb_refl. }
      destruct (session_rows email (Chat.session_id r) (chat_history w));
        [now apply elem_of_nil in Hin | discriminate Hcv].
Qed.

(** And with such a name among the user's session ids the handler always
    throws: no entry of [sessionsMap] ever carries an inherited name, so
    the first row with one finds the inherited property. *)
Lemma group_rows_throws email rows sessionsMap :
  Forall (fun key => inherited key = false) (map fst sessionsMap) ->
  Exists (fun r => of_user email r = true /\ inherited (Chat.session_id r) = true) rows ->
  group_rows email sessionsMap rows =
  Throw "Cannot read properties of undefined (reading 'push')".
Proof.
  revert sessionsMap. induction rows as [|r rows IH]; intros m Hkeys Hex.
  - apply Exists_nil in Hex. contradiction.
  - cbn [group_rows]. unfold group_row. fold (of_user email r).
    destruct (of_user email r) eqn:Hu.
    + destruct (own (Chat.session_id r) m) as [conv|] eqn:Ho.
      * apply IH; [now rewrite keys_alter_own |].
        apply Exists_cons in Hex. destruct Hex as [[_ Hinh] | Hex]; [| exact Hex].
        exfalso. assert (Hin : Chat.session_id r ∈ map fst m).
        { destruct (decide (Chat.session_id r ∈ map fst m)) as [H|H]; [exact H |].
          apply own_None in H. congruence. }
        rewrite Forall_forall in Hkeys. specialize (Hkeys _ Hin). congruence.
      * destruct (inherited (Chat.session_id r)) eqn:Hinh; [reflexivity |].
        apply IH.
        -- rewrite map_app. apply Forall_app. split; [exact Hkeys |].
           cbn. now repeat constructor.
        -- apply Exists_cons in Hex. destruct Hex as [[_ H] | Hex]; [congruence | exact Hex].
    + apply IH; [exact Hkeys |].
      apply Exists_cons in Hex. destruct Hex as [[H _] | Hex]; [congruence | exact Hex].
Qed.

Lemma chatHistory_throws (data : Data.t) (w : World) (row : nat) (s : Session.t) :
  truthy (Data.token data) = true ->
  finds (findSessionByToken (text (Data.token data))) w row s ->
  clock w <= Session.expires_at s ->
  Exists (fun r => of_user (Session.user_email s) r = true /\
                   inherited (Chat.session_id r) = true) (chat_history w) ->
  handleGetChatHistory data w =
  (Throw "Cannot read properties of undefined (reading 'push')", w).
Proof.
  intros Ht Hs Hexp Hex. apply finds_session_by_token in Hs.
  unfold handleGetChatHistory. rewrite Ht. cbn [negb].
  rewrite (run_bind _ _ _ _ _ (findSessionByToken_run _ w)), Hs.
  erewrite run_bind by reflexivity.
  assert (Hnot : (Session.expires_at s <? clock w) = false)
    by (apply Z.ltb_ge; exact Hexp).
  rewrite Hnot. erewrite run_bind by reflexivity.
  unfold getValues. rewrite group_rows_throws; [reflexivity | constructor | exact Hex].
Qed.

(** ** The chat relay *)

Section RelayProperties.

Variable JSON_parse : string -> option json.

(** A line of kind "error" throws inside the [try] of the loop, and the
    [catch] of the loop swallows it: the line is skipped like a line that
    does not parse. *)
Lemma error_line_is_skipped fullContent line content :
  JSON_parse line = Some (json_object "error" content) ->
  read_line JSON_parse fullContent line =
    Throw (if String.eqb content "" then "Error from n8n" else content) /\
  try_line JSON_parse fullContent line = fullContent.
Proof.
  intros H. unfold try_line, read_line. rewrite H. cbn.
  destruct (String.eqb content ""); cbn; auto.
Qed.

Lemma unparsed_line_is_skipped fullContent line :
  JSON_parse line = None -> try_line JSON_parse fullContent line = fullContent.
Proof. intros H. unfold try_line, read_line. now rewrite H. Qed.

Lemma item_line_is_appended fullContent line content :
  content <> "" ->
  JSON_parse line = Some (json_object "item" content) ->
  try_line JSON_parse fullContent line = fullContent +:+ content.
Proof.
  intros Hc H. unfold try_line, read_line. rewrite H. cbn.
  apply String.eqb_neq in Hc. now rewrite Hc.
Qed.

(** Once the webhook has answered with an OK status, [sendMessage] never
    reports an error, whatever the lines of the body are. *)
Lemma sendMessage_ok_has_no_error message status body :
  trim message <> "" ->
  error (sendMessage JSON_parse message (Responded true status body)) = None.
Proof.
  intros Hm. unfold sendMessage. apply String.eqb_neq in Hm. rewrite Hm.
  cbn [negb].
  destruct (String.eqb _ "" && _); [destruct (JSON_parse _) |]; reflexivity.
Qed.

Lemma stream_with_error_lines :
  split_newline (trim stream_with_error) "" =
  [json_line "item" "Hi"; json_line "error" "boom"; json_line "item" " there"].
Proof. vm_compute. reflexivity. Qed.

(** C4 fails on the code in its first half. The body has three lines: an
    item "Hi", an error "boom" and an item " there". The error line does
    not abort the loop and its content is not surfaced: the error line is
    skipped, the item after it is still appended, and the call returns the
    output "Hi there" with no error. *)
Theorem sendMessage_swallows_error_line :
  JSON_parse (json_line "item" "Hi") = Some (json_object "item" "Hi") ->
  JSON_parse (json_line "error" "boom") = Some (json_object "error" "boom") ->
  JSON_parse (json_line "item" " there") = Some (json_object "item" " there") ->
  sendMessage JSON_parse "hola" (Responded true 200 stream_with_error) =
  mkResult (Some (Output "Hi there")) None.
Proof.
  intros H1 H2 H3. unfold sendMessage.
  change (String.eqb (trim "hola") "") with false. cbn [negb].
  rewrite stream_with_error_lines. cbn [fold_left].
  rewrite (item_line_is_appended "" _ "Hi") by (discriminate || exact H1).
  rewrite (proj2 (error_line_is_skipped _ _ "boom" H2)).
  rewrite (item_line_is_appended _ _ " there") by (discriminate || exact H3).
  reflexivity.
Qed.

End RelayProperties.

(** ** The theorems at work on the sample data *)

(** C1 on Ann's session, one millisecond after its expiry. *)
Lemma validateSession_expired_deletes_row_witness :
  exists w1,
    handleValidateSession (request_token "tok-ann") (ann_world 604800001) =
      (Return (Error "Session expired"), w1) /\
    sessions w1 = [] ++ [] /\
    users w1 = users (ann_world 604800001) /\
    chat_history w1 = chat_history (ann_world 604800001) /\
    forall t,
      handleValidateSession (request_token "tok-ann") (set_clock t w1) =
      (Return (Error "Invalid session"), set_clock t w1).
Proof.
  apply (validateSession_expired_deletes_row
           (request_token "tok-ann") (ann_world 604800001) [] [] ann_session).
  - reflexivity.
  - reflexivity.
  - discriminate.
  - constructor.
  - reflexivity.
Defined.

(** C9 on a reset attempted after the token has expired. *)
Lemma resetPassword_error_writes_nothing_witness :
  fst (handleResetPassword plain_digest (request_reset "reset-1" "pw-renewed")
         (reset_world 6000))
    = Return (Error "Reset token has expired") /\
  snd (handleResetPassword plain_digest (request_reset "reset-1" "pw-renewed")
         (reset_world 6000))
    = reset_world 6000.
Proof.
  split; [reflexivity |].
  apply (resetPassword_error_writes_nothing plain_digest
           (request_reset "reset-1" "pw-renewed") (reset_world 6000)
           (snd (handleResetPassword plain_digest (request_reset "reset-1" "pw-renewed")
                   (reset_world 6000)))
           "Reset token has expired").
  reflexivity.
Defined.

(** C5 on an unknown email, a wrong password for Ann and the unconfirmed Bea. *)
Lemma login_failures_indistinguishable_witness :
  fst (handleLogin plain_digest (request_login "z@x.com" "pw123456") (two_users_world 50)) =
  fst (handleLogin plain_digest (request_login "a@x.com" "pw654321") (two_users_world 50)) /\
  fst (handleLogin plain_digest (request_login "b@x.com" "secret99") (two_users_world 50)) <>
  fst (handleLogin plain_digest (request_login "z@x.com" "pw123456") (two_users_world 50)).
Proof.
  destruct (login_failures_indistinguishable plain_digest
              (request_login "z@x.com" "pw123456")
              (request_login "a@x.com" "pw654321")
              (request_login "b@x.com" "secret99")
              (two_users_world 50) (two_users_world 50) (two_users_world 50))
    as (_ & _ & Hsame & _ & Hdiff); try reflexivity.
  - exists 2%nat, ann. repeat split. vm_compute. discriminate.
  - exists 3%nat, bea. repeat split.
  - split; assumption.
Defined.

(** C6, amended, on Ann's session at the instant of its expiry. *)
Lemma session_expiry_boundary_witness :
  handleValidateSession (request_token "tok-ann") (ann_world 604800000) =
    (Return (ValidSession (summary ann)), ann_world 604800000)
  <-> clock (ann_world 604800000) <= Session.expires_at ann_session.
Proof.
  apply (session_expiry_boundary plain_digest
           (request_login "a@x.com" "pw123456") (ann_world 1000)
           (snd (handleLogin plain_digest (request_login "a@x.com" "pw123456")
                   (ann_world 1000)))
           "AAAAAAAAAAAAAAAAAAAAAAAAAAAAAAAAAAAAAAAAAAAAAAAAAAAAAAAAAAAAAAAA"
           604801000 (summary ann)
           (request_token "tok-ann") (ann_world 604800000) 2 ann_session 2 ann).
  - vm_compute. reflexivity.
  - reflexivity.
  - reflexivity.
  - reflexivity.
Defined.

(** C3 on a new signup next to Ann: the second use of the link is answered
    with "invalid_token". *)
Lemma confirmEmail_is_one_shot_witness :
  exists w2 u2,
    handleConfirmEmail "AAAAAAAAAAAAAAAAAAAAAAAAAAAAAAAA"
      (snd (handleSignup plain_digest (request_signup "c@x.com" "pw123456" "cy")
              (ann_world 10)))
    = (Return confirm_success, w2) /\
    users w2 = [ann] ++ [u2] /\
    User.email u2 = "c@x.com" /\ User.verified u2 = true /\
    User.verify_token u2 = "" /\
    forall t,
      handleConfirmEmail "AAAAAAAAAAAAAAAAAAAAAAAAAAAAAAAA" (set_clock t w2) =
      (Return confirm_invalid_token, set_clock t w2).
Proof.
  apply (confirmEmail_is_one_shot plain_digest
           (request_signup "c@x.com" "pw123456" "cy") (ann_world 10)
           (snd (handleSignup plain_digest (request_signup "c@x.com" "pw123456" "cy")
                   (ann_world 10)))
           "Registration successful. Please check your email to verify your account."
           (User.mk "c@x.com" "cy"
              (hashPassword plain_digest "pw123456" "AAAAAAAAAAAAAAAAAAAAAAAAAAAAAAAA")
              "AAAAAAAAAAAAAAAAAAAAAAAAAAAAAAAA" 10 false
              "AAAAAAAAAAAAAAAAAAAAAAAAAAAAAAAA" "" None 10)).
  - vm_compute. reflexivity.
  - vm_compute. reflexivity.
  - repeat constructor. discriminate.
Defined.

(** C2, amended, on Ann's pending reset. *)
Lemma resetPassword_then_login_witness :
  (forall t, exists tok exp us w2,
     handleLogin plain_digest (request_login "a@x.com" "pw-renewed")
       (set_clock t (snd (handleResetPassword plain_digest
                            (request_reset "reset-1" "pw-renewed") (reset_world 1000))))
     = (Return (LoginSuccess tok exp us), w2)) /\
  (forall t p, p <> "" -> p <> "pw-renewed" ->
     handleLogin plain_digest (request_login "a@x.com" p)
       (set_clock t (snd (handleResetPassword plain_digest
                            (request_reset "reset-1" "pw-renewed") (reset_world 1000))))
     = (Return (Error "Invalid login credentials"),
        set_clock t (snd (handleResetPassword plain_digest
                            (request_reset "reset-1" "pw-renewed") (reset_world 1000))))).
Proof.
  apply (resetPassword_then_login plain_digest
           (request_reset "reset-1" "pw-renewed") (reset_world 1000)
           (snd (handleResetPassword plain_digest
                   (request_reset "reset-1" "pw-renewed") (reset_world 1000)))
           "Password updated successfully" 2 ann_resetting).
  - exact plain_digest_inj.
  - vm_compute. reflexivity.
  - reflexivity.
  - reflexivity.
  - reflexivity.
  - discriminate.
Defined.

(** C10 on Ann's chat of 2024-03-10, read on 2024-03-12 at 23:30 UTC by a
    script in New York. Her three rows are in the entries [i = 3] and
    [i = 2], whose instants both fall on 2024-03-10 in UTC. *)
Lemma chatStats_counts_witness :
  exists st,
    Script.handleGetChatStats New_York titles (request_token "tok-march")
      (march_world 1710286200000) =
      (Return (ChatStats st), march_world 1710286200000) /\
    stats_totalMessages st = 2%nat /\
    stats_humanMessages st = 1%nat /\
    stats_aiMessages st = 1%nat /\
    stats_totalSessions st = 2%nat /\
    map count (stats_messagesByDay st) = [0; 0; 0; 3; 3; 0; 0]%nat.
Proof.
  destruct (chatStats_counts New_York titles (request_token "tok-march")
              (march_world 1710286200000) 2 march_session)
    as (st & Hrun & Htot & Hh & Ha & _ & Hs & Hd).
  - reflexivity.
  - reflexivity.
  - vm_compute. discriminate.
  - exists st. rewrite Htot, Hh, Ha, Hs, Hd. split; [exact Hrun |].
    vm_compute. repeat split.
Defined.

(** C7 on the address "bad", which a signup has stored and the mail
    service refuses. *)
Lemma requestReset_reveals_row_when_mail_is_refused_witness :
  let signed_up :=
    snd (Script.doPost plain_digest address_check UTC titles "signup"
           (request_signup "bad" "pw123456" "bad") (empty_world 0)) in
  map User.email (users signed_up) = ["bad"] /\
  fst (Script.doPost plain_digest address_check UTC titles "requestReset"
         (request_email "bad") signed_up) = Error "Invalid email: bad" /\
  fst (Script.doPost plain_digest address_check UTC titles "requestReset"
         (request_email "bad") (empty_world 0)) =
    Success "If an account exists with this email, a password reset link has been sent.".
Proof.
  split; [vm_compute; reflexivity |].
  apply (requestReset_reveals_row_when_mail_is_refused plain_digest address_check UTC titles
           (request_email "bad") _ (empty_world 0) 2
           (User.mk "bad" "bad"
              (hashPassword plain_digest "pw123456" "AAAAAAAAAAAAAAAAAAAAAAAAAAAAAAAA")
              "AAAAAAAAAAAAAAAAAAAAAAAAAAAAAAAA" 0 false
              "AAAAAAAAAAAAAAAAAAAAAAAAAAAAAAAA" "" None 0)
           "Invalid email: bad").
  - reflexivity.
  - vm_compute. reflexivity.
  - reflexivity.
  - intros token. reflexivity.
Defined.

(** C4 on the three-line body, with the sample parser. *)
Lemma sendMessage_swallows_error_line_witness :
  sendMessage sample_parse "hola" (Responded true 200 stream_with_error) =
  mkResult (Some (Output "Hi there")) None.
Proof.
  apply (sendMessage_swallows_error_line sample_parse); reflexivity.
Defined.

(** * Further properties of the backend *)

#[local] Hint Resolve returns_ret returns_gets returns_modify returns_Math_random
  returns_random_below returns_generateToken returns_findUserByEmail
  returns_updateUserField returns_deliver : returns.

(** ** Parts of the world a computation leaves alone *)

Lemma keeps_ret {A B} (part : World -> B) (a : A) : keeps part (ret a).
Proof. intros w out w' H. now inversion H. Qed.

Lemma keeps_throw {A B} (part : World -> B) e : keeps part (@throw A e).
Proof. intros w out w' H. now inversion H. Qed.

Lemma keeps_gets {A B} (part : World -> B) (f : World -> A) : keeps part (gets f).
Proof. intros w out w' H. now inversion H. Qed.

Lemma keeps_bind {A B C} (part : World -> C) (m : M A) (k : A -> M B) :
  keeps part m -> (forall a, keeps part (k a)) -> keeps part (bind m k).
Proof.
  intros Hm Hk w out w' H. unfold bind in H.
  destruct (m w) as [[a|e] w1] eqn:E.
  - rewrite (Hk a _ _ _ H). exact (Hm _ _ _ E).
  - inversion H; subst. exact (Hm _ _ _ E).
Qed.

Lemma keeps_modify {B} (part : World -> B) f :
  (forall w, part (f w) = part w) -> keeps part (modify f).
Proof. intros Hf w out w' H. inversion H; subst. apply Hf. Qed.

Lemma keeps_Math_random {B} (part : World -> B) :
  (forall w, part (mkWorld (users w) (sessions w) (chat_history w) (clock w)
                           (entropy w) (S (cursor w)) (outbox w)) = part w) ->
  keeps part Math_random.
Proof. intros Hp w out w' H. inversion H; subst. apply Hp. Qed.

Lemma keeps_generateToken {B} (part : World -> B) n :
  (forall w, part (mkWorld (users w) (sessions w) (chat_history w) (clock w)
                           (entropy w) (S (cursor w)) (outbox w)) = part w) ->
  keeps part (generateToken n).
Proof.
  intros Hp. unfold generateToken. generalize "". induction n as [|n IH]; intros acc.
  - apply keeps_ret.
  - cbn [generateToken_loop]. apply keeps_bind; [| intros k; apply IH].
    apply keeps_bind; [now apply keeps_Math_random | intros r; apply keeps_ret].
Qed.

Lemma setCell_emails row f (l : list User.t) :
  colMap f <> 1%nat -> map User.email (setCell row f l) = map User.email l.
Proof.
  intros Hf. unfold setCell. generalize (row - 2)%nat as k. revert Hf.
  induction l as [|u l IH]; intros Hf [|k]; cbn; try reflexivity.
  - now rewrite setValue_email.
  - f_equal. now apply IH.
Qed.

Lemma keeps_updateUserField_emails e f :
  colMap f <> 1%nat -> keeps emails (updateUserField e f).
Proof.
  intros Hf w out w' H. rewrite updateUserField_run in H. inversion H; subst.
  destruct (scan _ 1 (users w)) as [[row u]|]; [| reflexivity].
  unfold emails. cbn [set_users users]. now apply setCell_emails.
Qed.

(** One step of a frame proof, and the whole of it. *)
Ltac keeps_step :=
  lazymatch goal with
  | |- keeps _ (generateToken _) => apply keeps_generateToken; intros; reflexivity
  | |- keeps emails (updateUserField _ _) =>
      apply keeps_updateUserField_emails; discriminate
  | |- keeps _ (ret _) => apply keeps_ret
  | |- keeps _ (throw _) => apply keeps_throw
  | |- keeps _ (gets _) => apply keeps_gets
  | |- keeps _ Math_random => apply keeps_Math_random; intros; reflexivity
  | |- keeps _ (modify _) => apply keeps_modify; intros; reflexivity
  | |- keeps _ (bind _ _) => apply keeps_bind; [| intros ?]
  | |- keeps _ (match ?x with _ => _ end) => destruct x
  | |- keeps _ _ =>
      progress unfold updateUserField, deleteSession, findUserByEmail,
        findUserByVerifyToken, findUserByResetToken, findSessionByToken,
        Script.sendVerificationEmail, Script.sendResetEmail, Script.sendEmail,
        no_refusal, deliver, newDate
  end.

Ltac keeps_all := cbv zeta; repeat keeps_step.

(** ** The users sheet: rows are never removed, emails never rewritten *)

Lemma handlers_keep_emails dg action data :
  String.eqb action "signup" = false ->
  keeps emails (dispatch dg action data).
Proof.
  intros Hs. unfold dispatch, Script.dispatch. rewrite Hs.
  repeat match goal with
         | |- keeps _ (if ?c then _ else _) => destruct c
         end.
  - unfold handleLogin. keeps_all.
  - unfold handleValidateSession. keeps_all.
  - unfold handleLogout. keeps_all.
  - unfold Script.handleRequestReset. keeps_all.
  - unfold handleResetPassword. keeps_all.
  - unfold handleUpdatePassword. keeps_all.
  - unfold handleUpdateProfile. keeps_all.
  - unfold handleGetUser. keeps_all.
  - unfold handleSaveChatMessage. keeps_all.
  - unfold handleGetChatHistory. keeps_all.
  - unfold handleGetChatStats, Script.handleGetChatStats. keeps_all.
  - keeps_all.
Qed.

Lemma not_found_not_elem e (l : list User.t) :
  scan (fun r => String.eqb (User.email r) e) 1 l = None -> e ∉ map User.email l.
Proof.
  intros H. apply scan_None in H. intros Hin.
  apply list_elem_of_fmap in Hin. destruct Hin as (u & -> & Hu).
  rewrite Forall_forall in H. specialize (H _ Hu).
  now rewrite String.eqb_refl in H.
Qed.

Lemma signup_emails dg data w out w' :
  handleSignup dg data w = (out, w') ->
  emails w' = emails w \/
  exists e, (e ∉ emails w) /\ emails w' = emails w ++ [e].
Proof.
  intros H. unfold handleSignup, Script.handleSignup in H.
  destruct (negb (truthy (Data.email data)) || negb (truthy (Data.password data)));
    [inversion H; subst; now left |].
  rewrite (run_bind _ _ _ _ _ (findUserByEmail_run _ w)) in H.
  destruct (scan _ 1 (users w)) as [[row user]|] eqn:Hscan;
    [inversion H; subst; now left |].
  apply not_found_not_elem in Hscan.
  peel H. apply (generateToken_frame dg) in Hrun.
  peel H. apply (generateToken_frame dg) in Hrun0.
  erewrite run_bind in H by reflexivity.
  erewrite run_bind in H by reflexivity.
  erewrite run_bind in H by reflexivity.
  inversion H; subst; clear H. right.
  exists (text (Data.email data)). split; [exact Hscan |].
  destruct Hrun as (Hu & _), Hrun0 as (Hu0 & _).
  unfold emails. cbn. rewrite Hu0, Hu. unfold appendRow. now rewrite map_app.
Qed.

Lemma dispatch_emails dg action data w out w' :
  dispatch dg action data w = (out, w') ->
  emails w' = emails w \/
  exists e, (e ∉ emails w) /\ emails w' = emails w ++ [e].
Proof.
  intros H. destruct (String.eqb action "signup") eqn:Hs.
  - unfold dispatch, Script.dispatch in H. rewrite Hs in H. eapply signup_emails, H.
  - left. eapply handlers_keep_emails; eassumption.
Qed.

(** X1. Whatever the request, the emails of the users sheet afterwards are the
    emails before, in the same rows, or those followed by one email that
    was not there: no row is removed, no email is rewritten, and no email
    is registered twice. A users sheet that has each email once therefore
    keeps that through every request. *)
Theorem doPost_keeps_emails dg (action : string) (data : Data.t) (w : World) :
  (emails (snd (doPost dg action data w)) = emails w \/
   exists e, (e ∉ emails w) /\ emails (snd (doPost dg action data w)) = emails w ++ [e]) /\
  (NoDup (emails w) -> NoDup (emails (snd (doPost dg action data w)))).
Proof.
  unfold doPost, Script.doPost; fold (dispatch dg).
  destruct (dispatch dg action data w) as [out w'] eqn:H.
  apply dispatch_emails in H.
  assert (Hw : emails (snd (match out with
                            | Return result => (result, w')
                            | Throw message => (Error message, w')
                            end)) = emails w') by now destruct out.
  rewrite Hw. split; [exact H |].
  intros Hnd. destruct H as [-> | (e & He & ->)]; [exact Hnd |].
  apply NoDup_app. split; [exact Hnd |]. split; [| apply NoDup_singleton].
  intros x Hx Hx'. apply list_elem_of_singleton in Hx'. now subst.
Qed.

(** ** Requests that come to nothing write nothing *)

Lemma newDate_run w : newDate w = (Return (clock w), w).
Proof. reflexivity. Qed.

Lemma modify_run f w : modify f w = (Return tt, f w).
Proof. reflexivity. Qed.

Lemma gets_run {A} (f : World -> A) w : gets f w = (Return (f w), w).
Proof. reflexivity. Qed.

Lemma ret_run {A} (a : A) w : ret a w = (Return a, w).
Proof. reflexivity. Qed.

Lemma throw_run {A} e w : @throw A e w = (Throw e, w).
Proof. reflexivity. Qed.

Lemma deliver_run m w :
  deliver m w =
  (Return tt, mkWorld (users w) (sessions w) (chat_history w) (clock w)
                      (entropy w) (cursor w) (outbox w ++ [m])).
Proof. reflexivity. Qed.

Lemma bind_assoc {A B C} (m : M A) (k : A -> M B) (h : B -> M C) w :
  bind (bind m k) h w = bind m (fun a => bind (k a) h) w.
Proof. unfold bind. destruct (m w) as [[a|e] w1]; reflexivity. Qed.

(** Runs a handler symbolically in a hypothesis about its result. *)
Ltac exec_step H :=
  lazymatch type of H with
  | bind (findUserByEmail _) _ _ = _ =>
      rewrite (run_bind _ _ _ _ _ (findUserByEmail_run _ _)) in H
  | bind (findUserByVerifyToken _) _ _ = _ =>
      rewrite (run_bind _ _ _ _ _ (findUserByVerifyToken_run _ _)) in H
  | bind (findUserByResetToken _) _ _ = _ =>
      rewrite (run_bind _ _ _ _ _ (findUserByResetToken_run _ _)) in H
  | bind (findSessionByToken _) _ _ = _ =>
      rewrite (run_bind _ _ _ _ _ (findSessionByToken_run _ _)) in H
  | bind newDate _ _ = _ => rewrite (run_bind _ _ _ _ _ (newDate_run _)) in H
  | bind (modify _) _ _ = _ => rewrite (run_bind _ _ _ _ _ (modify_run _ _)) in H
  | bind (gets _) _ _ = _ => rewrite (run_bind _ _ _ _ _ (gets_run _ _)) in H
  | bind (ret _) _ _ = _ => rewrite (run_bind _ _ _ _ _ (ret_run _ _)) in H
  | bind (updateUserField _ _) _ _ = _ =>
      rewrite (run_bind _ _ _ _ _ (updateUserField_run _ _ _)) in H
  | bind (deleteSession _) _ _ = _ =>
      rewrite (run_bind _ _ _ _ _ (deleteSession_run _ _)) in H
  | bind (Script.sendVerificationEmail _ _ _) _ _ = _ =>
      unfold Script.sendVerificationEmail, Script.sendEmail, no_refusal in H;
      rewrite (run_bind _ _ _ _ _ (deliver_run _ _)) in H
  | bind (Script.sendResetEmail _ _ _) _ _ = _ =>
      unfold Script.sendResetEmail, Script.sendEmail, no_refusal in H;
      rewrite (run_bind _ _ _ _ _ (deliver_run _ _)) in H
  | bind (bind _ _) _ _ = _ => rewrite bind_assoc in H
  | bind (if ?c then _ else _) _ _ = _ => destruct c eqn:?
  | bind (match ?x with _ => _ end) _ _ = _ => destruct x eqn:?
  | bind (generateToken _) _ _ = _ =>
      let a := fresh "a" in
      let w1 := fresh "w" in
      let H1 := fresh "Hrun" in
      apply bind_result in H;
      [destruct H as (a & w1 & H1 & H) | apply returns_generateToken]
  | ret _ _ = _ => rewrite ret_run in H
  | throw _ _ = _ => rewrite throw_run in H
  | (if ?c then _ else _) _ = _ => destruct c eqn:?
  | (match ?x with _ => _ end) _ = _ => destruct x eqn:?
  end.

Ltac exec H := cbv zeta in H; repeat exec_step H.

(** Splits a conjunction of facts that are at hand. *)
Ltac conjs := repeat apply conj; try first [assumption | reflexivity].

Ltac finish H :=
  inversion H; subst;
  first [reflexivity
        | match goal with Hf : failed _ = true |- _ => cbn in Hf; discriminate Hf end].

Lemma scan_email_None_iff e (l : list User.t) :
  scan (fun r => String.eqb (User.email r) e) 1 l = None <-> e ∉ map User.email l.
Proof.
  split; [apply not_found_not_elem |].
  intros H. apply scan_None. apply Forall_forall. intros u Hu.
  apply String.eqb_neq. intros <-. apply H. apply list_elem_of_fmap. eauto.
Qed.

(** A field write for an email that no row carries does nothing, and a
    field write never makes an email appear or disappear. *)
Lemma updateUserField_missing e f w :
  scan (fun r => String.eqb (User.email r) e) 1 (users w) = None ->
  updateUserField e f w = (Return tt, w).
Proof. intros H. now rewrite updateUserField_run, H. Qed.

Lemma updateUserField_still_missing e f w w1 :
  colMap f <> 1%nat ->
  updateUserField e f w = (Return tt, w1) ->
  scan (fun r => String.eqb (User.email r) e) 1 (users w1) = None ->
  scan (fun r => String.eqb (User.email r) e) 1 (users w) = None.
Proof.
  intros Hf Hrun Hnone. apply scan_email_None_iff. apply scan_email_None_iff in Hnone.
  apply (keeps_updateUserField_emails e f Hf) in Hrun.
  unfold emails in Hrun. now rewrite <- Hrun.
Qed.

Lemma updateProfile_quiet data w out w' :
  handleUpdateProfile data w = (out, w') -> failed out = true -> w' = w.
Proof.
  intros H Hf. unfold handleUpdateProfile in H. cbv zeta in H.
  destruct (negb (truthy (Data.token data))); [finish H |].
  rewrite (run_bind _ _ _ _ _ (findSessionByToken_run _ _)) in H.
  rewrite (run_bind _ _ _ _ _ (newDate_run _)) in H.
  destruct (scan _ 1 (sessions w)) as [[row s]|]; [| finish H].
  destruct (Session.expires_at s <? clock w); [finish H |].
  apply bind_result in H.
  2:{ destruct (Data.username data); auto with returns. }
  destruct H as ([] & w1 & Hrun1 & H).
  apply bind_result in H; [| auto with returns].
  destruct H as ([] & w2 & Hrun2 & H).
  rewrite (run_bind _ _ _ _ _ (findUserByEmail_run _ _)) in H.
  destruct (scan _ 1 (users w2)) as [[rowu u]|] eqn:Hscan.
  - inversion H; subst. discriminate Hf.
  - inversion H; subst. clear H Hf.
    apply (updateUserField_still_missing (Session.user_email s) (F_updated_at (clock w)) w1 w')
      in Hscan; [| discriminate | exact Hrun2].
    assert (Hscan1 : scan (fun r => String.eqb (User.email r) (Session.user_email s)) 1
                          (users w) = None).
    { destruct (Data.username data) as [name|].
      - eapply updateUserField_still_missing; [| exact Hrun1 | exact Hscan]. discriminate.
      - inversion Hrun1; subst. exact Hscan. }
    assert (w1 = w).
    { destruct (Data.username data) as [name|].
      - rewrite updateUserField_missing in Hrun1 by exact Hscan1. now inversion Hrun1.
      - now inversion Hrun1. }
    subst w1. rewrite updateUserField_missing in Hrun2 by exact Hscan1.
    now inversion Hrun2.
Qed.

Lemma dispatch_quiet dg action data w out w' :
  dispatch dg action data w = (out, w') -> failed out = true -> w' = w.
Proof.
  intros H Hf. unfold dispatch, Script.dispatch in H.
  repeat match type of H with
         | (if ?c then _ else _) _ = _ => destruct c
         end.
  - unfold handleSignup, Script.handleSignup in H. exec H; finish H.
  - unfold handleLogin in H. exec H; finish H.
  - unfold handleValidateSession in H. exec H; finish H.
  - unfold handleLogout in H. exec H; finish H.
  - unfold Script.handleRequestReset in H. exec H; finish H.
  - unfold handleResetPassword in H. exec H; finish H.
  - unfold handleUpdatePassword in H. exec H; finish H.
  - eapply updateProfile_quiet; eassumption.
  - unfold handleGetUser in H. exec H; finish H.
  - unfold handleSaveChatMessage in H. exec H; finish H.
  - unfold handleGetChatHistory in H. exec H; finish H.
  - unfold handleGetChatStats, Script.handleGetChatStats in H. exec H; finish H.
  - finish H.
Qed.

(** X2. A request answered with an error has changed nothing: the world
    after it is the world before it. The one exception is the "Session
    expired" of [validateSession], which deletes the session row. (An
    exception thrown by a handler reaches the caller as an error answer
    too, and is covered; the outbox accepts every mail, so that no
    request fails for its mail.) *)
Theorem doPost_error_writes_nothing dg (action : string) (data : Data.t)
    (w : World) (e : string) :
  fst (doPost dg action data w) = Error e ->
  e <> "Session expired" ->
  snd (doPost dg action data w) = w.
Proof.
  unfold doPost, Script.doPost; fold (dispatch dg).
  destruct (dispatch dg action data w) as [[r|msg] w'] eqn:H;
    cbn [fst snd]; intros He Hne.
  - subst r. apply (dispatch_quiet _ _ _ _ _ _ H). cbn.
    apply String.eqb_neq in Hne. now rewrite Hne.
  - apply (dispatch_quiet _ _ _ _ _ _ H). reflexivity.
Qed.

(** On Ann's world: a login with a wrong password. *)
Lemma doPost_error_writes_nothing_witness :
  fst (doPost plain_digest "login" (request_login "a@x.com" "pw654321") (busy_world 1000))
    = Error "Invalid login credentials" /\
  snd (doPost plain_digest "login" (request_login "a@x.com" "pw654321") (busy_world 1000))
    = busy_world 1000.
Proof.
  split; [reflexivity |].
  apply (doPost_error_writes_nothing plain_digest "login"
           (request_login "a@x.com" "pw654321") (busy_world 1000)
           "Invalid login credentials").
  - reflexivity.
  - discriminate.
Defined.

(** ** Which sheets a request can touch *)

Ltac not_that_action Hw :=
  exfalso; cbn in Hw;
  repeat match goal with
         | E : String.eqb _ _ = _ |- _ => rewrite E in Hw; clear E
         end;
  cbn in Hw; discriminate Hw.

Ltac unfold_handlers :=
  unfold handleSignup, Script.handleSignup, handleLogin, handleValidateSession,
    handleLogout, Script.handleRequestReset, handleResetPassword, handleUpdatePassword,
    handleUpdateProfile, handleGetUser, handleSaveChatMessage,
    handleGetChatHistory, handleGetChatStats, Script.handleGetChatStats.

Lemma dispatch_keeps_users dg action data :
  existsb (String.eqb action) writes_users = false ->
  keeps users (dispatch dg action data).
Proof.
  intros Hw. unfold dispatch, Script.dispatch.
  repeat match goal with
         | |- keeps _ (if ?c then _ else _) => destruct c eqn:?
         end;
    try solve [not_that_action Hw]; unfold_handlers; keeps_all.
Qed.

Lemma dispatch_keeps_sessions dg action data :
  existsb (String.eqb action) writes_sessions = false ->
  keeps sessions (dispatch dg action data).
Proof.
  intros Hw. unfold dispatch, Script.dispatch.
  repeat match goal with
         | |- keeps _ (if ?c then _ else _) => destruct c eqn:?
         end;
    try solve [not_that_action Hw]; unfold_handlers; keeps_all.
Qed.

Lemma dispatch_keeps_outbox dg action data :
  existsb (String.eqb action) sends_mail = false ->
  keeps outbox (dispatch dg action data).
Proof.
  intros Hw. unfold dispatch, Script.dispatch.
  repeat match goal with
         | |- keeps _ (if ?c then _ else _) => destruct c eqn:?
         end;
    try solve [not_that_action Hw]; unfold_handlers; keeps_all.
Qed.

Lemma dispatch_keeps_chat_history dg action data :
  String.eqb action "saveChatMessage" = false ->
  keeps chat_history (dispatch dg action data).
Proof.
  intros Hw. unfold dispatch, Script.dispatch.
  repeat match goal with
         | |- keeps _ (if ?c then _ else _) => destruct c eqn:?
         end;
    try solve [congruence]; unfold_handlers; keeps_all.
Qed.

Lemma doPost_world dg action data w :
  snd (doPost dg action data w) = snd (dispatch dg action data w).
Proof.
  unfold doPost, Script.doPost; fold (dispatch dg).
  now destruct (dispatch dg action data w) as [[r|e] w'].
Qed.

Lemma existsb_action action (l : list string) :
  existsb (String.eqb action) l = true -> action ∈ l.
Proof. apply existsb_eqb. Qed.

(** X3. The write footprint of a request. The users sheet changes only under
    signup, requestReset, resetPassword, updatePassword and updateProfile;
    the sessions sheet only under login, validateSession and logout; the
    chat_history sheet only under saveChatMessage; and mail is sent only
    under signup and requestReset. In particular getUser, getChatHistory
    and getChatStats write nothing (an expired session is not deleted by
    them), and a password change ends no session and is not announced by
    mail. *)
Theorem doPost_footprint dg (action : string) (data : Data.t) (w : World) :
  (action ∈ writes_users \/ users (snd (doPost dg action data w)) = users w) /\
  (action ∈ writes_sessions \/ sessions (snd (doPost dg action data w)) = sessions w) /\
  (action = "saveChatMessage" \/
   chat_history (snd (doPost dg action data w)) = chat_history w) /\
  (action ∈ sends_mail \/ outbox (snd (doPost dg action data w)) = outbox w).
Proof.
  rewrite doPost_world. destruct (dispatch dg action data w) as [out w'] eqn:H.
  cbn [snd]. split; [| split; [| split]]; cycle 3.
  - destruct (existsb (String.eqb action) sends_mail) eqn:E.
    + left. now apply existsb_action.
    + right. eapply dispatch_keeps_outbox; eassumption.
  - destruct (existsb (String.eqb action) writes_users) eqn:E.
    + left. now apply existsb_action.
    + right. eapply dispatch_keeps_users; eassumption.
  - destruct (existsb (String.eqb action) writes_sessions) eqn:E.
    + left. now apply existsb_action.
    + right. eapply dispatch_keeps_sessions; eassumption.
  - destruct (String.eqb_spec action "saveChatMessage") as [E|E]; [now left |].
    right. apply String.eqb_neq in E. eapply dispatch_keeps_chat_history; eassumption.
Qed.

(** ** Signup, confirmation and login *)

Lemma truthy_text v : truthy v = true -> v = Some (text v) /\ text v <> "".
Proof.
  destruct v as [s|]; [| discriminate]. cbn. intros H. split; [reflexivity |].
  intros ->. discriminate H.
Qed.

(** What a successful signup has done: one row appended, one mail sent. *)
Lemma signup_success_row dg data w m w1 :
  handleSignup dg data w = (Return (Success m), w1) ->
  exists salt verifyToken,
    users w1 =
      users w ++ [User.mk (text (Data.email data)) (text (Data.username data))
                    (hashPassword dg (text (Data.password data)) salt) salt
                    (clock w) false verifyToken "" None (clock w)] /\
    outbox w1 =
      outbox w ++ [mkMail (text (Data.email data)) "Confirma tu cuenta - Family6 SaaS"
                     verifyToken] /\
    String.length salt = 32%nat /\ String.length verifyToken = 32%nat /\
    sessions w1 = sessions w /\ chat_history w1 = chat_history w /\
    clock w1 = clock w /\
    truthy (Data.email data) = true /\ truthy (Data.password data) = true /\
    scan (fun r => String.eqb (User.email r) (text (Data.email data))) 1 (users w) = None.
Proof.
  intros H. unfold handleSignup, Script.handleSignup in H.
  destruct (truthy (Data.email data)) eqn:He; [| discriminate H].
  destruct (truthy (Data.password data)) eqn:Hp; [| discriminate H].
  cbn [negb orb] in H.
  rewrite (run_bind _ _ _ _ _ (findUserByEmail_run _ w)) in H.
  destruct (scan _ 1 (users w)) as [[row user]|] eqn:Hscan; [discriminate H |].
  peel H. apply (generateToken_frame dg) in Hrun.
  peel H. apply (generateToken_frame dg) in Hrun0.
  do 3 (erewrite run_bind in H by reflexivity).
  inversion H; subst; clear H.
  destruct Hrun as (Hu & Hs & Hch & Hc & Ho & _ & Hlen),
           Hrun0 as (Hu0 & Hs0 & Hch0 & Hc0 & Ho0 & _ & Hlen0).
  exists a, a0. cbn. unfold appendRow, or_else.
  rewrite Hu0, Hu, Hs0, Hs, Hch0, Hch, Hc0, Hc, Ho0, Ho.
  replace (if String.eqb (text (Data.username data)) "" then "" else text (Data.username data))
    with (text (Data.username data))
    by (destruct (String.eqb_spec (text (Data.username data)) ""); congruence).
  conjs.
Qed.

(** X4. A signup mails the verify_token it stored. Until that token is
    confirmed, a login with the credentials of the signup is turned down
    as unconfirmed; once the mailed token has been confirmed (the token not
    being that of an earlier row), the same login succeeds, whenever it is
    made. *)
Theorem signup_confirm_login dg (data : Data.t) (w w1 : World) (m : string) (mail : Mail) :
  handleSignup dg data w = (Return (Success m), w1) ->
  last (outbox w1) = Some mail ->
  Forall (fun x => User.verify_token x <> mail_token mail) (users w) ->
  mail_to mail = text (Data.email data) /\
  (forall t,
     handleLogin dg data (set_clock t w1) =
     (Return (Error "Email not confirmed. Please check your inbox."), set_clock t w1)) /\
  exists w2,
    doGet (Some "confirmEmail") (Some (mail_token mail)) w1 = (Return confirm_success, w2) /\
    forall t, exists tok exp us w3,
      handleLogin dg data (set_clock t w2) = (Return (LoginSuccess tok exp us), w3) /\
      summary_email us = mail_to mail.
Proof.
  intros Hsignup Hmail Hfresh.
  destruct (signup_success_row _ _ _ _ _ Hsignup)
    as (salt & vt & Hu & Ho & _ & Hlen & _ & _ & _ & He & Hp & Hscan).
  rewrite Ho, last_snoc in Hmail. injection Hmail as <-. cbn [mail_to mail_token] in *.
  set (u := User.mk _ _ _ _ _ _ _ _ _ _) in Hu.
  apply scan_None in Hscan.
  assert (Htok : Forall (fun x => String.eqb (User.verify_token x) vt = false) (users w)).
  { eapply Forall_impl; [exact Hfresh |]. intros x. apply String.eqb_neq. }
  split; [reflexivity |]. split.
  - intros t. apply login_unverified; [exact He | exact Hp |].
    exists (1 + List.length (users w) + 1)%nat, u. split; [| reflexivity].
    unfold finds. rewrite findUserByEmail_run. cbn [set_clock users]. rewrite Hu.
    rewrite scan_middle; [reflexivity | exact Hscan | apply String.eqb_refl].
  - pose proof (confirmEmail_first w1 (users w) u Hu Hscan Htok eq_refl) as Hc.
    eexists. split.
    + unfold doGet. rewrite String.eqb_refl.
      rewrite (truthy_Some vt) by (eapply nonempty_of_length; exact Hlen).
      exact Hc.
    + intros t.
      match type of Hc with
      | _ = (_, set_users (fun _ => _ ++ [?x]) _) => set (u3 := x) in *
      end.
      pose proof (login_found dg data
        (set_clock t (set_users (fun _ => users w ++ [u3]) w1))
        (1 + List.length (users w) + 1)%nat u3 He Hp) as H.
      cbn [set_clock set_users users] in H.
      rewrite scan_middle in H; [| exact Hscan | apply String.eqb_refl].
      specialize (H eq_refl eq_refl).
      cbn [u3 u setValue User.salt User.password_hash] in H.
      rewrite String.eqb_refl in H. destruct H as (tok & w3 & H).
      eexists _, _, _, _. split; [exact H | reflexivity].
Qed.

(** ** Sessions: login, validation, logout *)

(** What a successful login has found and done. *)
Lemma login_success_user dg data w tok exp us w1 :
  handleLogin dg data w = (Return (LoginSuccess tok exp us), w1) ->
  exists row user,
    scan (fun r => String.eqb (User.email r) (text (Data.email data))) 1 (users w)
      = Some (row, user) /\
    us = summary user /\ User.verified user = true /\
    hashPassword dg (text (Data.password data)) (User.salt user) = User.password_hash user /\
    String.length tok = 64%nat /\
    users w1 = users w /\ chat_history w1 = chat_history w /\ outbox w1 = outbox w /\
    sessions w1 =
      sessions w ++ [Session.mk tok (text (Data.email data)) (clock w) exp] /\
    exp = clock w + 7 * 24 * 60 * 60 * 1000.
Proof.
  intros H. unfold handleLogin in H.
  destruct (negb (truthy (Data.email data)) || negb (truthy (Data.password data)));
    [discriminate H |].
  rewrite (run_bind _ _ _ _ _ (findUserByEmail_run _ w)) in H.
  destruct (scan _ 1 (users w)) as [[row user]|]; [| discriminate H].
  destruct (negb (User.verified user)) eqn:Hv; [discriminate H |].
  apply negb_false_iff in Hv.
  destruct (negb _) eqn:Hh; [discriminate H |].
  apply negb_false_iff, String.eqb_eq in Hh.
  peel H. apply (generateToken_frame dg) in Hrun.
  destruct Hrun as (Hu & Hs & Hch & Hc & Ho & _ & Hlen).
  do 2 (erewrite run_bind in H by reflexivity).
  inversion H; subst; clear H. exists row, user. cbn.
  rewrite Hu, Hs, Hch, Hc, Ho. unfold appendRow. conjs.
Qed.

(** X5. The token a login returns validates, for the user that logged in,
    at every instant up to and including the [expiresAt] returned with it,
    and no longer after that (the token not being that of an older
    session). *)
Theorem login_then_validateSession dg (data : Data.t) (w w1 : World)
    (tok : string) (exp : Z) (us : UserSummary) :
  handleLogin dg data w = (Return (LoginSuccess tok exp us), w1) ->
  Forall (fun x => Session.token x <> tok) (sessions w) ->
  (forall t, t <= exp ->
     handleValidateSession (request_token tok) (set_clock t w1) =
     (Return (ValidSession us), set_clock t w1)) /\
  (forall t, exp < t ->
     handleValidateSession (request_token tok) (set_clock t w1) =
     (Return (Error "Session expired"), set_clock t (set_sessions (fun _ => sessions w) w1))).
Proof.
  intros Hlogin Hfresh.
  destruct (login_success_user _ _ _ _ _ _ _ Hlogin)
    as (row & user & Hscan & -> & _ & _ & Hlen & Hu & _ & _ & Hs & _).
  apply other_tokens in Hfresh.
  assert (Hne : tok <> "") by (eapply nonempty_of_length; exact Hlen).
  assert (Hfind : forall t,
    scan (fun r => String.eqb (Session.token r) (text (Data.token (request_token tok)))) 1
         (sessions (set_clock t w1))
    = Some ((1 + List.length (sessions w) + 1)%nat,
            Session.mk tok (text (Data.email data)) (clock w) exp)).
  { intros t. cbn [set_clock sessions request_token Data.token text]. rewrite Hs.
    apply scan_middle; [exact Hfresh | apply String.eqb_refl]. }
  split; intros t Ht.
  - rewrite (validateSession_found (request_token tok) _ _ _ (truthy_Some _ Hne) (Hfind t)).
    cbn [Session.expires_at Session.user_email set_clock clock users].
    apply Z.ltb_ge in Ht. rewrite Ht, Hu, Hscan. reflexivity.
  - rewrite (validateSession_found (request_token tok) _ _ _ (truthy_Some _ Hne) (Hfind t)).
    cbn [Session.expires_at set_clock clock].
    apply Z.ltb_lt in Ht. rewrite Ht. f_equal.
    unfold set_sessions, set_clock.
    cbn [users sessions chat_history clock entropy cursor outbox].
    rewrite Hs, deleteRow_middle, app_nil_r. reflexivity.
Qed.

Lemma handleLogout_run data w :
  handleLogout data w =
  (Return SuccessOnly,
   if truthy (Data.token data) then
     match scan (fun r => String.eqb (Session.token r) (text (Data.token data))) 1
                (sessions w) with
     | Some (row, _) => set_sessions (deleteRow row) w
     | None => w
     end
   else w).
Proof.
  unfold handleLogout. destruct (truthy (Data.token data)).
  - now rewrite (run_bind _ _ _ _ _ (deleteSession_run _ w)).
  - reflexivity.
Qed.

(** X6. Logout always answers with success. With the token of a session (the
    only row carrying it) it removes that row and no other, after which
    the token no longer validates; with a token that no session carries,
    or with none, it changes nothing. *)
Theorem logout_ends_session (data : Data.t) (w : World)
    (pre post : list Session.t) (r : Session.t) :
  sessions w = pre ++ r :: post ->
  Data.token data = Some (Session.token r) ->
  Session.token r <> "" ->
  Forall (fun x => Session.token x <> Session.token r) (pre ++ post) ->
  handleLogout data w = (Return SuccessOnly, set_sessions (fun _ => pre ++ post) w) /\
  (forall t,
     handleValidateSession data (set_clock t (set_sessions (fun _ => pre ++ post) w)) =
     (Return (Error "Invalid session"),
      set_clock t (set_sessions (fun _ => pre ++ post) w))) /\
  (forall other,
     (truthy (Data.token other) = false \/
      finds_nothing (findSessionByToken (text (Data.token other))) w) ->
     handleLogout other w = (Return SuccessOnly, w)).
Proof.
  intros Hs Ht Hne Huniq. apply other_tokens in Huniq.
  assert (Hpre : Forall (fun x => String.eqb (Session.token x) (Session.token r) = false) pre)
    by (apply Forall_app in Huniq; tauto).
  split; [| split].
  - rewrite handleLogout_run, Ht, (truthy_Some _ Hne). cbn [text]. rewrite Hs.
    rewrite scan_middle; [| exact Hpre | apply String.eqb_refl].
    unfold set_sessions. now rewrite Hs, deleteRow_middle.
  - intros t. unfold handleValidateSession. rewrite Ht, (truthy_Some _ Hne).
    cbn [negb text].
    erewrite run_bind by apply findSessionByToken_run.
    cbn [set_clock set_sessions sessions].
    apply scan_None with (i := 1%nat) in Huniq. now rewrite Huniq.
  - intros other [Hf | Hn]; rewrite handleLogout_run.
    + now rewrite Hf.
    + unfold finds_nothing in Hn. rewrite findSessionByToken_run in Hn.
      injection Hn as Hn. rewrite Hn. now destruct (truthy (Data.token other)).
Qed.

(** ** Password change and profile update with a session *)

Lemma updatePassword_success_inv dg data w m w1 row s pre u post :
  handleUpdatePassword dg data w = (Return (Success m), w1) ->
  scan (fun r => String.eqb (Session.token r) (text (Data.token data))) 1 (sessions w)
    = Some (row, s) ->
  users w = pre ++ u :: post ->
  Forall (fun x => String.eqb (User.email x) (Session.user_email s) = false) pre ->
  User.email u = Session.user_email s ->
  exists salt,
    users w1 =
      pre ++ User.mk (User.email u) (User.username u)
               (hashPassword dg (text (Data.newPassword data)) salt) salt
               (User.created_at u) (User.verified u) (User.verify_token u)
               (User.reset_token u) (User.reset_token_expires u) (clock w) :: post /\
    sessions w1 = sessions w /\
    truthy (Data.newPassword data) = true /\
    (8 <= String.length (text (Data.newPassword data)))%nat /\
    clock w <= Session.expires_at s.
Proof.
  intros H Hfind Hu Hpre He. unfold handleUpdatePassword in H.
  destruct (truthy (Data.token data)); [| discriminate H].
  destruct (truthy (Data.newPassword data)); [| discriminate H].
  cbn [negb orb] in H.
  destruct (Nat.ltb_spec (String.length (text (Data.newPassword data))) 8);
    [discriminate H |].
  rewrite (run_bind _ _ _ _ _ (findSessionByToken_run _ w)), Hfind in H.
  erewrite run_bind in H by reflexivity.
  destruct (Z.ltb_spec (Session.expires_at s) (clock w)); [discriminate H |].
  peel H. apply (generateToken_frame dg) in Hrun.
  destruct Hrun as (Hu0 & Hs0 & _ & Hc0 & _).
  rewrite <- Hu0 in Hu.
  erewrite run_bind in H
    by (eapply updateUserField_at with (pre := pre) (post := post);
        [exact Hu | exact Hpre | exact He]).
  do 2 (erewrite run_bind in H
    by (eapply updateUserField_at with (pre := pre) (post := post);
        [reflexivity | exact Hpre | exact He])).
  inversion H; subst; clear H. exists a. cbn. rewrite Hs0.
  conjs.
Qed.

(** X7. A password change with a live session, for a verified user and with a
    one-to-one digest: afterwards the new password logs in and no other
    non-empty password does; the session used, and every other session,
    is still there. *)
Theorem updatePassword_then_login dg (data : Data.t) (w w1 : World) (m : string)
    (row : nat) (s : Session.t) (rowu : nat) (u : User.t) :
  (forall a b, dg a = dg b -> a = b) ->
  handleUpdatePassword dg data w = (Return (Success m), w1) ->
  finds (findSessionByToken (text (Data.token data))) w row s ->
  finds (findUserByEmail (Session.user_email s)) w rowu u ->
  User.verified u = true ->
  Session.user_email s <> "" ->
  sessions w1 = sessions w /\
  (forall t, exists tok exp us w2,
     handleLogin dg
       (request_login (Session.user_email s) (text (Data.newPassword data))) (set_clock t w1)
     = (Return (LoginSuccess tok exp us), w2)) /\
  (forall t p, p <> "" -> p <> text (Data.newPassword data) ->
     handleLogin dg (request_login (Session.user_email s) p) (set_clock t w1)
     = (Return (Error "Invalid login credentials"), set_clock t w1)).
Proof.
  intros Hinj Hupd Hs Hu Hv Hne.
  apply finds_session_by_token in Hs. apply finds_user_by_email in Hu.
  destruct (scan_Some _ _ _ _ _ Hu) as (pre & post & Husers & _ & He & Hpre).
  apply String.eqb_eq in He.
  destruct (updatePassword_success_inv _ _ _ _ _ _ _ _ _ _ Hupd Hs Husers Hpre He)
    as (salt & Hu1 & Hs1 & Hnew & _ & _).
  destruct (truthy_text _ Hnew) as [_ Hnew'].
  set (u1 := User.mk _ _ _ _ _ _ _ _ _ _) in Hu1.
  assert (Hscan : forall t,
    scan (fun r => String.eqb (User.email r) (Session.user_email s)) 1
         (users (set_clock t w1))
    = Some ((1 + List.length pre + 1)%nat, u1)).
  { intros t. cbn [set_clock users]. rewrite Hu1.
    apply scan_middle; [exact Hpre |]. cbn. rewrite He. apply String.eqb_refl. }
  split; [exact Hs1 |]. split.
  - intros t.
    pose proof (login_found dg
      (request_login (Session.user_email s) (text (Data.newPassword data)))
      (set_clock t w1) _ u1 (truthy_Some _ Hne) (truthy_Some _ Hnew') (Hscan t) Hv) as H.
    cbn [request_login Data.password text u1 User.salt User.password_hash] in H.
    rewrite String.eqb_refl in H. destruct H as (tok & w2 & H). eauto.
  - intros t p Hp Hdiff.
    pose proof (login_found dg (request_login (Session.user_email s) p)
      (set_clock t w1) _ u1 (truthy_Some _ Hne) (truthy_Some _ Hp) (Hscan t) Hv) as H.
    cbn [request_login Data.password text u1 User.salt User.password_hash] in H.
    destruct (String.eqb_spec (hashPassword dg p salt)
                (hashPassword dg (text (Data.newPassword data)) salt)) as [Heq|_].
    + apply hashPassword_inj in Heq; [contradiction | exact Hinj].
    + exact H.
Qed.

(** X8. A profile update with a live session answers with the user's summary
    carrying the new username (the old one when none is given); of the
    user's row only [username] and [updated_at] change, no other row and
    no session does; and [getUser] with the same token then returns that
    same summary. *)
Theorem updateProfile_then_getUser (data : Data.t) (w : World)
    (row : nat) (s : Session.t) (pre post : list User.t) (u : User.t) :
  truthy (Data.token data) = true ->
  finds (findSessionByToken (text (Data.token data))) w row s ->
  clock w <= Session.expires_at s ->
  users w = pre ++ u :: post ->
  Forall (fun x => User.email x <> Session.user_email s) pre ->
  User.email u = Session.user_email s ->
  let name := match Data.username data with
              | Some name => name
              | None => User.username u
              end in
  let us := mkSummary (User.email u) name (User.email u) (User.created_at u) in
  let w1 :=
    set_users (fun _ =>
      pre ++ setValue (F_updated_at (clock w)) (setValue (F_username name) u) :: post) w in
  handleUpdateProfile data w = (Return (ProfileUpdated us), w1) /\
  handleGetUser data w1 = (Return (CurrentUser us), w1).
Proof.
  intros Ht Hs Hexp Hu Hpre He name us w1.
  apply finds_session_by_token in Hs.
  assert (Hpre' : Forall (fun x => String.eqb (User.email x) (Session.user_email s) = false) pre).
  { eapply Forall_impl; [exact Hpre |]. intros x. apply String.eqb_neq. }
  assert (Hnot : (Session.expires_at s <? clock w) = false) by (apply Z.ltb_ge; exact Hexp).
  split.
  - unfold handleUpdateProfile. rewrite Ht. cbn [negb].
    rewrite (run_bind _ _ _ _ _ (findSessionByToken_run _ w)), Hs.
    erewrite run_bind by reflexivity. rewrite Hnot.
    assert (Hfirst :
      (match Data.username data with
       | Some username => updateUserField (Session.user_email s) (F_username username)
       | None => ret tt
       end) w = (Return tt, set_users (fun _ => pre ++ setValue (F_username name) u :: post) w)).
    { subst name. destruct (Data.username data) as [n|].
      - apply updateUserField_at; assumption.
      - replace (setValue (F_username (User.username u)) u) with u by now destruct u.
        unfold ret, set_users. rewrite <- Hu. now destruct w. }
    rewrite (run_bind _ _ _ _ _ Hfirst).
    erewrite run_bind
      by (eapply updateUserField_at with (pre := pre) (post := post);
          [reflexivity | exact Hpre' | exact He]).
    erewrite run_bind by apply findUserByEmail_run.
    cbn [set_users users]. rewrite scan_middle; [reflexivity | exact Hpre' |].
    cbn. rewrite He. apply String.eqb_refl.
  - unfold handleGetUser, w1. rewrite Ht. cbn [negb].
    erewrite run_bind by apply findSessionByToken_run.
    cbn [set_users sessions]. rewrite Hs.
    erewrite run_bind by reflexivity. cbn [set_users clock]. rewrite Hnot.
    erewrite run_bind by apply findUserByEmail_run.
    cbn [set_users users]. rewrite scan_middle; [reflexivity | exact Hpre' |].
    cbn. rewrite He. apply String.eqb_refl.
Qed.

(** ** Tokens and hashes *)

Lemma made_of_append alphabet a b :
  made_of alphabet a -> made_of alphabet b -> made_of alphabet (a +:+ b).
Proof.
  unfold made_of. intros Ha Hb. induction a as [|c a IH]; [exact Hb |].
  rewrite append_cons. cbn [list_ascii_of_string] in *.
  apply Forall_cons in Ha. destruct Ha as [Hc Ha]. apply Forall_cons. auto.
Qed.

Lemma get_In k s c : String.get k s = Some c -> In c (list_ascii_of_string s).
Proof.
  revert k. induction s as [|a s IH]; intros k H; [discriminate |].
  destruct k as [|k]; cbn in H.
  - injection H as ->. now left.
  - right. eapply IH; exact H.
Qed.

Lemma made_of_charAt k s : made_of s (charAt k s).
Proof.
  unfold made_of, charAt. destruct (String.get k s) eqn:H; cbn.
  - constructor; [eapply get_In; exact H | constructor].
  - constructor.
Qed.

Lemma generateToken_loop_spec n acc w :
  made_of chars acc ->
  exists t,
    generateToken_loop n acc w =
      (Return t, mkWorld (users w) (sessions w) (chat_history w) (clock w)
                         (entropy w) (cursor w + n) (outbox w)) /\
    String.length t = (String.length acc + n)%nat /\ made_of chars t.
Proof.
  revert acc w. induction n as [|n IH]; intros acc w Hacc.
  - exists acc. cbn. rewrite !Nat.add_0_r. split; [now destruct w | auto].
  - change (generateToken_loop (S n) acc)
      with (bind (random_below (String.length chars))
                 (fun k => generateToken_loop n (acc +:+ charAt k chars))).
    destruct (returns_random_below (String.length chars) w) as (k & w1 & Hk).
    rewrite (run_bind _ _ _ _ _ Hk).
    apply random_below_run in Hk; [| discriminate]. destruct Hk as (Hlt & _ & ->).
    destruct (IH (acc +:+ charAt k chars)
                 (mkWorld (users w) (sessions w) (chat_history w) (clock w)
                          (entropy w) (S (cursor w)) (outbox w)))
      as (t & Hrun & Hlen & Hmade).
    { apply made_of_append; [exact Hacc | apply made_of_charAt]. }
    exists t. rewrite Hrun. cbn [users sessions chat_history clock entropy cursor outbox].
    rewrite length_append, charAt_length in Hlen by exact Hlt.
    split; [do 2 f_equal; lia | split; [lia | exact Hmade]].
Qed.

Lemma generateToken_run n w :
  exists token,
    generateToken n w =
      (Return token, mkWorld (users w) (sessions w) (chat_history w) (clock w)
                             (entropy w) (cursor w + n) (outbox w)) /\
    String.length token = n /\ made_of chars token.
Proof. unfold generateToken. apply generateToken_loop_spec. constructor. Qed.

(** X9. [generateToken(length)] always returns, with a token of exactly that
    many characters, all of them letters or digits of [chars]; it takes
    one draw of [Math.random] per character and touches nothing else. *)
Theorem generateToken_spec (length : nat) (w : World) :
  exists token,
    generateToken length w =
      (Return token, mkWorld (users w) (sessions w) (chat_history w) (clock w)
                             (entropy w) (cursor w + length) (outbox w)) /\
    String.length token = length /\ made_of chars token.
Proof.
  destruct (generateToken_run length w) as (token & Hrun & Hlen & Hmade).
  exists token. split; [exact Hrun |]. split; [exact Hlen | exact Hmade].
Qed.

Lemma made_of_check alphabet s :
  forallb (fun c => existsb (Ascii.eqb c) (list_ascii_of_string alphabet))
          (list_ascii_of_string s) = true ->
  made_of alphabet s.
Proof.
  unfold made_of. intros H. apply Forall_forall. intros c Hc.
  apply list_elem_of_In in Hc.
  rewrite forallb_forall in H. apply H in Hc.
  apply existsb_exists in Hc. destruct Hc as (x & Hx & Heq).
  apply Ascii.eqb_eq in Heq. now subst.
Qed.

Lemma hex_of_byte_made_of b : made_of "0123456789abcdef" (hex_of_byte b).
Proof. apply made_of_check. destruct b; vm_compute; reflexivity. Qed.

Lemma hex_of_bytes_shape l :
  String.length (hex_of_bytes l) = (2 * List.length l)%nat /\
  made_of "0123456789abcdef" (hex_of_bytes l).
Proof.
  induction l as [|b l [IHlen IHm]]; cbn [hex_of_bytes List.length].
  - split; [reflexivity | constructor].
  - rewrite length_append, hex_of_byte_length, IHlen. split; [lia |].
    apply made_of_append; [apply hex_of_byte_made_of | exact IHm].
Qed.

(** X10. [hashPassword] writes each byte of the digest as two lower-case
    hexadecimal digits: the hash is twice as long as the digest (64
    characters for the 32 bytes of SHA-256), and two hashes are equal
    exactly when the two digests are. *)
Theorem hashPassword_hex dg (password salt password' salt' : string) :
  String.length (hashPassword dg password salt)
    = (2 * List.length (dg (password +:+ salt)))%nat /\
  made_of "0123456789abcdef" (hashPassword dg password salt) /\
  (hashPassword dg password salt = hashPassword dg password' salt'
   <-> dg (password +:+ salt) = dg (password' +:+ salt')).
Proof.
  unfold hashPassword. rewrite !hash_loop.
  change ("" +:+ ?x) with x.
  destruct (hex_of_bytes_shape (dg (password +:+ salt))) as [Hlen Hm].
  split; [exact Hlen |]. split; [exact Hm |].
  split; [apply hex_of_bytes_inj | intros ->; reflexivity].
Qed.

(** ** The answer of getChatHistory *)

Lemma chatHistory_inv data w conversations msgs w' :
  handleGetChatHistory data w = (Return (ChatHistory conversations msgs), w') ->
  w' = w /\
  exists row s sessionsMap,
    truthy (Data.token data) = true /\
    finds (findSessionByToken (text (Data.token data))) w row s /\
    clock w <= Session.expires_at s /\
    group_rows (Session.user_email s) [] (chat_history w) = Return sessionsMap /\
    conversations = sort_conversations (map conversation_of (Object_values sessionsMap)) /\
    msgs = List.filter (of_user (Session.user_email s)) (chat_history w).
Proof.
  intros H. unfold handleGetChatHistory in H.
  destruct (truthy (Data.token data)) eqn:Ht; [| discriminate H]. cbn [negb] in H.
  rewrite (run_bind _ _ _ _ _ (findSessionByToken_run _ w)) in H.
  erewrite run_bind in H by reflexivity.
  destruct (scan _ 1 (sessions w)) as [[row s]|] eqn:Hs; [| discriminate H].
  destruct (Z.ltb_spec (Session.expires_at s) (clock w)); [discriminate H |].
  erewrite run_bind in H by reflexivity. unfold getValues in H.
  destruct (group_rows _ [] (chat_history w)) as [m|e] eqn:Hm; [| discriminate H].
  inversion H; subst. split; [reflexivity |].
  exists row, s, m. conjs.
  unfold finds. now rewrite findSessionByToken_run, Hs.
Qed.

Lemma held_cons k v (m : list (string * Conv)) :
  held ((k, v) :: m) = (List.length (conv_messages v) + held m)%nat.
Proof. reflexivity. Qed.

Lemma held_app (m1 m2 : list (string * Conv)) : held (m1 ++ m2) = (held m1 + held m2)%nat.
Proof. unfold held. now rewrite map_app, list_sum_app. Qed.

Lemma held_alter_own m key x conv :
  own key m = Some conv -> held (alter_own (push x) key m) = S (held m).
Proof.
  induction m as [|[k v] m IH]; cbn [own alter_own]; [discriminate |].
  destruct (String.eqb k key).
  - intros _. rewrite !held_cons. cbn [push conv_messages]. rewrite length_app.
    cbn [List.length]. lia.
  - intros H. rewrite !held_cons, (IH H). lia.
Qed.

Lemma group_rows_held email rows m m' :
  group_rows email m rows = Return m' ->
  held m' = (held m + List.length (List.filter (of_user email) rows))%nat.
Proof.
  revert m. induction rows as [|r rows IH]; intros m H; cbn [group_rows] in H.
  - injection H as <-. cbn [List.filter List.length]. lia.
  - cbn [List.filter]. unfold group_row in H. fold (of_user email r) in H.
    destruct (of_user email r).
    + destruct (own (Chat.session_id r) m) as [conv|] eqn:Ho.
      * rewrite (IH _ H), (held_alter_own _ _ _ _ Ho). cbn [List.length]. lia.
      * destruct (inherited (Chat.session_id r)); [discriminate H |].
        rewrite (IH _ H), held_app, held_cons.
        cbn [push conv_messages List.length app]. change (held []) with 0%nat. lia.
    + apply IH, H.
Qed.

Lemma total_perm l1 l2 : l1 ≡ₚ l2 -> total l1 = total l2.
Proof. intros H. unfold total. now rewrite H. Qed.

(** X11. The flat [messages] of the answer are the rows of the session's user,
    all of them and no row of anybody else, in sheet order; and the
    conversations hold, between them, exactly as many messages. *)
Theorem chatHistory_messages (data : Data.t) (w w' : World)
    (conversations : list Conversation) (msgs : list Chat.t) :
  handleGetChatHistory data w = (Return (ChatHistory conversations msgs), w') ->
  exists row s,
    finds (findSessionByToken (text (Data.token data))) w row s /\
    msgs = List.filter (of_user (Session.user_email s)) (chat_history w) /\
    Forall (fun r => Chat.user_email r = Session.user_email s) msgs /\
    total conversations = List.length msgs.
Proof.
  intros H. destruct (chatHistory_inv _ _ _ _ _ H)
    as (_ & row & s & m & _ & Hs & _ & Hm & -> & ->).
  exists row, s. split; [exact Hs |]. split; [reflexivity |]. split.
  - apply Forall_forall. intros r Hr. apply list_elem_of_In, List.filter_In in Hr.
    destruct Hr as [_ Hr]. now apply String.eqb_eq in Hr.
  - rewrite (total_perm _ (map conversation_of (map snd m))).
    + apply group_rows_held in Hm. cbn in Hm. rewrite <- Hm.
      unfold total, held. rewrite !map_map. reflexivity.
    + rewrite sort_conversations_perm. now rewrite Object_values_perm.
Qed.

Lemma grouped_entry email m rows key conv :
  grouped email m rows -> (key, conv) ∈ m ->
  exists first rest,
    session_rows email key rows = first :: rest /\
    conv = mkConv key (map message_of (first :: rest)) (Chat.created_at first).
Proof.
  intros [Hnd Hown] Hin. apply (own_elem_of _ _ _ Hnd) in Hin.
  rewrite Hown in Hin. unfold conv_for in Hin.
  destruct (session_rows email key rows) as [|first rest]; [discriminate Hin |].
  injection Hin as <-. eauto.
Qed.

Lemma insert_conversation_sorted a l :
  StronglySorted not_older l -> StronglySorted not_older (insert_conversation a l).
Proof.
  induction l as [|b l IH]; intros Hl; cbn [insert_conversation].
  - repeat constructor.
  - apply StronglySorted_inv in Hl. destruct Hl as [Hl Hb].
    destruct (Z.leb_spec (createdAt b - createdAt a) 0) as [Hle|Hgt].
    + constructor; [constructor; assumption |].
      constructor; [unfold not_older; lia |].
      eapply Forall_impl; [exact Hb |]. unfold not_older. intros c Hc. lia.
    + constructor; [apply IH, Hl |].
      rewrite insert_conversation_perm. constructor; [unfold not_older; lia | exact Hb].
Qed.

Lemma sort_conversations_sorted l : StronglySorted not_older (sort_conversations l).
Proof.
  unfold sort_conversations. induction l as [|a l IH]; cbn [foldr]; [constructor |].
  now apply insert_conversation_sorted.
Qed.

Lemma human_and_ai (l : list Message) :
  (List.length (List.filter (is_type "human") l) +
   List.length (List.filter (is_type "ai") l) <= List.length l)%nat.
Proof.
  induction l as [|m l IH]; cbn [List.filter List.length]; [lia |].
  destruct (is_type "human" m) eqn:Eh, (is_type "ai" m) eqn:Ea; cbn [List.length]; try lia.
  unfold is_type in Eh, Ea. apply String.eqb_eq in Eh, Ea. rewrite Eh in Ea. discriminate Ea.
Qed.

Lemma excerpt_title l :
  (String.length (excerpt 50 "Conversacion" l) <= 50)%nat /\
  excerpt 50 "Conversacion" l <> "".
Proof.
  destruct l as [|m l]; cbn [excerpt]; [split; [cbn; lia | discriminate] |].
  unfold or_else. destruct (String.eqb_spec (substring0 50 (msg_content m)) "") as [E|E].
  - split; [cbn; lia | discriminate].
  - split; [apply substring0_length | exact E].
Qed.

(** X12. The conversations of the answer come most recent first, a
    conversation being dated by its first message; each has at least one
    message, counts all its messages in [totalMessages] and no more than
    those in [humanMessages] and [aiMessages] together, and has a title
    that is not empty and at most 50 characters long. *)
Theorem chatHistory_conversations (data : Data.t) (w w' : World)
    (conversations : list Conversation) (msgs : list Chat.t) :
  handleGetChatHistory data w = (Return (ChatHistory conversations msgs), w') ->
  StronglySorted not_older conversations /\
  Forall (fun c =>
            (exists first rest,
               messages c = first :: rest /\ createdAt c = msg_created_at first) /\
            totalMessages c = List.length (messages c) /\
            (humanMessages c + aiMessages c <= totalMessages c)%nat /\
            (String.length (title c) <= 50)%nat /\ title c <> "")
         conversations.
Proof.
  intros H. destruct (chatHistory_inv _ _ _ _ _ H)
    as (_ & row & s & m & _ & _ & _ & Hm & -> & _).
  split; [apply sort_conversations_sorted |].
  assert (Hg : grouped (Session.user_email s) m (chat_history w)).
  { apply (group_rows_grouped _ (chat_history w) [] m []); [| exact Hm].
    split; [apply NoDup_nil_2 | reflexivity]. }
  apply Forall_forall. intros c Hc.
  rewrite sort_conversations_perm, Object_values_perm in Hc.
  apply list_elem_of_fmap in Hc. destruct Hc as (cv & -> & Hc).
  apply list_elem_of_fmap in Hc. destruct Hc as ([k cv'] & -> & Hc).
  destruct (grouped_entry _ _ _ _ _ Hg Hc) as (first & rest & _ & ->).
  cbn [snd conversation_of messages createdAt totalMessages humanMessages aiMessages
       title conv_messages conv_firstMessageTime].
  split; [eexists _, _; split; reflexivity |].
  split; [reflexivity |]. split; [apply human_and_ai |]. apply excerpt_title.
Qed.

(** ** Saving a message *)

Lemma saveChatMessage_inv data w id w1 :
  handleSaveChatMessage data w = (Return (MessageSaved id), w1) ->
  exists row s,
    truthy (Data.token data) = true /\
    scan (fun r => String.eqb (Session.token r) (text (Data.token data))) 1 (sessions w)
      = Some (row, s) /\
    clock w <= Session.expires_at s /\
    id = (clock w, entropy w (cursor w)) /\
    w1 = mkWorld (users w) (sessions w)
           (chat_history w ++
            [Chat.mk id (text (Data.sessionId data)) (Session.user_email s)
                     (text (Data.messageType data)) (text (Data.content data)) (clock w)])
           (clock w) (entropy w) (S (cursor w)) (outbox w).
Proof.
  intros H. unfold handleSaveChatMessage in H.
  destruct (truthy (Data.token data)) eqn:Ht; [| discriminate H]. cbn [negb] in H.
  rewrite (run_bind _ _ _ _ _ (findSessionByToken_run _ w)) in H.
  erewrite run_bind in H by reflexivity.
  destruct (scan _ 1 (sessions w)) as [[row s]|] eqn:Hs; [| discriminate H].
  destruct (Z.ltb_spec (Session.expires_at s) (clock w)); [discriminate H |].
  unfold bind, Math_random, modify, ret in H. cbn in H.
  inversion H; subst. exists row, s. conjs.
Qed.

(** X13. A saved message is appended to the chat_history sheet as one row,
    filed under the email of the session's user (not under anything the
    request says) and dated by the clock; no other sheet changes. A
    [getChatHistory] with the same token then has it as the last of the
    flat messages and as the last message of the conversation of its
    session id. *)
Theorem saveChatMessage_then_history (data : Data.t) (w w1 : World) (id : Z * nat) :
  handleSaveChatMessage data w = (Return (MessageSaved id), w1) ->
  exists row s,
    finds (findSessionByToken (text (Data.token data))) w row s /\
    let saved := Chat.mk id (text (Data.sessionId data)) (Session.user_email s)
                         (text (Data.messageType data)) (text (Data.content data))
                         (clock w) in
    chat_history w1 = chat_history w ++ [saved] /\
    users w1 = users w /\ sessions w1 = sessions w /\
    forall conversations msgs w2,
      handleGetChatHistory data w1 = (Return (ChatHistory conversations msgs), w2) ->
      msgs = List.filter (of_user (Session.user_email s)) (chat_history w) ++ [saved] /\
      exists c, c ∈ conversations /\ sessionId c = Chat.session_id saved /\
                last (messages c) = Some (message_of saved).
Proof.
  intros H. destruct (saveChatMessage_inv _ _ _ _ H) as (row & s & Ht & Hs & Hexp & Hid & ->).
  exists row, s. split; [unfold finds; now rewrite findSessionByToken_run, Hs |].
  cbn zeta. cbn [chat_history users sessions].
  split; [reflexivity |]. split; [reflexivity |]. split; [reflexivity |].
  intros conversations msgs w2 Hh.
  destruct (chatHistory_inv _ _ _ _ _ Hh) as (_ & row' & s' & m & _ & Hs' & _ & Hm & -> & ->).
  apply finds_session_by_token in Hs'. cbn [sessions chat_history] in Hs', Hm.
  rewrite Hs in Hs'. injection Hs' as <- <-. cbn [chat_history].
  set (saved := Chat.mk _ _ _ _ _ _) in *.
  assert (Hmine : of_user (Session.user_email s) saved = true) by apply String.eqb_refl.
  split.
  - rewrite List.filter_app. cbn [List.filter]. now rewrite Hmine.
  - assert (Hg : grouped (Session.user_email s) m (chat_history w ++ [saved])).
    { apply (group_rows_grouped _ (chat_history w ++ [saved]) [] m []); [| exact Hm].
      split; [apply NoDup_nil_2 | reflexivity]. }
    destruct Hg as [Hnd Hown].
    pose proof (Hown (Chat.session_id saved)) as Ho.
    rewrite conv_for_snoc_same in Ho by exact Hmine.
    set (cv := match conv_for _ _ _ with Some conv => _ | None => _ end) in Ho.
    assert (Hcv : exists cv', cv = Some cv' /\ conv_sessionId cv' = Chat.session_id saved /\
                              last (conv_messages cv') = Some (message_of saved)).
    { subst cv. destruct (conv_for _ _ (chat_history w)) as [conv|] eqn:Hc.
      - eexists. split; [reflexivity |]. unfold push. cbn. rewrite last_snoc.
        split; [| reflexivity].
        unfold conv_for in Hc. destruct (session_rows _ _ _); [discriminate Hc |].
        now injection Hc as <-.
      - eexists. split; [reflexivity |]. split; reflexivity. }
    destruct Hcv as (cv' & Hcv & Hsid & Hlast). rewrite Hcv in Ho.
    apply (own_elem_of _ _ _ Hnd) in Ho.
    exists (conversation_of cv'). split; [| split; [exact Hsid | exact Hlast]].
    rewrite sort_conversations_perm, Object_values_perm.
    apply list_elem_of_fmap. exists cv'. split; [reflexivity |].
    apply list_elem_of_fmap. now exists (Chat.session_id saved, cv').
Qed.

(** ** Further statistics *)

Lemma chatStats_inv zone header data w st w' :
  Script.handleGetChatStats zone header data w = (Return (ChatStats st), w') ->
  w' = w /\
  exists row s,
    finds (findSessionByToken (text (Data.token data))) w row s /\
    clock w <= Session.expires_at s /\
    st = (let email := Session.user_email s in
          let acc := fold_left (tally_row email) (chat_history w) (mkTally [] 0 0 ∅) in
          let dates := fold_left (date_row email) (chat_history w) (None, None) in
          mkStats (List.length (tally_sessions acc)) (humanCount acc + aiCount acc)
                  (humanCount acc) (aiCount acc)
                  (Script.last7Days zone (clock w) (messagesByDay acc))
                  (rev (map (Script.recent header email (chat_history w))
                            (slice_last 5 (tally_sessions acc))))
                  (fst dates) (snd dates)).
Proof.
  intros H. unfold Script.handleGetChatStats in H.
  destruct (truthy (Data.token data)) eqn:Ht; [| discriminate H]. cbn [negb] in H.
  rewrite (run_bind _ _ _ _ _ (findSessionByToken_run _ w)) in H.
  erewrite run_bind in H by reflexivity.
  destruct (scan _ 1 (sessions w)) as [[row s]|] eqn:Hs; [| discriminate H].
  destruct (Z.ltb_spec (Session.expires_at s) (clock w)); [discriminate H |].
  erewrite run_bind in H by reflexivity. unfold getValues in H.
  inversion H; subst. split; [reflexivity |]. exists row, s.
  split; [unfold finds; now rewrite findSessionByToken_run, Hs |]. split; [assumption |].
  reflexivity.
Qed.

Lemma date_row_eq email acc row :
  date_row email acc row =
  if of_user email row then
    (match fst acc with
     | None => Some (Chat.created_at row)
     | Some first =>
         if Chat.created_at row <? first then Some (Chat.created_at row) else Some first
     end,
     match snd acc with
     | None => Some (Chat.created_at row)
     | Some last =>
         if last <? Chat.created_at row then Some (Chat.created_at row) else Some last
     end)
  else acc.
Proof. reflexivity. Qed.

(** The two dates after the loop: bounds of the dates met, taken among
    them or kept from before. *)
Lemma date_fold email rows (first last : option Z) :
  let times := map Chat.created_at (List.filter (of_user email) rows) in
  let res := fold_left (date_row email) rows (first, last) in
  (fst res = first \/ exists t, t ∈ times /\ fst res = Some t) /\
  (snd res = last \/ exists t, t ∈ times /\ snd res = Some t) /\
  (first = None -> last = None -> times = [] -> res = (None, None)) /\
  (times <> [] \/ first <> None -> exists f, fst res = Some f /\
     Forall (fun t => f <= t) times /\ forall f0, first = Some f0 -> f <= f0) /\
  (times <> [] \/ last <> None -> exists l, snd res = Some l /\
     Forall (fun t => t <= l) times /\ forall l0, last = Some l0 -> l0 <= l).
Proof.
  revert first last. induction rows as [|r rows IH]; intros first last;
    cbn [fold_left List.filter].
  - cbn [fst snd map]. split; [now left |]. split; [now left |].
    split; [intros -> -> _; reflexivity |]. split.
    + intros [H | H]; [congruence |]. destruct first as [f|]; [| congruence].
      exists f. split; [reflexivity |]. split; [constructor |]. intros f0 [= <-]. lia.
    + intros [H | H]; [congruence |]. destruct last as [l|]; [| congruence].
      exists l. split; [reflexivity |]. split; [constructor |]. intros l0 [= <-]. lia.
  - rewrite date_row_eq. destruct (of_user email r); [| apply IH].
    cbn [fst snd map].
    match goal with
    | |- context [fold_left _ rows (?a, ?b)] =>
        destruct (IH a b) as (I1 & I2 & _ & I4 & I5); set (fa := a) in *; set (lb := b) in *
    end.
    set (res := fold_left (date_row email) rows (fa, lb)) in *.
    set (times := map Chat.created_at (List.filter (of_user email) rows)) in *.
    assert (Hfa : exists x, fa = Some x /\ x <= Chat.created_at r /\
                            (forall f0, first = Some f0 -> x <= f0) /\
                            (fa = first \/ x = Chat.created_at r)).
    { subst fa. destruct first as [f|].
      - destruct (Z.ltb_spec (Chat.created_at r) f); eexists; split; try reflexivity.
        + repeat split; [lia | intros f0 [= <-]; lia | auto].
        + repeat split; [lia | intros f0 [= <-]; lia | auto].
      - eexists. split; [reflexivity |]. repeat split; [lia | congruence | auto]. }
    assert (Hlb : exists x, lb = Some x /\ Chat.created_at r <= x /\
                            (forall l0, last = Some l0 -> l0 <= x) /\
                            (lb = last \/ x = Chat.created_at r)).
    { subst lb. destruct last as [l|].
      - destruct (Z.ltb_spec l (Chat.created_at r)); eexists; split; try reflexivity.
        + repeat split; [lia | intros l0 [= <-]; lia | auto].
        + repeat split; [lia | intros l0 [= <-]; lia | auto].
      - eexists. split; [reflexivity |]. repeat split; [lia | congruence | auto]. }
    destruct Hfa as (x & Hx & Hxr & Hxf & Hxo), Hlb as (y & Hy & Hyr & Hyl & Hyo).
    destruct I4 as (f & Hf & Hft & Hf0); [right; congruence |].
    destruct I5 as (l & Hl & Hlt & Hl0); [right; congruence |].
    specialize (Hf0 _ Hx). specialize (Hl0 _ Hy).
    split; [| split; [| split; [| split]]].
    + destruct I1 as [I1 | (t & Ht & I1)].
      * destruct Hxo as [Hxo | Hxo]; [left; congruence |].
        right. exists (Chat.created_at r). split; [apply elem_of_cons; now left |].
        congruence.
      * right. exists t. split; [apply elem_of_cons; now right | exact I1].
    + destruct I2 as [I2 | (t & Ht & I2)].
      * destruct Hyo as [Hyo | Hyo]; [left; congruence |].
        right. exists (Chat.created_at r). split; [apply elem_of_cons; now left |].
        congruence.
      * right. exists t. split; [apply elem_of_cons; now right | exact I2].
    + intros _ _ Hnil. discriminate Hnil.
    + intros _. exists f. split; [exact Hf |]. split.
      * constructor; [lia | exact Hft].
      * intros f0 E. specialize (Hxf _ E). lia.
    + intros _. exists l. split; [exact Hl |]. split.
      * constructor; [lia | exact Hlt].
      * intros l0 E. specialize (Hyl _ E). lia.
Qed.

(** X14. [firstMessageDate] and [lastMessageDate] are the earliest and the
    latest [created_at] among the user's rows, whatever the order of the
    rows in the sheet; both are [null] exactly when the user has no row. *)
Theorem chatStats_first_and_last (data : Data.t) (w w' : World) (st : Stats) :
  handleGetChatStats data w = (Return (ChatStats st), w') ->
  exists row s,
    finds (findSessionByToken (text (Data.token data))) w row s /\
    let times :=
      map Chat.created_at (List.filter (of_user (Session.user_email s)) (chat_history w)) in
    match stats_firstMessageDate st, stats_lastMessageDate st with
    | Some first, Some last =>
        first ∈ times /\ last ∈ times /\ Forall (fun t => first <= t <= last) times
    | None, None => times = []
    | _, _ => False
    end.
Proof.
  intros H. destruct (chatStats_inv UTC titles _ _ _ _ H) as (_ & row & s & Hs & _ & ->).
  exists row, s. split; [exact Hs |].
  cbv zeta. cbn [stats_firstMessageDate stats_lastMessageDate].
  pose proof (date_fold (Session.user_email s) (chat_history w) None None) as I.
  cbv zeta in I. destruct I as (I1 & I2 & I3 & I4 & I5).
  set (res := fold_left _ (chat_history w) (None, None)) in *.
  remember (map Chat.created_at
              (List.filter (of_user (Session.user_email s)) (chat_history w)))
    as times eqn:Ht.
  destruct times as [|t0 times'].
  - rewrite I3 by reflexivity. reflexivity.
  - destruct I4 as (f & Hf & Hft & _); [left; discriminate |].
    destruct I5 as (l & Hl & Hlt & _); [left; discriminate |].
    rewrite Hf, Hl.
    destruct I1 as [I1 | (t & Hin & I1)]; [congruence |].
    destruct I2 as [I2 | (t' & Hin' & I2)]; [congruence |].
    split; [congruence |]. split; [congruence |].
    rewrite Forall_forall in Hft, Hlt. apply Forall_forall. intros x Hx.
    split; [apply Hft, Hx | apply Hlt, Hx].
Qed.

Lemma slice_last_sublist n (l : list string) : sublist (slice_last n l) l.
Proof. unfold slice_last. apply sublist_drop. Qed.

Lemma slice_last_length n (l : list string) :
  List.length (slice_last n l) = Nat.min n (List.length l).
Proof. unfold slice_last. rewrite length_skipn. lia. Qed.

(** The session ids of the counting loop are the distinct session ids of
    the user's rows, each where it comes first. *)
Lemma filter_and {A} (p q : A -> bool) (l : list A) :
  List.filter (fun x => p x && q x) l = List.filter p (List.filter q l).
Proof.
  induction l as [|x l IH]; [reflexivity |]. cbn [List.filter].
  destruct (q x); cbn [List.filter]; rewrite ?andb_true_r, ?andb_false_r;
    [destruct (p x) |]; now rewrite IH.
Qed.

Lemma filter_all {A} (l : list A) : List.filter (fun _ => true) l = l.
Proof. induction l as [|x l IH]; [reflexivity |]. cbn [List.filter]. now rewrite IH. Qed.

Lemma set_add_fold (l acc : list string) :
  fold_left (fun s x => set_add x s) l acc =
  acc ++ List.filter (fun y => negb (existsb (String.eqb y) acc)) (distinct l).
Proof.
  revert acc. induction l as [|x l IH]; intros acc; cbn [fold_left distinct List.filter].
  - now rewrite app_nil_r.
  - rewrite IH. unfold set_add. destruct (existsb (String.eqb x) acc) eqn:E; cbn [negb].
    + f_equal. rewrite <- filter_and. apply List.filter_ext. intros y.
      destruct (String.eqb_spec y x) as [-> | _]; cbn [negb];
        [now rewrite E | now rewrite andb_true_r].
    + rewrite <- app_assoc. cbn [app]. f_equal. f_equal.
      rewrite <- filter_and. apply List.filter_ext. intros y.
      rewrite existsb_app. cbn [existsb]. rewrite orb_false_r, negb_orb. reflexivity.
Qed.

Lemma tally_fold_distinct email rows :
  tally_sessions (fold_left (tally_row email) rows (mkTally [] 0 0 ∅)) =
  distinct (map Chat.session_id (List.filter (of_user email) rows)).
Proof.
  assert (H : forall acc,
    tally_sessions (fold_left (tally_row email) rows acc) =
    fold_left (fun s x => set_add x s)
              (map Chat.session_id (List.filter (of_user email) rows)) (tally_sessions acc)).
  { induction rows as [|r rows IH]; intros acc; cbn [fold_left List.filter]; [reflexivity |].
    rewrite IH, tally_row_eq. now destruct (of_user email r). }
  rewrite H, set_add_fold. cbn [tally_sessions existsb negb app]. apply filter_all.
Qed.

(** X15. [recentConversations] lists the sessions of the user that came last
    into the sheet, going by the first row of each: five of them, or all when
    there are fewer, the latest first, each once. The [messageCount] of an
    entry is the number of rows the user has under that session id, which
    is at least one, and one more when the header row of the sheet passes
    the filter too, its cells being that session id and the user's
    email. This holds in every time zone of the script. *)
Theorem chatStats_recentConversations (zone : TimeZone) (header : Header)
    (data : Data.t) (w w' : World) (st : Stats) :
  Script.handleGetChatStats zone header data w = (Return (ChatStats st), w') ->
  exists row s,
    finds (findSessionByToken (text (Data.token data))) w row s /\
    let email := Session.user_email s in
    let ids := distinct (map Chat.session_id (List.filter (of_user email) (chat_history w))) in
    stats_totalSessions st = List.length ids /\
    map recent_sessionId (stats_recentConversations st) = firstn 5 (rev ids) /\
    List.length (stats_recentConversations st) = Nat.min 5 (stats_totalSessions st) /\
    NoDup (map recent_sessionId (stats_recentConversations st)) /\
    Forall (fun r =>
              let rows := session_rows email (recent_sessionId r) (chat_history w) in
              messageCount r =
                (header_counted header email (recent_sessionId r) + List.length rows)%nat /\
              (1 <= List.length rows)%nat)
           (stats_recentConversations st).
Proof.
  intros H. destruct (chatStats_inv _ _ _ _ _ _ H) as (_ & row & s & Hs & _ & ->).
  exists row, s. split; [exact Hs |].
  cbv zeta. cbn [stats_recentConversations stats_totalSessions].
  set (email := Session.user_email s).
  destruct (tally_fold_sessions email (chat_history w) (mkTally [] 0 0 ∅))
    as (Hnd & Hin); [apply NoDup_nil_2 |].
  rewrite tally_fold_distinct in *.
  set (ids := distinct _) in *.
  assert (Hids : map recent_sessionId
                   (rev (map (Script.recent header email (chat_history w)) (slice_last 5 ids)))
                 = rev (slice_last 5 ids)).
  { rewrite <- map_rev, map_map. cbn [Script.recent recent_sessionId]. apply map_id. }
  split; [reflexivity |]. split; [| split; [| split]].
  - rewrite Hids. unfold slice_last. symmetry. apply firstn_rev.
  - now rewrite length_rev, length_map, slice_last_length.
  - rewrite Hids. apply NoDup_ListNoDup, NoDup_rev, NoDup_ListNoDup.
    eapply sublist_NoDup; [exact Hnd | apply slice_last_sublist].
  - apply Forall_forall. intros r Hr.
    apply list_elem_of_In in Hr. rewrite <- in_rev in Hr.
    apply list_elem_of_In, list_elem_of_fmap in Hr. destruct Hr as (sid & -> & Hsid).
    assert (Hmine : sid ∈ map Chat.session_id (List.filter (of_user email) (chat_history w))).
    { apply (fun H => elem_of_sublist _ _ _ H (slice_last_sublist 5 ids)) in Hsid.
      apply Hin in Hsid. cbn in Hsid. destruct Hsid as [Hsid | Hsid]; [| exact Hsid].
      now apply elem_of_nil in Hsid. }
    cbn [Script.recent messageCount recent_sessionId].
    assert (Heq : List.filter (fun row0 => String.eqb (Chat.session_id row0) sid
                                 && String.eqb (Chat.user_email row0) email) (chat_history w)
                  = session_rows email sid (chat_history w)).
    { unfold session_rows. apply List.filter_ext. intros r0.
      unfold of_user, in_session. apply andb_comm. }
    rewrite Heq. split; [reflexivity |].
    apply list_elem_of_fmap in Hmine. destruct Hmine as (r0 & -> & Hr0).
    apply list_elem_of_In, List.filter_In in Hr0. destruct Hr0 as [Hr0 Hu].
    assert (Hr1 : In r0 (session_rows email (Chat.session_id r0) (chat_history w))).
    { apply List.filter_In. split; [exact Hr0 |]. rewrite Hu. unfold in_session.
      now rewrite String.eqb_refl. }
    destruct (session_rows email (Chat.session_id r0) (chat_history w));
      [destruct Hr1 | cbn; lia].
Qed.

(** ** Password reset, from the request to the new password *)

(** A sequence whose steps all return answers with the value of its last
    step. *)
Lemma bind_answers {A B} (m : M A) (k : A -> M B) (b : B) :
  returns m ->
  (forall a w, exists w', k a w = (Return b, w')) ->
  forall w, exists w', bind m k w = (Return b, w').
Proof.
  intros Hm Hk w. destruct (Hm w) as (a & w1 & Hrun).
  rewrite (run_bind _ _ _ _ _ Hrun). apply Hk.
Qed.

Lemma requestReset_found refusal data w pre u post :
  truthy (Data.email data) = true ->
  users w = pre ++ u :: post ->
  Forall (fun x => String.eqb (User.email x) (text (Data.email data)) = false) pre ->
  User.email u = text (Data.email data) ->
  exists token,
    String.length token = 32%nat /\
    let mail := mkMail (text (Data.email data)) "Restablecer contrasena - Family6 SaaS" token in
    let written outbox :=
      mkWorld
        (pre ++ setValue (F_reset_token_expires (Some (clock w + 24 * 60 * 60 * 1000)))
                  (setValue (F_reset_token token) u) :: post)
        (sessions w) (chat_history w) (clock w) (entropy w) (cursor w + 32) outbox in
    Script.handleRequestReset refusal data w =
    match refusal mail with
    | Some e => (Throw e, written (outbox w))
    | None =>
        (Return (Success "If an account exists with this email, a password reset link has been sent."),
         written (outbox w ++ [mail]))
    end.
Proof.
  intros He Hu Hpre Heq. unfold Script.handleRequestReset. cbv zeta. rewrite He. cbn [negb].
  rewrite (run_bind _ _ _ _ _ (findUserByEmail_run _ w)), Hu.
  rewrite scan_middle; [| exact Hpre | rewrite Heq; apply String.eqb_refl].
  destruct (generateToken_run 32 w) as (token & Htok & Hlen & _).
  exists token. split; [exact Hlen |].
  rewrite bind_assoc, (run_bind _ _ _ _ _ Htok).
  rewrite bind_assoc, (run_bind _ _ _ _ _ (newDate_run _)).
  rewrite bind_assoc.
  erewrite run_bind
    by (eapply updateUserField_at with (pre := pre) (post := post);
        [exact Hu | exact Hpre | exact Heq]).
  rewrite bind_assoc.
  erewrite run_bind
    by (eapply updateUserField_at with (pre := pre) (post := post);
        [reflexivity | exact Hpre | exact Heq]).
  unfold Script.sendResetEmail, Script.sendEmail.
  destruct (refusal _) as [e|]; [reflexivity |].
  rewrite (run_bind _ _ _ _ _ (deliver_run _ _)). reflexivity.
Qed.

Lemma resetPassword_found dg data w row u :
  truthy (Data.token data) = true ->
  (8 <= String.length (text (Data.newPassword data)))%nat ->
  scan (fun r => String.eqb (User.reset_token r) (text (Data.token data))) 1 (users w)
    = Some (row, u) ->
  if date_lt (User.reset_token_expires u) (clock w) then
    handleResetPassword dg data w = (Return (Error "Reset token has expired"), w)
  else
    exists w1,
      handleResetPassword dg data w = (Return (Success "Password updated successfully"), w1).
Proof.
  intros Ht Hlen Hscan. unfold handleResetPassword. cbv zeta. rewrite Ht.
  assert (Hp : truthy (Data.newPassword data) = true).
  { destruct (Data.newPassword data) as [p|]; [| cbn in Hlen; lia].
    apply truthy_Some. intros ->. cbn in Hlen. lia. }
  rewrite Hp. cbn [negb orb].
  destruct (Nat.ltb_spec (String.length (text (Data.newPassword data))) 8); [lia |].
  rewrite (run_bind _ _ _ _ _ (findUserByResetToken_run _ w)), Hscan.
  rewrite (run_bind _ _ _ _ _ (newDate_run _)).
  destruct (date_lt (User.reset_token_expires u) (clock w)); [reflexivity |].
  apply bind_answers; [apply returns_generateToken |]. intros salt w0.
  do 4 (apply bind_answers; [apply returns_updateUserField |]; intros ? ?).
  apply bind_answers; [unfold newDate; apply returns_gets |]. intros now' ?.
  apply bind_answers; [apply returns_updateUserField |]. intros ? ?.
  eexists. reflexivity.
Qed.

(** X16. When [MailApp.sendEmail] accepts the mail, a [requestReset] for a
    registered email answers with the success payload, having stored a
    reset token in the row of that email, good for 24 hours, and mailed it
    to that email; the password is not touched. With that token (no earlier row carrying the same
    one) and any new password of at least 8 characters, [resetPassword]
    succeeds at every instant up to and including 24 hours after the
    request, and is answered with "Reset token has expired", writing
    nothing, at any later instant. *)
Theorem requestReset_then_resetPassword dg (refusal : Mail -> option string)
    (data : Data.t) (w : World) (pre post : list User.t) (u : User.t) :
  truthy (Data.email data) = true ->
  users w = pre ++ u :: post ->
  Forall (fun x => User.email x <> text (Data.email data)) pre ->
  User.email u = text (Data.email data) ->
  (forall token,
     refusal (mkMail (User.email u) "Restablecer contrasena - Family6 SaaS" token) = None) ->
  exists token w1,
    Script.handleRequestReset refusal data w =
      (Return (Success "If an account exists with this email, a password reset link has been sent."),
       w1) /\
    last (outbox w1) =
      Some (mkMail (User.email u) "Restablecer contrasena - Family6 SaaS" token) /\
    (exists u1,
       users w1 = pre ++ u1 :: post /\ User.reset_token u1 = token /\
       User.reset_token_expires u1 = Some (clock w + 24 * 60 * 60 * 1000) /\
       User.password_hash u1 = User.password_hash u /\ User.salt u1 = User.salt u) /\
    (Forall (fun x => User.reset_token x <> token) pre ->
     forall p, (8 <= String.length p)%nat ->
       (forall t, t <= clock w + 24 * 60 * 60 * 1000 ->
          exists w2,
            handleResetPassword dg (request_reset token p) (set_clock t w1) =
            (Return (Success "Password updated successfully"), w2)) /\
       (forall t, clock w + 24 * 60 * 60 * 1000 < t ->
          handleResetPassword dg (request_reset token p) (set_clock t w1) =
          (Return (Error "Reset token has expired"), set_clock t w1))).
Proof.
  intros He Hu Hpre Heq Hmail.
  assert (Hpre' : Forall (fun x => String.eqb (User.email x) (text (Data.email data)) = false) pre).
  { eapply Forall_impl; [exact Hpre |]. intros x. apply String.eqb_neq. }
  destruct (requestReset_found refusal data w pre u post He Hu Hpre' Heq)
    as (token & Hlen & Hrun).
  cbv zeta in Hrun. rewrite <- Heq, Hmail, Heq in Hrun.
  eexists token, _. split; [exact Hrun |].
  cbn [outbox]. rewrite last_snoc, Heq. split; [reflexivity |].
  split; [eexists; split; [reflexivity | destruct u; repeat split] |].
  intros Hfresh p Hp.
  assert (Hne : token <> "") by (eapply nonempty_of_length; exact Hlen).
  assert (Hfresh' : Forall (fun x => String.eqb (User.reset_token x) token = false) pre).
  { eapply Forall_impl; [exact Hfresh |]. intros x. apply String.eqb_neq. }
  set (u1 := setValue _ (setValue _ u)).
  set (mail := mkMail _ _ _).
  assert (Hfound : forall t,
    if clock w + 24 * 60 * 60 * 1000 <? t then
      handleResetPassword dg (request_reset token p)
        (set_clock t (mkWorld (pre ++ u1 :: post) (sessions w) (chat_history w) (clock w)
                              (entropy w) (cursor w + 32) (outbox w ++ [mail])))
      = (Return (Error "Reset token has expired"),
         set_clock t (mkWorld (pre ++ u1 :: post) (sessions w) (chat_history w) (clock w)
                              (entropy w) (cursor w + 32) (outbox w ++ [mail])))
    else
      exists w2,
        handleResetPassword dg (request_reset token p)
          (set_clock t (mkWorld (pre ++ u1 :: post) (sessions w) (chat_history w) (clock w)
                                (entropy w) (cursor w + 32) (outbox w ++ [mail])))
        = (Return (Success "Password updated successfully"), w2)).
  { intros t.
    assert (Hscan :
      scan (fun r => String.eqb (User.reset_token r) token) 1 (pre ++ u1 :: post)
      = Some ((1 + List.length pre + 1)%nat, u1)).
    { apply scan_middle; [exact Hfresh' |].
      subst u1. destruct u. cbn. apply String.eqb_refl. }
    pose proof (resetPassword_found dg (request_reset token p)
      (set_clock t (mkWorld (pre ++ u1 :: post) (sessions w) (chat_history w) (clock w)
                            (entropy w) (cursor w + 32) (outbox w ++ [mail])))
      _ u1 (truthy_Some _ Hne) Hp Hscan) as H.
    replace (date_lt (User.reset_token_expires u1) _)
      with (clock w + 24 * 60 * 60 * 1000 <? t) in H; [exact H |].
    subst u1. destruct u. reflexivity. }
  split; intros t Ht; specialize (Hfound t).
  - apply Z.ltb_ge in Ht. rewrite Ht in Hfound. exact Hfound.
  - apply Z.ltb_lt in Ht. rewrite Ht in Hfound. exact Hfound.
Qed.

(** ** The session id of the chat page *)

Lemma hex_digit_of_draw (n : nat) :
  exists c, toString16 (Z.of_nat (n mod 16)) = String c "" /\
            In c (list_ascii_of_string "0123456789abcdef").
Proof.
  assert (H : (n mod 16 < 16)%nat) by (apply Nat.mod_upper_bound; discriminate).
  destruct (n mod 16)%nat as [|k]; [eexists; split; [reflexivity | cbn; tauto] |].
  do 15 (destruct k as [|k]; [eexists; split; [reflexivity | cbn; tauto] |]).
  lia.
Qed.

Lemma variant_digit_of_draw (n : nat) :
  exists c, toString16 (Z.lor (Z.land (Z.of_nat (n mod 16)) 3) 8) = String c "" /\
            In c (list_ascii_of_string "89ab").
Proof.
  assert (H : (n mod 16 < 16)%nat) by (apply Nat.mod_upper_bound; discriminate).
  destruct (n mod 16)%nat as [|k]; [eexists; split; [reflexivity | cbn; tauto] |].
  do 15 (destruct k as [|k]; [eexists; split; [reflexivity | cbn; tauto] |]).
  lia.
Qed.

Lemma drawn_drawn n m p : drawn n (drawn m p) = drawn (m + n) p.
Proof. unfold drawn. cbn. f_equal. lia. Qed.

Lemma replace_xy_spec template p :
  exists s,
    replace_xy template p = (s, drawn (count_xy template) p) /\
    Forall2 uuid_char (list_ascii_of_string template) (list_ascii_of_string s).
Proof.
  revert p. induction template as [|c rest IH]; intros p.
  - exists "". split; [| constructor].
    cbn. unfold drawn. rewrite Nat.add_0_r. now destruct p.
  - cbn [replace_xy]. unfold count_xy. cbn [list_ascii_of_string List.filter].
    fold (count_xy rest).
    destruct (Ascii.eqb c "x") eqn:Ex; [| destruct (Ascii.eqb c "y") eqn:Ey]; cbn [orb].
    + destruct (IH (drawn 1 p)) as (s & Hrun & Hs). rewrite drawn_drawn in Hrun.
      unfold drawn in Hrun at 1. cbn [Page.sessionId Page.currentUser_id
        Page.chat_session_id Page.entropy Page.cursor] in Hrun.
      replace (Page.cursor p + 1)%nat with (S (Page.cursor p)) in Hrun by lia.
      rewrite Hrun.
      destruct (hex_digit_of_draw (Page.entropy p (Page.cursor p))) as (d & -> & Hd).
      exists (String d s). split; [reflexivity |].
      cbn. constructor; [| exact Hs]. unfold uuid_char. now rewrite Ex.
    + destruct (IH (drawn 1 p)) as (s & Hrun & Hs). rewrite drawn_drawn in Hrun.
      unfold drawn in Hrun at 1. cbn [Page.sessionId Page.currentUser_id
        Page.chat_session_id Page.entropy Page.cursor] in Hrun.
      replace (Page.cursor p + 1)%nat with (S (Page.cursor p)) in Hrun by lia.
      rewrite Hrun.
      destruct (variant_digit_of_draw (Page.entropy p (Page.cursor p))) as (d & -> & Hd).
      exists (String d s). split; [reflexivity |].
      cbn. constructor; [| exact Hs]. unfold uuid_char. now rewrite Ex, Ey.
    + destruct (IH p) as (s & Hrun & Hs). rewrite Hrun.
      exists (String c s). split; [reflexivity |].
      cbn. constructor; [| exact Hs]. unfold uuid_char. now rewrite Ex, Ey.
Qed.

Lemma generateSessionId_run p :
  exists uuid, generateSessionId p = (uuid, drawn 31 p) /\ uuid_shape uuid.
Proof. apply (replace_xy_spec uuid_template p). Qed.

Lemma length_chars s : List.length (list_ascii_of_string s) = String.length s.
Proof. induction s as [|c s IH]; cbn; [reflexivity | now rewrite IH]. Qed.

Lemma uuid_shape_length s : uuid_shape s -> String.length s = 36%nat.
Proof.
  intros H. apply Forall2_length in H. rewrite <- length_chars, <- H. reflexivity.
Qed.

(** X17. [generateSessionId()] always returns a text in the format of a
    version 4 UUID: 36 characters, hyphens after the 8th, 13th, 18th and
    23rd, a [4] as 15th character, one of 8, 9, a, b as 20th, and
    lower-case hexadecimal digits elsewhere. It takes 31 draws of
    [Math.random] and changes nothing else. *)
Theorem generateSessionId_uuid (p : Page.t) :
  exists uuid,
    generateSessionId p = (uuid, drawn 31 p) /\
    uuid_shape uuid /\ String.length uuid = 36%nat /\
    String.get 8 uuid = Some "-"%char /\ String.get 13 uuid = Some "-"%char /\
    String.get 14 uuid = Some "4"%char /\
    String.get 18 uuid = Some "-"%char /\ String.get 23 uuid = Some "-"%char.
Proof.
  destruct (generateSessionId_run p) as (uuid & Hrun & Hshape).
  exists uuid. split; [exact Hrun |]. split; [exact Hshape |].
  split; [apply uuid_shape_length, Hshape |].
  unfold uuid_shape in Hshape. 
  remember (list_ascii_of_string uuid) as l eqn:Hl.
  rewrite <- (string_of_list_ascii_of_string uuid), <- Hl.
  cbn in Hshape.
  repeat match type of Hshape with
         | Forall2 _ (_ :: _) ?l =>
             let c := fresh "c" in let H := fresh "H" in
             apply Forall2_cons_inv_l in Hshape as (c & ? & H & Hshape & ->);
             unfold uuid_char in H; cbn in H; try subst c
         end.
  apply Forall2_nil_inv_l in Hshape as ->. cbn. 
  repeat split; reflexivity.
Qed.

Lemma new_session_run p :
  exists uuid,
    uuid_shape uuid /\
    new_session p =
      (or_else (text (Page.currentUser_id p)) "anonymous" +:+ "_" +:+ uuid,
       chatting (or_else (text (Page.currentUser_id p)) "anonymous" +:+ "_" +:+ uuid)
                (Some (or_else (text (Page.currentUser_id p)) "anonymous" +:+ "_" +:+ uuid))
                (drawn 31 p)).
Proof.
  destruct (generateSessionId_run p) as (uuid & Hrun & Hshape).
  exists uuid. split; [exact Hshape |]. unfold new_session. now rewrite Hrun.
Qed.

Lemma or_else_nonempty a b : b <> "" -> or_else a b <> "".
Proof.
  unfold or_else. destruct (String.eqb_spec a ""); [auto | intros _; assumption].
Qed.

Lemma append_nonempty a b : a <> "" -> a +:+ b <> "".
Proof. destruct a; [congruence | discriminate]. Qed.

Lemma truthy_nonempty v : truthy v = true -> text v <> "" /\ v = Some (text v).
Proof.
  destruct v as [s|]; [| discriminate]. cbn. intros H. split; [| reflexivity].
  intros ->. discriminate H.
Qed.

Lemma getSessionId_cached id stored p :
  id <> "" -> getSessionId (chatting id stored p) = (id, chatting id stored p).
Proof.
  intros Hid. unfold getSessionId, chatting. cbn [Page.sessionId].
  now rewrite (truthy_Some _ Hid).
Qed.

Lemma getSessionId_first p :
  Page.sessionId p = None ->
  getSessionId p =
  if truthy (Page.chat_session_id p) &&
     (negb (truthy (Page.currentUser_id p)) ||
      String.eqb (before_first "_" (text (Page.chat_session_id p)))
                 (text (Page.currentUser_id p)))
  then (text (Page.chat_session_id p),
        chatting (text (Page.chat_session_id p)) (Page.chat_session_id p) p)
  else new_session p.
Proof.
  intros Hnull. unfold getSessionId. rewrite Hnull. cbn [truthy negb].
  destruct (truthy (Page.chat_session_id p)) eqn:Hs; cbn [andb].
  - destruct (truthy_nonempty _ Hs) as [_ Hsome].
    destruct (truthy (Page.currentUser_id p)); cbn [negb orb].
    + destruct (String.eqb _ (text (Page.currentUser_id p))); cbn [negb truthy].
      * rewrite Hs. cbn [negb]. unfold chatting. now rewrite <- Hsome.
      * reflexivity.
    + rewrite Hs. cbn [negb]. unfold chatting. now rewrite <- Hsome.
  - rewrite Hs. reflexivity.
Qed.

(** X18. The first [getSessionId()] of a page (its variable [sessionId] still
    [null]) takes over the id found in [sessionStorage] when there is one
    and either nobody is logged in or the part of the id before its first
    [_] is the id of the user; otherwise it makes the new id
    [userId_uuid] (with "anonymous" for nobody) and stores it. Either way
    the id is not empty, and every later call returns it again and
    changes nothing. *)
Theorem getSessionId_rule (p : Page.t) :
  Page.sessionId p = None ->
  exists id p',
    getSessionId p = (id, p') /\
    id <> "" /\ getSessionId p' = (id, p') /\
    if truthy (Page.chat_session_id p) &&
       (negb (truthy (Page.currentUser_id p)) ||
        String.eqb (before_first "_" (text (Page.chat_session_id p)))
                   (text (Page.currentUser_id p)))
    then
      Page.chat_session_id p = Some id /\
      p' = chatting id (Page.chat_session_id p) p
    else
      exists uuid,
        uuid_shape uuid /\
        id = or_else (text (Page.currentUser_id p)) "anonymous" +:+ "_" +:+ uuid /\
        p' = chatting id (Some id) (drawn 31 p).
Proof.
  intros Hnull. rewrite (getSessionId_first p Hnull).
  destruct (truthy (Page.chat_session_id p) && _) eqn:Hreuse.
  - apply andb_prop in Hreuse. destruct Hreuse as [Hs _].
    destruct (truthy_nonempty _ Hs) as [Hne Hsome].
    eexists _, _. split; [reflexivity |]. split; [exact Hne |].
    split; [apply getSessionId_cached, Hne |]. split; [exact Hsome | reflexivity].
  - destruct (new_session_run p) as (uuid & Hshape & Hnew).
    assert (Hid : or_else (text (Page.currentUser_id p)) "anonymous" +:+ "_" +:+ uuid <> "").
    { apply append_nonempty, or_else_nonempty. discriminate. }
    eexists _, _. split; [exact Hnew |]. split; [exact Hid |].
    split; [apply getSessionId_cached, Hid |]. exists uuid. auto.
Qed.

Lemma before_first_no_sep sep s : ~ In sep (list_ascii_of_string (before_first sep s)).
Proof.
  induction s as [|c s IH]; cbn; [tauto |].
  destruct (Ascii.eqb_spec c sep) as [E|E]; cbn; [tauto |].
  intros [H | H]; [congruence | exact (IH H)].
Qed.

(** X19. For a user whose id has a [_] in it (the id is the user's email), the
    id found in [sessionStorage] is never taken over: whatever is stored,
    the first [getSessionId()] of every page starts a new chat session. *)
Theorem getSessionId_never_reused (p : Page.t) (userId : string) :
  Page.sessionId p = None ->
  Page.currentUser_id p = Some userId ->
  In "_"%char (list_ascii_of_string userId) ->
  exists uuid,
    uuid_shape uuid /\
    getSessionId p =
      (userId +:+ "_" +:+ uuid,
       chatting (userId +:+ "_" +:+ uuid) (Some (userId +:+ "_" +:+ uuid)) (drawn 31 p)).
Proof.
  intros Hnull Hu Hin. rewrite (getSessionId_first p Hnull), Hu. cbn [text truthy].
  assert (Hne : userId <> "") by (intros ->; destruct Hin).
  assert (Hnot : forall s, String.eqb (before_first "_" s) userId = false).
  { intros s. apply String.eqb_neq. intros E.
    apply (before_first_no_sep "_" s). now rewrite E. }
  rewrite Hnot. apply String.eqb_neq in Hne. rewrite Hne. cbn [negb orb].
  rewrite andb_false_r.
  destruct (new_session_run p) as (uuid & Hshape & Hnew).
  rewrite Hu in Hnew. cbn [text] in Hnew. unfold or_else in Hnew. rewrite Hne in Hnew.
  exists uuid. split; [exact Hshape | exact Hnew].
Qed.

(** X20. [clearChat()] always starts a new chat session: whatever the page held,
    its session id is afterwards a new [userId_uuid] (with "anonymous" for
    nobody), stored in [sessionStorage] too, and [getSessionId()] returns
    it. *)
Theorem clearChat_new_session (p : Page.t) :
  exists uuid,
    uuid_shape uuid /\
    let id := or_else (text (Page.currentUser_id p)) "anonymous" +:+ "_" +:+ uuid in
    clearChat p = chatting id (Some id) (drawn 31 p) /\
    getSessionId (clearChat p) = (id, clearChat p).
Proof.
  destruct (new_session_run p) as (uuid & Hshape & Hnew).
  exists uuid. split; [exact Hshape |]. cbv zeta. unfold clearChat. rewrite Hnew.
  cbn [snd]. split; [reflexivity |].
  apply getSessionId_cached, append_nonempty, or_else_nonempty. discriminate.
Qed.

(** ** Form helpers *)

(** X21. [formatRelativeTime] names the largest unit that has fully elapsed,
    with the number of whole units: days from 24 hours on, hours from 60
    minutes on, minutes from 60 seconds on. Anything more recent than a
    minute, and any date in the future, is "ahora mismo". *)
Theorem formatRelativeTime_units (date now : Z) :
  let diff := now - date in
  formatRelativeTime date now =
  if diff <? 60000 then "ahora mismo"
  else if diff <? 3600000 then ago (diff / 60000) "minuto"
  else if diff <? 86400000 then ago (diff / 3600000) "hora"
  else ago (diff / 86400000) "dia".
Proof.
  intros diff. unfold formatRelativeTime. fold diff. cbv zeta.
  assert (Hm : diff / 1000 / 60 = diff / 60000) by (rewrite Z.div_div by lia; reflexivity).
  assert (Hh : diff / 1000 / 60 / 60 = diff / 3600000) by (rewrite !Z.div_div by lia; reflexivity).
  assert (Hd : diff / 1000 / 60 / 60 / 24 = diff / 86400000) by (rewrite !Z.div_div by lia; reflexivity).
  rewrite Hd, Hh, Hm.
  destruct (Z.ltb_spec diff 60000) as [H1|H1].
  - assert (diff / 86400000 <= 0) by (apply Z.lt_succ_r, Z.div_lt_upper_bound; lia).
    assert (diff / 3600000 <= 0) by (apply Z.lt_succ_r, Z.div_lt_upper_bound; lia).
    assert (diff / 60000 <= 0) by (apply Z.lt_succ_r, Z.div_lt_upper_bound; lia).
    destruct (Z.ltb_spec 0 (diff / 86400000)); [lia |].
    destruct (Z.ltb_spec 0 (diff / 3600000)); [lia |].
    destruct (Z.ltb_spec 0 (diff / 60000)); [lia |]. reflexivity.
  - assert (0 < diff / 60000) by (apply Z.div_str_pos; lia).
    destruct (Z.ltb_spec diff 3600000) as [H2|H2].
    + assert (diff / 86400000 <= 0) by (apply Z.lt_succ_r, Z.div_lt_upper_bound; lia).
      assert (diff / 3600000 <= 0) by (apply Z.lt_succ_r, Z.div_lt_upper_bound; lia).
      destruct (Z.ltb_spec 0 (diff / 86400000)); [lia |].
      destruct (Z.ltb_spec 0 (diff / 3600000)); [lia |].
      destruct (Z.ltb_spec 0 (diff / 60000)); [| lia]. reflexivity.
    + assert (0 < diff / 3600000) by (apply Z.div_str_pos; lia).
      destruct (Z.ltb_spec diff 86400000) as [H3|H3].
      * assert (diff / 86400000 <= 0) by (apply Z.lt_succ_r, Z.div_lt_upper_bound; lia).
        destruct (Z.ltb_spec 0 (diff / 86400000)); [lia |].
        destruct (Z.ltb_spec 0 (diff / 3600000)); [| lia]. reflexivity.
      * assert (0 < diff / 86400000) by (apply Z.div_str_pos; lia).
        destruct (Z.ltb_spec 0 (diff / 86400000)); [| lia]. reflexivity.
Qed.

(** One run of [signup] for an email that is not registered, whatever
    the mail service: the row is appended, and then comes the success
    payload, or the exception of [MailApp.sendEmail]. *)
Lemma signup_run dg refusal data w :
  truthy (Data.email data) = true ->
  truthy (Data.password data) = true ->
  scan (fun r => String.eqb (User.email r) (text (Data.email data))) 1 (users w) = None ->
  exists salt verifyToken,
    let u :=
      User.mk (text (Data.email data)) (or_else (text (Data.username data)) "")
              (hashPassword dg (text (Data.password data)) salt) salt
              (clock w) false verifyToken "" None (clock w) in
    let mail := mkMail (text (Data.email data)) "Confirma tu cuenta - Family6 SaaS" verifyToken in
    let written outbox :=
      mkWorld (users w ++ [u]) (sessions w) (chat_history w) (clock w) (entropy w)
              (cursor w + 32 + 32) outbox in
    Script.handleSignup dg refusal data w =
    match refusal mail with
    | Some e => (Throw e, written (outbox w))
    | None =>
        (Return (Success "Registration successful. Please check your email to verify your account."),
         written (outbox w ++ [mail]))
    end.
Proof.
  intros He Hp Hscan. unfold Script.handleSignup. cbv zeta. rewrite He, Hp. cbn [negb orb].
  rewrite (run_bind _ _ _ _ _ (findUserByEmail_run _ w)), Hscan.
  destruct (generateToken_run 32 w) as (salt & Hsalt & _).
  rewrite (run_bind _ _ _ _ _ Hsalt).
  match type of Hsalt with
  | _ = (_, ?wa) => destruct (generateToken_run 32 wa) as (verifyToken & Htok & _)
  end.
  rewrite (run_bind _ _ _ _ _ Htok).
  exists salt, verifyToken. cbv zeta.
  rewrite (run_bind _ _ _ _ _ (newDate_run _)).
  rewrite (run_bind _ _ _ _ _ (modify_run _ _)).
  unfold Script.sendVerificationEmail, Script.sendEmail.
  destruct (refusal _) as [e|]; [reflexivity |].
  rewrite (run_bind _ _ _ _ _ (deliver_run _ _)). reflexivity.
Qed.

Lemma resetPassword_too_short dg data w :
  truthy (Data.token data) = true ->
  truthy (Data.newPassword data) = true ->
  (String.length (text (Data.newPassword data)) < 8)%nat ->
  handleResetPassword dg data w =
  (Return (Error "Password must be at least 8 characters"), w).
Proof.
  intros Ht Hp Hlen. unfold handleResetPassword. cbv zeta. rewrite Ht, Hp. cbn [negb orb].
  apply Nat.ltb_lt in Hlen. now rewrite Hlen.
Qed.

Lemma updatePassword_too_short dg data w :
  truthy (Data.token data) = true ->
  truthy (Data.newPassword data) = true ->
  (String.length (text (Data.newPassword data)) < 8)%nat ->
  handleUpdatePassword dg data w =
  (Return (Error "Password must be at least 8 characters"), w).
Proof.
  intros Ht Hp Hlen. unfold handleUpdatePassword. cbv zeta. rewrite Ht, Hp. cbn [negb orb].
  apply Nat.ltb_lt in Hlen. now rewrite Hlen.
Qed.

Lemma resetPassword_long_enough dg data w out w' :
  (8 <= String.length (text (Data.newPassword data)))%nat ->
  handleResetPassword dg data w = (out, w') ->
  out <> Return (Error "Password must be at least 8 characters").
Proof.
  intros Hlen H. unfold handleResetPassword in H. cbv zeta in H.
  destruct (negb (truthy (Data.token data)) || negb (truthy (Data.newPassword data)));
    [inversion H; discriminate |].
  destruct (Nat.ltb_spec (String.length (text (Data.newPassword data))) 8); [lia |].
  exec H; inversion H; discriminate.
Qed.

Lemma updatePassword_long_enough dg data w out w' :
  (8 <= String.length (text (Data.newPassword data)))%nat ->
  handleUpdatePassword dg data w = (out, w') ->
  out <> Return (Error "Password must be at least 8 characters").
Proof.
  intros Hlen H. unfold handleUpdatePassword in H. cbv zeta in H.
  destruct (negb (truthy (Data.token data)) || negb (truthy (Data.newPassword data)));
    [inversion H; discriminate |].
  destruct (Nat.ltb_spec (String.length (text (Data.newPassword data))) 8); [lia |].
  exec H; inversion H; discriminate.
Qed.

Lemma password_required dg token p w :
  String.eqb token "" || String.eqb p "" = true ->
  handleResetPassword dg (request_reset token p) w =
    (Return (Error "Token and new password are required"), w) /\
  handleUpdatePassword dg (request_reset token p) w =
    (Return (Error "Token and new password are required"), w).
Proof.
  intros H. unfold handleResetPassword, handleUpdatePassword. cbv zeta.
  cbn [request_reset Data.token Data.newPassword truthy]. rewrite !negb_involutive, H.
  split; reflexivity.
Qed.

(** X22. The rule of 8 characters. A new password that the form's
    [validatePassword] turns down is turned down by [resetPassword] and
    [updatePassword] too, with nothing written: with "Password must be at
    least 8 characters", or with "Token and new password are required"
    when the token or the password is empty. One that the form accepts is
    never answered with "Password must be at least 8 characters".
    [signup] has no such check: for an email that is not empty and not
    registered, the backend appends the row with the hash of any password
    that is not empty, whatever [validatePassword] says of it; the answer
    is the success payload when [MailApp.sendEmail] accepts the mail with
    the verify_token, and the exception of [MailApp.sendEmail] when it
    does not. *)
Theorem password_length_rule dg (token p : string) (w : World) :
  (isValid (validatePassword p) = false ->
   let e :=
     if String.eqb token "" || String.eqb p "" then "Token and new password are required"
     else "Password must be at least 8 characters" in
   handleResetPassword dg (request_reset token p) w = (Return (Error e), w) /\
   handleUpdatePassword dg (request_reset token p) w = (Return (Error e), w)) /\
  (isValid (validatePassword p) = true ->
   fst (handleResetPassword dg (request_reset token p) w)
     <> Return (Error "Password must be at least 8 characters") /\
   fst (handleUpdatePassword dg (request_reset token p) w)
     <> Return (Error "Password must be at least 8 characters")) /\
  (forall refusal email username,
     email <> "" -> p <> "" -> finds_nothing (findUserByEmail email) w ->
     exists u w1,
       users w1 = users w ++ [u] /\ User.email u = email /\
       User.password_hash u = hashPassword dg p (User.salt u) /\
       Script.handleSignup dg refusal (request_signup email p username) w =
       (match refusal (mkMail email "Confirma tu cuenta - Family6 SaaS" (User.verify_token u)) with
        | None =>
            Return (Success "Registration successful. Please check your email to verify your account.")
        | Some e => Throw e
        end, w1)).
Proof.
  assert (Hsignup : forall refusal email username,
     email <> "" -> p <> "" -> finds_nothing (findUserByEmail email) w ->
     exists u w1,
       users w1 = users w ++ [u] /\ User.email u = email /\
       User.password_hash u = hashPassword dg p (User.salt u) /\
       Script.handleSignup dg refusal (request_signup email p username) w =
       (match refusal (mkMail email "Confirma tu cuenta - Family6 SaaS" (User.verify_token u)) with
        | None =>
            Return (Success "Registration successful. Please check your email to verify your account.")
        | Some e => Throw e
        end, w1)).
  { intros refusal email username He Hp Hnone. apply finds_no_user_by_email in Hnone.
    destruct (signup_run dg refusal (request_signup email p username) w
                (truthy_Some _ He) (truthy_Some _ Hp) Hnone)
      as (salt & verifyToken & Hrun).
    cbv zeta in Hrun. cbn [request_signup Data.email Data.password Data.username text] in Hrun.
    exists (User.mk email (or_else username "") (hashPassword dg p salt) salt
                    (clock w) false verifyToken "" None (clock w)).
    cbn [User.verify_token User.email User.password_hash User.salt].
    destruct (refusal _) as [e|];
      match type of Hrun with
      | _ = (_, ?w1) => exists w1
      end; (split; [reflexivity |]); (split; [reflexivity |]); (split; [reflexivity |]);
      exact Hrun. }
  unfold validatePassword.
  destruct (Nat.ltb_spec (String.length p) 8) as [Hlen|Hlen]; cbn [isValid].
  - split; [intros _ | split; [discriminate | exact Hsignup]].
    cbv zeta. destruct (String.eqb token "" || String.eqb p "") eqn:E.
    + apply password_required, E.
    + apply orb_false_elim in E. destruct E as [Et Ep].
      apply String.eqb_neq in Et, Ep.
      split; [apply resetPassword_too_short | apply updatePassword_too_short];
        try (apply truthy_Some; assumption); exact Hlen.
  - split; [discriminate | split; [intros _ | exact Hsignup]].
    split.
    + destruct (handleResetPassword dg (request_reset token p) w) as [out w'] eqn:H.
      eapply resetPassword_long_enough; [| exact H]. exact Hlen.
    + destruct (handleUpdatePassword dg (request_reset token p) w) as [out w'] eqn:H.
      eapply updatePassword_long_enough; [| exact H]. exact Hlen.
Qed.

(** ** Route protection *)

Lemma endsWith_refl s : endsWith s s = true.
Proof. destruct s; cbn; [reflexivity | now rewrite Ascii.eqb_refl, String.eqb_refl]. Qed.

(** Two suffixes of one text: one is a suffix of the other. *)
Lemma endsWith_both s a b :
  endsWith s a = true -> endsWith s b = true ->
  endsWith a b = true \/ endsWith b a = true.
Proof.
  induction s as [|c s IH]; intros Ha Hb.
  - cbn [endsWith] in Ha, Hb. rewrite orb_false_r in Ha, Hb.
    apply String.eqb_eq in Ha, Hb. subst. left. reflexivity.
  - cbn [endsWith] in Ha, Hb.
    apply orb_prop in Ha. apply orb_prop in Hb.
    destruct Ha as [Ha | Ha], Hb as [Hb | Hb].
    + apply String.eqb_eq in Ha, Hb. subst. left. apply endsWith_refl.
    + apply String.eqb_eq in Ha. subst a. left.
      cbn [endsWith]. rewrite Hb. apply orb_true_r.
    + apply String.eqb_eq in Hb. subst b. right.
      cbn [endsWith]. rewrite Ha. apply orb_true_r.
    + exact (IH Ha Hb).
Qed.

Lemma route_matches path routes :
  existsb (fun route => endsWith path route || String.eqb path route) routes = true ->
  exists route, In route routes /\ endsWith path route = true.
Proof.
  intros H. apply existsb_exists in H. destruct H as (route & Hin & H).
  exists route. split; [exact Hin |].
  apply orb_prop in H. destruct H as [H | H]; [exact H |].
  apply String.eqb_eq in H. subst. apply endsWith_refl.
Qed.

Lemma no_route_is_both path :
  isProtectedRoute path && isAuthRoute path = false.
Proof.
  destruct (isProtectedRoute path) eqn:Hp; [| reflexivity].
  destruct (isAuthRoute path) eqn:Ha; [| reflexivity]. exfalso.
  apply route_matches in Hp. apply route_matches in Ha.
  destruct Hp as (r1 & H1 & E1), Ha as (r2 & H2 & E2).
  destruct (endsWith_both path r1 r2 E1 E2) as [H | H];
    cbn in H1, H2;
    repeat match goal with
           | H : _ \/ _ |- _ => destruct H
           | H : False |- _ => destruct H
           end; subst; vm_compute in H; discriminate H.
Qed.

(** X23. No page counts both as a protected page and as a login or register
    page, so [initRouteProtection] can apply one rule only; and the page
    it redirects to is one it lets through: the login page without a
    session, the dashboard with one. The route protection cannot send the
    browser round in circles. *)
Theorem initRouteProtection_settles (currentPath : string) (session : bool) :
  isProtectedRoute currentPath && isAuthRoute currentPath = false /\
  forall target,
    fst (initRouteProtection currentPath session) = Some target ->
    initRouteProtection target session = (None, true).
Proof.
  split; [apply no_route_is_both |].
  intros target. unfold initRouteProtection.
  destruct (isProtectedRoute currentPath && negb session) eqn:Hp.
  - intros [= <-]. apply andb_prop in Hp. destruct Hp as [_ Hs].
    destruct session; [discriminate Hs | reflexivity].
  - destruct (isAuthRoute currentPath && session) eqn:Ha; [| discriminate].
    intros [= <-]. apply andb_prop in Ha. destruct Ha as [_ ->]. reflexivity.
Qed.

(** ** The session store of the pages *)

Lemma apiRequest_cases parse response :
  (exists message, Api.apiRequest parse response = Api.failure message) \/
  (exists result,
     Api.apiRequest parse response = Api.mk (Some result) None /\
     accepted parse response result).
Proof.
  unfold Api.apiRequest. destruct response as [e | ok status body]; [left; eauto |].
  destruct ok; cbn [negb]; [| left; eauto].
  destruct (parse body) as [result|] eqn:Hp; [| left; eauto].
  destruct (get result "error") as [e|e] eqn:Hg; [| left; eauto].
  destruct (truthy_json e) eqn:He; [left; eauto |].
  right. exists result. split; [reflexivity |]. exists status, body, e. auto.
Qed.

Lemma token_needs_session parse item token :
  Api.getSessionToken parse item = Some token ->
  truthy_json (Some token) = true /\
  exists session,
    Api.getStoredSession parse item = Some session /\
    truthy_json (Some session) = true /\
    Api.prop (Some session) "token" = Some token.
Proof.
  unfold Api.getSessionToken.
  destruct (truthy_json (Api.prop (Api.getStoredSession parse item) "token")) eqn:Ht;
    [| discriminate].
  intros E. rewrite E in Ht. split; [exact Ht |].
  destruct (Api.getStoredSession parse item) as [session|]; [| discriminate E].
  exists session. split; [reflexivity |]. split; [| exact E].
  destruct session; try discriminate E. reflexivity.
Qed.

Lemma no_session_no_token parse item :
  truthy_json (Api.getStoredSession parse item) = false ->
  Api.getSessionToken parse item = None.
Proof.
  intros H. destruct (Api.getSessionToken parse item) as [token|] eqn:E; [| reflexivity].
  apply token_needs_session in E. destruct E as (_ & session & Hs & Ht & _).
  rewrite Hs in H. congruence.
Qed.

Lemma token_of_object token user expiresAt :
  Api.prop (Some (Api.object_of [("token", Some token); ("user", user);
                                 ("expiresAt", expiresAt)])) "token" = Some token.
Proof. destruct user, expiresAt; reflexivity. Qed.

Lemma getSession_cases parse response item :
  (exists session token result,
     Auth.getSession parse response item = (Some session, item) /\
     accepted parse response result /\
     Api.getSessionToken parse item = Some token /\
     Api.prop (Some session) "token" = Some token) \/
  (exists item',
     Auth.getSession parse response item = (None, item') /\
     Api.getSessionToken parse item' = None).
Proof.
  unfold Auth.getSession.
  destruct (truthy_json (Api.getStoredSession parse item)) eqn:Hs; cbn [negb].
  2:{ right. exists item. split; [reflexivity |]. now apply no_session_no_token. }
  unfold Api.validateSession.
  destruct (Api.getSessionToken parse item) as [token|] eqn:Ht.
  2:{ right. exists None. split; reflexivity. }
  destruct (apiRequest_cases parse response) as [(message & ->) | (result & -> & Hacc)].
  { right. exists None. split; reflexivity. }
  left. cbn [Api.error Api.data].
  destruct (token_needs_session _ _ _ Ht) as (_ & session & Hsession & _ & Htoken).
  rewrite Hsession, Htoken.
  eexists _, token, result. split; [reflexivity |]. split; [exact Hacc |].
  split; [reflexivity |]. apply token_of_object.
Qed.

(** X24. [getSession()] reports a session only when the stored session has a
    token and the backend's answer to its validation arrived, was read
    and carries no error; the session it reports has the stored token,
    and the store is left as it was. In every other case (nothing
    stored, a stored text that cannot be read or has no token, the
    backend unreachable, an answer that is no JSON or carries an error)
    it reports no session and leaves the page without a session token. *)
Theorem getSession_validated parse (response : Fetched) (item : option string) :
  match Auth.getSession parse response item with
  | (Some session, item') =>
      item' = item /\
      (exists result, accepted parse response result) /\
      exists token,
        Api.getSessionToken parse item = Some token /\
        Api.prop (Some session) "token" = Some token
  | (None, item') => Api.getSessionToken parse item' = None
  end.
Proof.
  destruct (getSession_cases parse response item)
    as [(session & token & result & -> & Hacc & Ht & Hs) | (item' & -> & Hnone)].
  - split; [reflexivity |]. split; [exists result; exact Hacc |]. exists token. auto.
  - exact Hnone.
Qed.

(** X25. A protected page is let through by [initRouteProtection] only when
    the backend has accepted the stored token in this very page load;
    otherwise the browser is sent to the login page and the page is left
    without a session token. *)
Theorem protected_page_needs_session parse (currentPath : string)
    (response : Fetched) (item : option string) :
  isProtectedRoute currentPath = true ->
  let (session, item') := Auth.getSession parse response item in
  if snd (initRouteProtection currentPath (has_session session)) then
    item' = item /\ (exists result, accepted parse response result) /\
    exists token, Api.getSessionToken parse item = Some token
  else
    initRouteProtection currentPath (has_session session) = (Some LOGIN, false) /\
    Api.getSessionToken parse item' = None.
Proof.
  intros Hp. unfold initRouteProtection. rewrite Hp. cbn [andb].
  destruct (getSession_cases parse response item)
    as [(session & token & result & -> & Hacc & Ht & Hs) | (item' & -> & Hnone)];
    cbn [has_session negb].
  - pose proof (no_route_is_both currentPath) as Hboth. rewrite Hp in Hboth.
    cbn [andb] in Hboth. rewrite Hboth. cbn [andb snd].
    split; [reflexivity |]. split; [exists result; exact Hacc |]. exists token. exact Ht.
  - cbn [snd]. split; [reflexivity | exact Hnone].
Qed.

Lemma validateSession_without_token parse response item :
  Api.getSessionToken parse item = None ->
  Api.validateSession parse response item = (Api.failure (JStr "No session token"), item).
Proof. intros H. unfold Api.validateSession. now rewrite H. Qed.

Lemma with_token_without_token parse response item :
  Api.getSessionToken parse item = None ->
  Api.with_token parse response item = Api.failure (JStr "No session token").
Proof. intros H. unfold Api.with_token. now rewrite H. Qed.

Lemma getUser_without_token parse stringify response item :
  Api.getSessionToken parse item = None ->
  Api.getUser parse stringify response item = (Api.failure (JStr "No session token"), item).
Proof. intros H. unfold Api.getUser. now rewrite H. Qed.

Lemma validateSession_failed parse response item :
  Api.error (fst (Api.validateSession parse response item)) <> None ->
  Api.getSessionToken parse (snd (Api.validateSession parse response item)) = None.
Proof.
  unfold Api.validateSession.
  destruct (Api.getSessionToken parse item) as [token|] eqn:Ht; cbn [fst snd].
  - destruct (Api.error (Api.apiRequest parse response)) eqn:E; cbn [fst snd];
      intros H; [reflexivity | congruence].
  - intros _. exact Ht.
Qed.

(** X26. After [logout()], and after a [validateSession()] that came back with
    an error of any kind (the backend unreachable included), the page
    has no session token: [validateSession], [updatePassword],
    [updateProfile] and [getUser] then answer "No session token" and
    leave the store alone, whatever the backend would say. *)
Theorem logged_out_after parse stringify (response : Fetched) (item item' : option string) :
  item' = snd (Api.logout response item) \/
  (item' = snd (Api.validateSession parse response item) /\
   Api.error (fst (Api.validateSession parse response item)) <> None) ->
  Api.getSessionToken parse item' = None /\
  forall response',
    Api.validateSession parse response' item' =
      (Api.failure (JStr "No session token"), item') /\
    Api.with_token parse response' item' = Api.failure (JStr "No session token") /\
    Api.getUser parse stringify response' item' =
      (Api.failure (JStr "No session token"), item').
Proof.
  intros H.
  assert (Hnone : Api.getSessionToken parse item' = None).
  { destruct H as [-> | [-> H]]; [reflexivity | now apply validateSession_failed]. }
  split; [exact Hnone |]. intros response'.
  split; [now apply validateSession_without_token |].
  split; [now apply with_token_without_token | now apply getUser_without_token].
Qed.

Lemma stored_object parse text session :
  text <> "" -> parse text = Some session -> truthy_json (Some session) = true ->
  Api.getStoredSession parse (Some text) = Some session.
Proof.
  intros Hne Hp Ht. unfold Api.getStoredSession.
  apply String.eqb_neq in Hne. rewrite Hne, Hp.
  destruct session; try reflexivity. discriminate Ht.
Qed.

Lemma accepted_request parse response result :
  accepted parse response result ->
  Api.apiRequest parse response = Api.mk (Some result) None.
Proof.
  intros (status & body & e & -> & Hp & Hg & He).
  unfold Api.apiRequest. cbn [negb]. now rewrite Hp, Hg, He.
Qed.

Lemma truthy_prop result key :
  truthy_json (Api.prop (Some result) key) = true -> truthy_json (Some result) = true.
Proof. destruct result; try discriminate. reflexivity. Qed.

(** X27. A [login()] whose answer is accepted and carries a token stores the
    session; if the stored text reads back as what was written (and the
    empty text is no JSON), [getSessionToken()] then returns the token of
    the answer. Whatever comes back, [login] touches the store in no
    other case. *)
Theorem login_stores_token parse stringify (response : Fetched) (item : option string)
    (result token : json) :
  parse "" = None ->
  accepted parse response result ->
  Api.prop (Some result) "token" = Some token ->
  truthy_json (Some token) = true ->
  let saved :=
    Api.object_of [("token", Some token); ("user", Api.prop (Some result) "user");
                   ("expiresAt", Api.prop (Some result) "expiresAt")] in
  parse (stringify saved) = Some saved ->
  Api.login parse stringify response item
    = (Api.mk (Some result) None, Some (stringify saved)) /\
  Api.getSessionToken parse (Some (stringify saved)) = Some token /\
  forall response',
    snd (Api.login parse stringify response' item) = item \/
    exists result',
      accepted parse response' result' /\
      truthy_json (Api.prop (Some result') "token") = true.
Proof.
  intros Hempty Hacc Htoken Htruthy saved Hround.
  split; [| split].
  - unfold Api.login. rewrite (accepted_request _ _ _ Hacc). cbn [Api.data].
    rewrite Htoken, Htruthy.
    assert (Hr : truthy_json (Some result) = true).
    { apply (truthy_prop result "token"). now rewrite Htoken. }
    rewrite Hr. cbn [andb]. unfold Api.saveSession. reflexivity.
  - assert (Hne : stringify saved <> "").
    { intros E. rewrite E, Hempty in Hround. discriminate Hround. }
    unfold Api.getSessionToken.
    rewrite (stored_object parse (stringify saved) saved Hne Hround eq_refl).
    unfold saved. rewrite token_of_object. now rewrite Htruthy.
  - intros response'. unfold Api.login.
    destruct (apiRequest_cases parse response') as [(message & ->) | (result' & -> & Hacc')].
    + left. reflexivity.
    + cbn [Api.data].
      destruct (truthy_json (Api.prop (Some result') "token")) eqn:Ht.
      * right. exists result'. auto.
      * left. rewrite andb_false_r. reflexivity.
Qed.

Lemma field_app_same key v (fields : list (string * json)) :
  field key (fields ++ [(key, v)]) = Some v.
Proof.
  induction fields as [|[k x] fields IH]; cbn [app field].
  - now rewrite String.eqb_refl.
  - now rewrite IH.
Qed.

Lemma field_app_other key key' v (fields : list (string * json)) :
  key' <> key -> field key' (fields ++ [(key, v)]) = field key' fields.
Proof.
  intros Hne. induction fields as [|[k x] fields IH]; cbn [app field].
  - apply String.eqb_neq in Hne. rewrite String.eqb_sym. now rewrite Hne.
  - now rewrite IH.
Qed.

Lemma field_replace_none key v (fields : list (string * json)) :
  existsb (fun kv => String.eqb (fst kv) key) fields = false ->
  field key (map (fun kv => if String.eqb (fst kv) key then (fst kv, v) else kv) fields)
    = None.
Proof.
  induction fields as [|[k x] fields IH]; cbn [existsb map field fst]; [reflexivity |].
  intros H. apply orb_false_elim in H. destruct H as [Hk Hl].
  rewrite Hk. cbn [field]. now rewrite (IH Hl), Hk.
Qed.

Lemma field_replace_same key v (fields : list (string * json)) :
  existsb (fun kv => String.eqb (fst kv) key) fields = true ->
  field key (map (fun kv => if String.eqb (fst kv) key then (fst kv, v) else kv) fields)
    = Some v.
Proof.
  induction fields as [|[k x] fields IH]; cbn [existsb map field fst]; [discriminate |].
  destruct (existsb (fun kv => String.eqb (fst kv) key) fields) eqn:E.
  - intros _. destruct (String.eqb k key); cbn [field]; now rewrite (IH eq_refl).
  - rewrite orb_false_r. intros Hk. rewrite Hk. cbn [field].
    now rewrite (field_replace_none key v fields E), Hk.
Qed.

Lemma field_replace_other key key' v (fields : list (string * json)) :
  key' <> key ->
  field key' (map (fun kv => if String.eqb (fst kv) key then (fst kv, v) else kv) fields)
    = field key' fields.
Proof.
  intros Hne. induction fields as [|[k x] fields IH]; cbn [map field fst]; [reflexivity |].
  destruct (String.eqb_spec k key) as [->|Hk]; cbn [field]; rewrite IH; [| reflexivity].
  destruct (field key' fields); [reflexivity |].
  apply not_eq_sym, String.eqb_neq in Hne. now rewrite Hne.
Qed.

Lemma prop_set_prop_same key v session :
  truthy_json (Api.prop (Some session) "token") = true ->
  Api.prop (Some (Api.set_prop key v session)) key = Some v.
Proof.
  destruct session; try discriminate. intros _. cbn [Api.set_prop Api.prop].
  unfold Api.set_field.
  destruct (existsb (fun kv => String.eqb (fst kv) key) fields) eqn:E.
  - now apply field_replace_same.
  - apply field_app_same.
Qed.

Lemma prop_set_prop_other key key' v session :
  key' <> key ->
  Api.prop (Some (Api.set_prop key v session)) key' = Api.prop (Some session) key'.
Proof.
  intros Hne. destruct session; try reflexivity. cbn [Api.set_prop Api.prop].
  unfold Api.set_field.
  destruct (existsb (fun kv => String.eqb (fst kv) key) fields).
  - now apply field_replace_other.
  - now apply field_app_other.
Qed.

(** X28. [getUser()] never loses the session token: whatever comes back, the
    page has the same token afterwards (the store reading back what was
    written into it, and the empty text being no JSON); and when the
    answer is accepted and carries a user, that user is the stored one
    from then on. *)
Theorem getUser_keeps_token parse stringify (response : Fetched) (item : option string)
    (token : json) :
  parse "" = None ->
  Api.getSessionToken parse item = Some token ->
  (forall session result user,
     Api.getStoredSession parse item = Some session ->
     accepted parse response result ->
     Api.prop (Some result) "user" = Some user ->
     parse (stringify (Api.set_prop "user" user session))
       = Some (Api.set_prop "user" user session)) ->
  Api.getSessionToken parse (snd (Api.getUser parse stringify response item)) = Some token /\
  forall result user,
    accepted parse response result ->
    Api.prop (Some result) "user" = Some user ->
    truthy_json (Some user) = true ->
    Api.prop (Api.getStoredSession parse (snd (Api.getUser parse stringify response item)))
             "user" = Some user.
Proof.
  intros Hempty Htoken Hround.
  destruct (token_needs_session _ _ _ Htoken) as (Htruthy & session & Hsession & Hs & Hprop).
  assert (Htok : truthy_json (Api.prop (Some session) "token") = true)
    by now rewrite Hprop.
  unfold Api.getUser. rewrite Htoken.
  destruct (apiRequest_cases parse response) as [(message & Hreq) | (result & Hreq & Hacc)];
    rewrite Hreq; cbn [Api.data].
  - cbn [Api.failure Api.data truthy_json andb snd].
    split; [exact Htoken |]. intros result user Hacc.
    rewrite (accepted_request _ _ _ Hacc) in Hreq. discriminate Hreq.
  - assert (Hsame : forall result', accepted parse response result' -> result' = result).
    { intros result' Hacc'. rewrite (accepted_request _ _ _ Hacc') in Hreq.
      now injection Hreq. }
    destruct (truthy_json (Some result) && truthy_json (Api.prop (Some result) "user"))
      eqn:Hu.
    + apply andb_prop in Hu. destruct Hu as [_ Hu].
      destruct (Api.prop (Some result) "user") as [user|] eqn:Huser; [| discriminate Hu].
      rewrite Hsession, Hs. cbn [default snd]. unfold id.
      set (updated := Api.set_prop "user" user session).
      assert (Hup : truthy_json (Some updated) = true).
      { subst updated. destruct session; try discriminate Htok. reflexivity. }
      unfold Api.saveSession. rewrite Hup.
      specialize (Hround session result user Hsession Hacc Huser). fold updated in Hround.
      assert (Hne : stringify updated <> "").
      { intros E. rewrite E, Hempty in Hround. discriminate Hround. }
      assert (Hstored : Api.getStoredSession parse (Some (stringify updated)) = Some updated)
        by (apply stored_object; assumption).
      split.
      * unfold Api.getSessionToken. rewrite Hstored. unfold updated.
        rewrite prop_set_prop_other by discriminate. now rewrite Hprop, Htruthy.
      * intros result' user' Hacc' Huser' _. rewrite Hstored.
        rewrite (Hsame _ Hacc') in Huser'. rewrite Huser in Huser'.
        injection Huser' as <-. unfold updated. now apply prop_set_prop_same.
    + cbn [snd]. split; [exact Htoken |]. intros result' user' Hacc' Huser' Htr.
      rewrite (Hsame _ Hacc') in Huser'. rewrite Huser' in Hu.
      assert (truthy_json (Some result) = true).
      { apply (truthy_prop result "user"). now rewrite Huser'. }
      rewrite H, Htr in Hu. discriminate Hu.
Qed.

(** ** Links that lead back to the app *)

Lemma split_on_none sep s part :
  ~ In sep (list_ascii_of_string s) -> split_on sep s part = [part +:+ s].
Proof.
  revert part. induction s as [|c s IH]; intros part Hs; cbn [split_on].
  - now rewrite append_empty_r.
  - cbn in Hs. destruct (Ascii.eqb_spec c sep) as [->|_]; [tauto |].
    rewrite IH by tauto. rewrite append_assoc. reflexivity.
Qed.

Lemma token_has_no_separator token :
  made_of chars token -> ~ In "&"%char (list_ascii_of_string token).
Proof.
  unfold made_of. intros H Hin. rewrite Forall_forall in H.
  apply list_elem_of_In, H in Hin. vm_compute in Hin.
  repeat (destruct Hin as [Hin | Hin]; [discriminate Hin |]). exact Hin.
Qed.

Lemma reset_link_params token :
  token <> "" -> made_of chars token ->
  URLSearchParams (resetUrl token) = [("token", token)].
Proof.
  intros Hne Hmade. unfold URLSearchParams, resetUrl.
  change (after_first "?" (APP_URL +:+ "/update-password.html?token=" +:+ token))
    with ("token=" +:+ token).
  rewrite split_on_none.
  - cbn [List.filter]. change ("" +:+ ("token=" +:+ token)) with ("token=" +:+ token).
    change (String.eqb ("token=" +:+ token) "") with false. cbn [negb map].
    reflexivity.
  - change (list_ascii_of_string ("token=" +:+ token))
      with (list_ascii_of_string "token=" ++ list_ascii_of_string token).
    intros Hin. apply in_app_or in Hin. destruct Hin as [Hin | Hin].
    + vm_compute in Hin. repeat (destruct Hin as [Hin | Hin]; [discriminate Hin |]).
      exact Hin.
    + exact (token_has_no_separator token Hmade Hin).
Qed.

(** X29. Every token that [generateToken] can make survives the link of the
    reset mail: on the page the link opens, [handleAuthCallback] finds
    that very token, reports a password reset and puts the token into
    [sessionStorage]. *)
Theorem reset_link_is_understood (describe : string -> string) (length : nat)
    (w : World) (reset_token : option string) :
  length <> 0%nat ->
  exists token w',
    generateToken length w = (Return token, w') /\
    handleAuthCallback describe (URLSearchParams (resetUrl token)) reset_token =
    (mkCallback (Some (HasResetToken token)) None (Some "password_reset"), Some token).
Proof.
  intros Hlen. destruct (generateToken_run length w) as (token & Hrun & Hl & Hmade).
  exists token. eexists. split; [exact Hrun |].
  assert (Hne : token <> "").
  { intros ->. cbn in Hl. congruence. }
  rewrite (reset_link_params token Hne Hmade).
  unfold handleAuthCallback, searchParam. cbn [own]. cbn [String.eqb Ascii.eqb Bool.eqb].
  cbn [truthy text]. apply String.eqb_neq in Hne. now rewrite Hne.
Qed.

Lemma confirmEmail_pages token w :
  exists page w',
    handleConfirmEmail token w = (Return page, w') /\
    (page = confirm_success \/ page = confirm_invalid_token \/
     page = confirm_already_verified).
Proof.
  unfold handleConfirmEmail.
  rewrite (run_bind _ _ _ _ _ (findUserByVerifyToken_run _ w)).
  destruct (scan _ 1 (users w)) as [[row user]|].
  - destruct (User.verified user).
    + eexists _, _. split; [reflexivity |]. right. right. reflexivity.
    + assert (H : exists w', 
        (run updateUserField (User.email user) (F_verified true) in
         run updateUserField (User.email user) (F_verify_token "") in
         let* now := newDate in
         run updateUserField (User.email user) (F_updated_at now) in
         ret confirm_success) w = (Return confirm_success, w')).
      { do 2 (apply bind_answers; [apply returns_updateUserField |]; intros ? ?).
        apply bind_answers; [unfold newDate; apply returns_gets |]. intros now ?.
        apply bind_answers; [apply returns_updateUserField |]. intros ? ?.
        eexists. reflexivity. }
      destruct H as (w' & H). exists confirm_success, w'. split; [exact H |]. now left.
  - eexists _, _. split; [reflexivity |]. right. left. reflexivity.
Qed.

(** X30. Whatever [doGet] answers to a confirmation link, the page it sends
    the browser to is one that [handleAuthCallback] understands: after a
    confirmation it reports the confirmed email, and otherwise the
    message written for that very error, never the catch-all "Error en
    la confirmacion."; [sessionStorage] is left alone. *)
Theorem confirm_link_is_understood (describe : string -> string) (token : string)
    (w : World) (reset_token : option string) :
  token <> "" ->
  exists page w',
    doGet (Some "confirmEmail") (Some token) w = (Return page, w') /\
    let answer :=
      handleAuthCallback describe (URLSearchParams (redirect_of page)) reset_token in
    snd answer = reset_token /\
    ((page = confirm_success /\
      fst answer = mkCallback (Some Confirmed) None (Some "email_confirm")) \/
     (page = confirm_invalid_token /\
      fst answer =
        mkCallback None (Some "El enlace de confirmacion es invalido o ha expirado.") None) \/
     (page = confirm_already_verified /\
      fst answer =
        mkCallback None (Some "Esta cuenta ya fue verificada anteriormente.") None)).
Proof.
  intros Hne. unfold doGet. rewrite String.eqb_refl, (truthy_Some _ Hne). cbn [andb text].
  destruct (confirmEmail_pages token w) as (page & w' & Hrun & Hpage).
  exists page, w'. split; [exact Hrun |]. cbv zeta.
  destruct Hpage as [-> | [-> | ->]].
  - split; [reflexivity |]. left. split; reflexivity.
  - split; [reflexivity |]. right. left. split; reflexivity.
  - split; [reflexivity |]. right. right. split; reflexivity.
Qed.

(** ** The answer "already_verified"

    No request leaves a verified row with a verify_token: [signup] appends
    rows that are not verified, [confirmEmail] blanks the token of the row
    it verifies, and no other handler writes to either column. The branch
    of [handleConfirmEmail] written for a verified row is therefore never
    taken in a sheet that the handlers have filled. *)

Lemma consumed_marks w w' : marks w' = marks w -> consumed w -> consumed w'.
Proof.
  unfold consumed, marks. intros Hm Hc.
  assert (H : forall l l' : list User.t,
    map (fun u => (User.verified u, User.verify_token u)) l'
      = map (fun u => (User.verified u, User.verify_token u)) l ->
    Forall (fun u => User.verified u = true -> User.verify_token u = "") l ->
    Forall (fun u => User.verified u = true -> User.verify_token u = "") l').
  { clear. induction l as [|x l IH]; intros [|x' l'] E Hl; try discriminate E;
      constructor; cbn [map] in E; injection E as Ev Et El.
    - inversion Hl; subst. rewrite Ev, Et. assumption.
    - inversion Hl; subst. now apply IH. }
  exact (H _ _ Hm Hc).
Qed.

Lemma setValue_marks f u :
  colMap f <> 6%nat -> colMap f <> 7%nat ->
  User.verified (setValue f u) = User.verified u /\
  User.verify_token (setValue f u) = User.verify_token u.
Proof. destruct f; cbn; intros; try congruence; split; reflexivity. Qed.

Lemma setCell_marks row f (l : list User.t) :
  colMap f <> 6%nat -> colMap f <> 7%nat ->
  map (fun u => (User.verified u, User.verify_token u)) (setCell row f l)
  = map (fun u => (User.verified u, User.verify_token u)) l.
Proof.
  intros H6 H7. unfold setCell. generalize (row - 2)%nat as k.
  induction l as [|u l IH]; intros [|k]; cbn; try reflexivity.
  - destruct (setValue_marks f u H6 H7) as [-> ->]. reflexivity.
  - f_equal. apply IH.
Qed.

Lemma keeps_updateUserField_marks e f :
  colMap f <> 6%nat -> colMap f <> 7%nat -> keeps marks (updateUserField e f).
Proof.
  intros H6 H7 w out w' H. rewrite updateUserField_run in H. inversion H; subst.
  destruct (scan _ 1 (users w)) as [[row u]|]; [| reflexivity].
  unfold marks. cbn [set_users users]. now apply setCell_marks.
Qed.

Ltac keeps_marks_step :=
  lazymatch goal with
  | |- keeps marks (updateUserField _ _) =>
      apply keeps_updateUserField_marks; discriminate
  | |- _ => keeps_step
  end.

Ltac keeps_marks := cbv zeta; repeat keeps_marks_step.

Lemma handlers_keep_marks dg refusal zone header action data :
  String.eqb action "signup" = false ->
  keeps marks (Script.dispatch dg refusal zone header action data).
Proof.
  intros Hs. unfold Script.dispatch. rewrite Hs.
  repeat match goal with
         | |- keeps _ (if ?c then _ else _) => destruct c
         end.
  - unfold handleLogin. keeps_marks.
  - unfold handleValidateSession. keeps_marks.
  - unfold handleLogout. keeps_marks.
  - unfold Script.handleRequestReset. keeps_marks.
  - unfold handleResetPassword. keeps_marks.
  - unfold handleUpdatePassword. keeps_marks.
  - unfold handleUpdateProfile. keeps_marks.
  - unfold handleGetUser. keeps_marks.
  - unfold handleSaveChatMessage. keeps_marks.
  - unfold handleGetChatHistory. keeps_marks.
  - unfold Script.handleGetChatStats. keeps_marks.
  - keeps_marks.
Qed.

Lemma signup_consumed dg refusal data w out w' :
  Script.handleSignup dg refusal data w = (out, w') -> consumed w -> consumed w'.
Proof.
  intros H Hc.
  destruct (truthy (Data.email data)) eqn:He;
    [| unfold Script.handleSignup in H; rewrite He in H; now inversion H; subst].
  destruct (truthy (Data.password data)) eqn:Hp;
    [| unfold Script.handleSignup in H; rewrite He, Hp in H; now inversion H; subst].
  destruct (scan (fun r => String.eqb (User.email r) (text (Data.email data))) 1 (users w))
    as [[row user]|] eqn:Hscan.
  - unfold Script.handleSignup in H. rewrite He, Hp in H. cbn [negb orb] in H.
    rewrite (run_bind _ _ _ _ _ (findUserByEmail_run _ w)), Hscan in H.
    now inversion H; subst.
  - destruct (signup_run dg refusal data w He Hp Hscan) as (salt & verifyToken & Hrun).
    cbv zeta in Hrun. rewrite Hrun in H.
    assert (Hu : exists u, users w' = users w ++ [u] /\ User.verified u = false).
    { destruct (refusal _); inversion H; subst; eexists; split; reflexivity. }
    destruct Hu as (u & Hu & Hv). unfold consumed. rewrite Hu.
    apply Forall_app. split; [exact Hc |]. constructor; [| constructor].
    rewrite Hv. discriminate.
Qed.

(** The row number of a hit depends on the emails only. *)
Lemma scan_row {A} (p q : A -> bool) i (l l' : list A) :
  map p l = map q l' -> fst <$> scan p i l = fst <$> scan q i l'.
Proof.
  revert i l'. induction l as [|x l IH]; intros i [|x' l'] E; try discriminate E;
    [reflexivity |].
  cbn [map] in E. injection E as Ex El. cbn [scan]. rewrite Ex.
  destruct (q x'); [reflexivity | now apply IH].
Qed.

Lemma alter_beyond {A} (f : A -> A) (l : list A) : alter f (List.length l) l = l.
Proof. induction l as [|x l IH]; [reflexivity |]. cbn. f_equal. exact IH. Qed.

Lemma updateUserField_row e f w :
  colMap f <> 1%nat ->
  exists k,
    users (snd (updateUserField e f w)) = alter (setValue f) k (users w) /\
    forall f' , colMap f' <> 1%nat ->
      users (snd (updateUserField e f' (snd (updateUserField e f w))))
      = alter (setValue f') k (users (snd (updateUserField e f w))).
Proof.
  intros Hf. rewrite updateUserField_run. cbn [snd].
  destruct (scan _ 1 (users w)) as [[row u]|] eqn:Hscan.
  - exists (row - 2)%nat. split; [reflexivity |]. intros f' Hf'.
    rewrite updateUserField_run. cbn [snd set_users users].
    assert (Hrow : fst <$> scan (fun r => String.eqb (User.email r) e) 1
                                (setCell row f (users w)) = Some row).
    { erewrite (scan_row _ (fun r => String.eqb (User.email r) e) 1 _ (users w)).
      - now rewrite Hscan.
      - rewrite <- !(map_map User.email (fun x => String.eqb x e)).
        now rewrite setCell_emails. }
    destruct (scan _ 1 (setCell row f (users w))) as [[row' u']|]; [| discriminate Hrow].
    cbn in Hrow. injection Hrow as ->. reflexivity.
  - exists (List.length (users w)). split.
    + symmetry. apply alter_beyond.
    + intros f' Hf'. rewrite updateUserField_run, Hscan. cbn [snd].
      symmetry. apply alter_beyond.
Qed.

Lemma confirmEmail_consumed token w out w' :
  handleConfirmEmail token w = (out, w') -> consumed w -> consumed w'.
Proof.
  intros H Hc. unfold handleConfirmEmail in H.
  rewrite (run_bind _ _ _ _ _ (findUserByVerifyToken_run _ w)) in H.
  destruct (scan _ 1 (users w)) as [[row u]|]; [| now inversion H; subst].
  destruct (User.verified u); [now inversion H; subst |].
  set (e := User.email u) in *.
  destruct (updateUserField_row e (F_verified true) w) as (k & H1 & Hnext);
    [discriminate |].
  pose proof (Hnext (F_verify_token "") ltac:(discriminate)) as H2.
  destruct (updateUserField e (F_verified true) w) as [o1 w1] eqn:E1.
  pose proof (returns_updateUserField e (F_verified true) w) as (a1 & w1' & R1).
  rewrite E1 in R1. injection R1 as -> <-. cbn [snd] in H1, H2, Hnext.
  rewrite (run_bind _ _ _ _ _ E1) in H.
  destruct (updateUserField_row e (F_verify_token "") w1) as (k2 & _ & Hnext2);
    [discriminate |].
  destruct (updateUserField e (F_verify_token "") w1) as [o2 w2] eqn:E2.
  pose proof (returns_updateUserField e (F_verify_token "") w1) as (a2 & w2' & R2).
  rewrite E2 in R2. injection R2 as -> <-. cbn [snd] in H2, Hnext2.
  rewrite (run_bind _ _ _ _ _ E2) in H.
  rewrite (run_bind _ _ _ _ _ (newDate_run _)) in H.
  assert (Hmarks : marks w2 = marks (set_users (fun _ => users w2) w2)) by reflexivity.
  assert (Hw2 : consumed w2).
  { unfold consumed. rewrite H2, H1, list_alter_alter_eq.
    apply Forall_alter; [exact Hc |]. intros x _ _ _. reflexivity. }
  destruct (updateUserField e (F_updated_at (clock w2)) w2) as [o3 w3] eqn:E3.
  pose proof (keeps_updateUserField_marks e (F_updated_at (clock w2))
                ltac:(discriminate) ltac:(discriminate) _ _ _ E3) as H3.
  pose proof (returns_updateUserField e (F_updated_at (clock w2)) w2) as (a3 & w3' & R3).
  rewrite E3 in R3. injection R3 as -> <-.
  rewrite (run_bind _ _ _ _ _ E3) in H. inversion H; subst.
  exact (consumed_marks _ _ H3 Hw2).
Qed.

(** Starting from a users sheet in which every verified row has a blank
    verify_token (an empty sheet, for one), this stays so through every
    request, whatever the environment, and no link is answered with
    "already_verified". *)
Lemma already_verified_is_out_of_reach dg refusal zone header (w : World) :
  consumed w ->
  (forall action data,
     consumed (snd (Script.doPost dg refusal zone header action data w))) /\
  (forall action token,
     consumed (snd (doGet action token w)) /\
     fst (doGet action token w) <> Return confirm_already_verified).
Proof.
  intros Hc. split.
  - intros action data. unfold Script.doPost.
    destruct (Script.dispatch dg refusal zone header action data w) as [out w'] eqn:H.
    assert (Hw : consumed w').
    { destruct (String.eqb action "signup") eqn:Hs.
      - unfold Script.dispatch in H. rewrite Hs in H. exact (signup_consumed _ _ _ _ _ _ H Hc).
      - exact (consumed_marks _ _ (handlers_keep_marks _ _ _ _ _ _ Hs _ _ _ H) Hc). }
    now destruct out.
  - intros action token. split.
    + unfold doGet.
      destruct (_ && _); [| exact Hc].
      destruct (handleConfirmEmail (text token) w) as [out w'] eqn:H.
      exact (confirmEmail_consumed _ _ _ _ H Hc).
    + intros H. destruct (doGet action token w) as [out w'] eqn:E. cbn [fst] in H. subst out.
      destruct (already_verified_needs_token _ _ _ _ E) as (row & u & Hf & Hv & Ht & Hne).
      unfold finds in Hf. rewrite findUserByVerifyToken_run in Hf.
      injection Hf as Hf. apply scan_Some in Hf.
      destruct Hf as (pre & post & Hu & _).
      unfold consumed in Hc. rewrite Hu in Hc.
      apply Forall_app in Hc. destruct Hc as [_ Hc].
      inversion Hc as [|? ? Hx _]; subst. specialize (Hx Hv). congruence.
Qed.

(** ** Worked examples *)

(** Cy's signup, confirmation and login. *)
Lemma signup_confirm_login_witness :
  mail_to cy_mail = text (Data.email cy_signup) /\
  (forall t,
     handleLogin plain_digest cy_signup (set_clock t cy_world) =
     (Return (Error "Email not confirmed. Please check your inbox."), set_clock t cy_world)) /\
  exists w2,
    doGet (Some "confirmEmail") (Some (mail_token cy_mail)) cy_world
      = (Return confirm_success, w2) /\
    forall t, exists tok exp us w3,
      handleLogin plain_digest cy_signup (set_clock t w2)
        = (Return (LoginSuccess tok exp us), w3) /\
      summary_email us = mail_to cy_mail.
Proof.
  apply (signup_confirm_login plain_digest cy_signup (ann_world 10) cy_world
           "Registration successful. Please check your email to verify your account."
           cy_mail).
  - vm_compute. reflexivity.
  - vm_compute. reflexivity.
  - repeat constructor. discriminate.
Defined.

(** Ann's login at instant 1000 and the life of its token. *)
Lemma login_then_validateSession_witness :
  (forall t, t <= 604801000 ->
     handleValidateSession (request_token ann_token) (set_clock t ann_logged_in) =
     (Return (ValidSession (summary ann)), set_clock t ann_logged_in)) /\
  (forall t, 604801000 < t ->
     handleValidateSession (request_token ann_token) (set_clock t ann_logged_in) =
     (Return (Error "Session expired"),
      set_clock t (set_sessions (fun _ => sessions (ann_world 1000)) ann_logged_in))).
Proof.
  apply (login_then_validateSession plain_digest ann_login (ann_world 1000) ann_logged_in
           ann_token 604801000 (summary ann)).
  - vm_compute. reflexivity.
  - repeat constructor. discriminate.
Defined.

(** Ann logs out of her only session. *)
Lemma logout_ends_session_witness :
  handleLogout (request_token "tok-ann") (ann_world 1000)
    = (Return SuccessOnly, set_sessions (fun _ => [] ++ []) (ann_world 1000)) /\
  (forall t,
     handleValidateSession (request_token "tok-ann")
       (set_clock t (set_sessions (fun _ => [] ++ []) (ann_world 1000))) =
     (Return (Error "Invalid session"),
      set_clock t (set_sessions (fun _ => [] ++ []) (ann_world 1000)))) /\
  (forall other,
     (truthy (Data.token other) = false \/
      finds_nothing (findSessionByToken (text (Data.token other))) (ann_world 1000)) ->
     handleLogout other (ann_world 1000) = (Return SuccessOnly, ann_world 1000)).
Proof.
  apply (logout_ends_session (request_token "tok-ann") (ann_world 1000) [] [] ann_session).
  - reflexivity.
  - reflexivity.
  - discriminate.
  - constructor.
Defined.

(** Ann changes her password with her session. *)
Lemma updatePassword_then_login_witness :
  sessions (snd (handleUpdatePassword plain_digest ann_new_password (ann_world 1000)))
    = sessions (ann_world 1000) /\
  (forall t, exists tok exp us w2,
     handleLogin plain_digest
       (request_login (Session.user_email ann_session)
                      (text (Data.newPassword ann_new_password)))
       (set_clock t (snd (handleUpdatePassword plain_digest ann_new_password
                            (ann_world 1000))))
     = (Return (LoginSuccess tok exp us), w2)) /\
  (forall t p, p <> "" -> p <> text (Data.newPassword ann_new_password) ->
     handleLogin plain_digest (request_login (Session.user_email ann_session) p)
       (set_clock t (snd (handleUpdatePassword plain_digest ann_new_password
                            (ann_world 1000))))
     = (Return (Error "Invalid login credentials"),
        set_clock t (snd (handleUpdatePassword plain_digest ann_new_password
                            (ann_world 1000))))).
Proof.
  apply (updatePassword_then_login plain_digest ann_new_password (ann_world 1000)
           (snd (handleUpdatePassword plain_digest ann_new_password (ann_world 1000)))
           "Password updated successfully" 2 ann_session 2 ann).
  - exact plain_digest_inj.
  - vm_compute. reflexivity.
  - reflexivity.
  - reflexivity.
  - reflexivity.
  - discriminate.
Defined.

(** Ann renames herself "anna". *)
Lemma updateProfile_then_getUser_witness :
  let us := mkSummary "a@x.com" "anna" "a@x.com" 0 in
  let w1 :=
    set_users (fun _ =>
      [] ++ setValue (F_updated_at 1000) (setValue (F_username "anna") ann) :: [])
      (ann_world 1000) in
  handleUpdateProfile ann_rename (ann_world 1000) = (Return (ProfileUpdated us), w1) /\
  handleGetUser ann_rename w1 = (Return (CurrentUser us), w1).
Proof.
  apply (updateProfile_then_getUser ann_rename (ann_world 1000) 2 ann_session [] [] ann).
  - reflexivity.
  - reflexivity.
  - vm_compute. discriminate.
  - reflexivity.
  - constructor.
  - reflexivity.
Defined.

(** Ann's chat history at instant 1000. *)
Lemma chatHistory_messages_witness :
  exists row s,
    finds (findSessionByToken "tok-ann") (chat_world 1000) row s /\
    ann_chat = List.filter (of_user (Session.user_email s)) (chat_history (chat_world 1000)) /\
    Forall (fun r => Chat.user_email r = Session.user_email s) ann_chat /\
    total (conversations_of
             (fst (handleGetChatHistory (request_token "tok-ann") (chat_world 1000))))
      = List.length ann_chat.
Proof.
  apply (chatHistory_messages (request_token "tok-ann") (chat_world 1000) (chat_world 1000)
           (conversations_of
              (fst (handleGetChatHistory (request_token "tok-ann") (chat_world 1000))))
           ann_chat).
  vm_compute. reflexivity.
Defined.

Lemma chatHistory_conversations_witness :
  StronglySorted not_older
    (conversations_of
       (fst (handleGetChatHistory (request_token "tok-ann") (chat_world 1000)))) /\
  Forall (fun c =>
            (exists first rest,
               messages c = first :: rest /\ createdAt c = msg_created_at first) /\
            totalMessages c = List.length (messages c) /\
            (humanMessages c + aiMessages c <= totalMessages c)%nat /\
            (String.length (title c) <= 50)%nat /\ title c <> "")
         (conversations_of
            (fst (handleGetChatHistory (request_token "tok-ann") (chat_world 1000)))).
Proof.
  apply (chatHistory_conversations (request_token "tok-ann") (chat_world 1000)
           (chat_world 1000) _ ann_chat).
  vm_compute. reflexivity.
Defined.

(** Ann adds a message to her first conversation. *)
Lemma saveChatMessage_then_history_witness :
  exists row s,
    finds (findSessionByToken (text (Data.token ann_says))) (chat_world 1000) row s /\
    let saved := Chat.mk (1000, 0%nat) (text (Data.sessionId ann_says))
                         (Session.user_email s)
                         (text (Data.messageType ann_says)) (text (Data.content ann_says))
                         (clock (chat_world 1000)) in
    let w1 := snd (handleSaveChatMessage ann_says (chat_world 1000)) in
    chat_history w1 = chat_history (chat_world 1000) ++ [saved] /\
    users w1 = users (chat_world 1000) /\ sessions w1 = sessions (chat_world 1000) /\
    forall conversations msgs w2,
      handleGetChatHistory ann_says w1 = (Return (ChatHistory conversations msgs), w2) ->
      msgs = List.filter (of_user (Session.user_email s)) (chat_history (chat_world 1000))
               ++ [saved] /\
      exists c, c ∈ conversations /\ sessionId c = Chat.session_id saved /\
                last (messages c) = Some (message_of saved).
Proof.
  apply (saveChatMessage_then_history ann_says (chat_world 1000)
           (snd (handleSaveChatMessage ann_says (chat_world 1000))) (1000, 0%nat)).
  vm_compute. reflexivity.
Defined.

(** Ann's statistics at instant 1000. *)
Lemma chatStats_first_and_last_witness :
  exists row s,
    finds (findSessionByToken "tok-ann") (chat_world 1000) row s /\
    let times :=
      map Chat.created_at
          (List.filter (of_user (Session.user_email s)) (chat_history (chat_world 1000))) in
    let st := stats_of (fst (handleGetChatStats (request_token "tok-ann") (chat_world 1000))) in
    match stats_firstMessageDate st, stats_lastMessageDate st with
    | Some first, Some last =>
        first ∈ times /\ last ∈ times /\ Forall (fun t => first <= t <= last) times
    | None, None => times = []
    | _, _ => False
    end.
Proof.
  apply (chatStats_first_and_last (request_token "tok-ann") (chat_world 1000)
           (chat_world 1000)
           (stats_of (fst (handleGetChatStats (request_token "tok-ann") (chat_world 1000))))).
  vm_compute. reflexivity.
Defined.

(** Uma's statistics at instant 1000, over a sheet whose header holds the
    titles of the columns: her one row and the header make a
    [messageCount] of two. *)
Lemma chatStats_recentConversations_witness :
  let st :=
    stats_of (fst (Script.handleGetChatStats UTC titles (request_token "tok-uma")
                     (titled_world 1000))) in
  map messageCount (stats_recentConversations st) = [2%nat] /\
  exists row s,
    finds (findSessionByToken "tok-uma") (titled_world 1000) row s /\
    let email := Session.user_email s in
    let ids :=
      distinct (map Chat.session_id
                    (List.filter (of_user email) (chat_history (titled_world 1000)))) in
    stats_totalSessions st = List.length ids /\
    map recent_sessionId (stats_recentConversations st) = firstn 5 (rev ids) /\
    List.length (stats_recentConversations st) = Nat.min 5 (stats_totalSessions st) /\
    NoDup (map recent_sessionId (stats_recentConversations st)) /\
    Forall (fun r =>
              let rows :=
                session_rows email (recent_sessionId r) (chat_history (titled_world 1000)) in
              messageCount r =
                (header_counted titles email (recent_sessionId r) + List.length rows)%nat /\
              (1 <= List.length rows)%nat)
           (stats_recentConversations st).
Proof.
  split; [vm_compute; reflexivity |].
  apply (chatStats_recentConversations UTC titles (request_token "tok-uma")
           (titled_world 1000) (titled_world 1000)
           (stats_of (fst (Script.handleGetChatStats UTC titles (request_token "tok-uma")
                             (titled_world 1000))))).
  vm_compute. reflexivity.
Defined.

(** Ann asks for a reset at instant 1000; the mail service refuses the
    address "bad" and no other. *)
Lemma requestReset_then_resetPassword_witness :
  exists token w1,
    Script.handleRequestReset address_check (request_email "a@x.com") (ann_world 1000) =
      (Return (Success "If an account exists with this email, a password reset link has been sent."),
       w1) /\
    last (outbox w1) =
      Some (mkMail (User.email ann) "Restablecer contrasena - Family6 SaaS" token) /\
    (exists u1,
       users w1 = [] ++ u1 :: [] /\ User.reset_token u1 = token /\
       User.reset_token_expires u1 = Some (clock (ann_world 1000) + 24 * 60 * 60 * 1000) /\
       User.password_hash u1 = User.password_hash ann /\ User.salt u1 = User.salt ann) /\
    (Forall (fun x => User.reset_token x <> token) [] ->
     forall p, (8 <= String.length p)%nat ->
       (forall t, t <= clock (ann_world 1000) + 24 * 60 * 60 * 1000 ->
          exists w2,
            handleResetPassword plain_digest (request_reset token p) (set_clock t w1) =
            (Return (Success "Password updated successfully"), w2)) /\
       (forall t, clock (ann_world 1000) + 24 * 60 * 60 * 1000 < t ->
          handleResetPassword plain_digest (request_reset token p) (set_clock t w1) =
          (Return (Error "Reset token has expired"), set_clock t w1))).
Proof.
  apply (requestReset_then_resetPassword plain_digest address_check
           (request_email "a@x.com") (ann_world 1000) [] [] ann).
  - reflexivity.
  - reflexivity.
  - constructor.
  - reflexivity.
  - intros token. reflexivity.
Defined.

(** Ann's page finds the id of her last chat. *)
Lemma getSessionId_rule_witness :
  exists id p',
    getSessionId (loaded_page (Some "a@x.com") (Some "a@x.com_s1")) = (id, p') /\
    id <> "" /\ getSessionId p' = (id, p') /\
    Some "a@x.com_s1" = Some id /\
    p' = chatting id (Some "a@x.com_s1") (loaded_page (Some "a@x.com") (Some "a@x.com_s1")).
Proof.
  apply (getSessionId_rule (loaded_page (Some "a@x.com") (Some "a@x.com_s1"))).
  reflexivity.
Defined.

(** The page of a user with an underscore in the email. *)
Lemma getSessionId_never_reused_witness :
  exists uuid,
    uuid_shape uuid /\
    getSessionId (loaded_page (Some "a_b@x.com") (Some "a_b@x.com_s1")) =
      ("a_b@x.com" +:+ "_" +:+ uuid,
       chatting ("a_b@x.com" +:+ "_" +:+ uuid) (Some ("a_b@x.com" +:+ "_" +:+ uuid))
                (drawn 31 (loaded_page (Some "a_b@x.com") (Some "a_b@x.com_s1")))).
Proof.
  apply (getSessionId_never_reused (loaded_page (Some "a_b@x.com") (Some "a_b@x.com_s1"))
           "a_b@x.com").
  - reflexivity.
  - reflexivity.
  - right. left. reflexivity.
Defined.
(** The password "short", with Ann's session token. *)
Lemma password_length_rule_witness :
  (isValid (validatePassword "short") = false ->
   let e :=
     if String.eqb "tok-ann" "" || String.eqb "short" ""
     then "Token and new password are required"
     else "Password must be at least 8 characters" in
   handleResetPassword plain_digest (request_reset "tok-ann" "short") (ann_world 1000) =
     (Return (Error e), ann_world 1000) /\
   handleUpdatePassword plain_digest (request_reset "tok-ann" "short") (ann_world 1000) =
     (Return (Error e), ann_world 1000)) /\
  (isValid (validatePassword "short") = true ->
   fst (handleResetPassword plain_digest (request_reset "tok-ann" "short") (ann_world 1000))
     <> Return (Error "Password must be at least 8 characters") /\
   fst (handleUpdatePassword plain_digest (request_reset "tok-ann" "short") (ann_world 1000))
     <> Return (Error "Password must be at least 8 characters")) /\
  (forall refusal email username,
     email <> "" -> "short" <> "" -> finds_nothing (findUserByEmail email) (ann_world 1000) ->
     exists u w1,
       users w1 = users (ann_world 1000) ++ [u] /\ User.email u = email /\
       User.password_hash u = hashPassword plain_digest "short" (User.salt u) /\
       Script.handleSignup plain_digest refusal (request_signup email "short" username)
         (ann_world 1000) =
       (match refusal (mkMail email "Confirma tu cuenta - Family6 SaaS" (User.verify_token u)) with
        | None =>
            Return (Success "Registration successful. Please check your email to verify your account.")
        | Some e => Throw e
        end, w1)).
Proof.
  apply (password_length_rule plain_digest "tok-ann" "short" (ann_world 1000)).
Defined.

(** Ann opens the dashboard and the backend accepts her token. *)
Lemma protected_page_needs_session_witness :
  let (session, item') :=
    Auth.getSession page_parse (Responded true 200 "{answer}") (Some "{session}") in
  if snd (initRouteProtection "/dashboard.html" (has_session session)) then
    item' = Some "{session}" /\
    (exists result, accepted page_parse (Responded true 200 "{answer}") result) /\
    exists token, Api.getSessionToken page_parse (Some "{session}") = Some token
  else
    initRouteProtection "/dashboard.html" (has_session session) = (Some LOGIN, false) /\
    Api.getSessionToken page_parse item' = None.
Proof.
  apply (protected_page_needs_session page_parse "/dashboard.html"
           (Responded true 200 "{answer}") (Some "{session}")).
  reflexivity.
Defined.

(** Ann's page cannot reach the backend. *)
Lemma logged_out_after_witness :
  Api.getSessionToken page_parse None = None /\
  forall response',
    Api.validateSession page_parse response' None =
      (Api.failure (JStr "No session token"), None) /\
    Api.with_token page_parse response' None = Api.failure (JStr "No session token") /\
    Api.getUser page_parse page_stringify response' None =
      (Api.failure (JStr "No session token"), None).
Proof.
  apply (logged_out_after page_parse page_stringify (Failed "Failed to fetch")
           (Some "{session}") None).
  right. split; [reflexivity | discriminate].
Defined.

(** Ann logs in. *)
Lemma login_stores_token_witness :
  let saved :=
    Api.object_of [("token", Some (JStr "tok-ann")); ("user", Api.prop (Some ann_answer) "user");
                   ("expiresAt", Api.prop (Some ann_answer) "expiresAt")] in
  Api.login page_parse page_stringify (Responded true 200 "{answer}") None
    = (Api.mk (Some ann_answer) None, Some (page_stringify saved)) /\
  Api.getSessionToken page_parse (Some (page_stringify saved)) = Some (JStr "tok-ann") /\
  forall response',
    snd (Api.login page_parse page_stringify response' None) = None \/
    exists result',
      accepted page_parse response' result' /\
      truthy_json (Api.prop (Some result') "token") = true.
Proof.
  apply (login_stores_token page_parse page_stringify (Responded true 200 "{answer}") None
           ann_answer (JStr "tok-ann")).
  - reflexivity.
  - exists 200%nat, "{answer}", None. repeat split; reflexivity.
  - reflexivity.
  - reflexivity.
  - reflexivity.
Defined.

(** Ann's page refreshes her user. *)
Lemma getUser_keeps_token_witness :
  Api.getSessionToken page_parse
    (snd (Api.getUser page_parse page_stringify (Responded true 200 "{answer}")
            (Some "{session}")))
    = Some (JStr "tok-ann") /\
  forall result user,
    accepted page_parse (Responded true 200 "{answer}") result ->
    Api.prop (Some result) "user" = Some user ->
    truthy_json (Some user) = true ->
    Api.prop (Api.getStoredSession page_parse
                (snd (Api.getUser page_parse page_stringify (Responded true 200 "{answer}")
                        (Some "{session}"))))
             "user" = Some user.
Proof.
  apply (getUser_keeps_token page_parse page_stringify (Responded true 200 "{answer}")
           (Some "{session}") (JStr "tok-ann")).
  - reflexivity.
  - reflexivity.
  - intros session result user Hs (status & body & e & Hr & Hp & _) Hu.
    injection Hs as <-. injection Hr as <- <-. injection Hp as <-.
    injection Hu as <-. reflexivity.
Defined.

(** The reset link for a token of 32 characters. *)
Lemma reset_link_is_understood_witness :
  exists token w',
    generateToken 32 (ann_world 1000) = (Return token, w') /\
    handleAuthCallback native_text (URLSearchParams (resetUrl token)) None =
    (mkCallback (Some (HasResetToken token)) None (Some "password_reset"), Some token).
Proof.
  apply (reset_link_is_understood native_text 32 (ann_world 1000) None). discriminate.
Defined.

(** Bea follows her confirmation link. *)
Lemma confirm_link_is_understood_witness :
  exists page w',
    doGet (Some "confirmEmail") (Some "verify-bea") (two_users_world 1000)
      = (Return page, w') /\
    let answer :=
      handleAuthCallback native_text (URLSearchParams (redirect_of page)) None in
    snd answer = None /\
    ((page = confirm_success /\
      fst answer = mkCallback (Some Confirmed) None (Some "email_confirm")) \/
     (page = confirm_invalid_token /\
      fst answer =
        mkCallback None (Some "El enlace de confirmacion es invalido o ha expirado.") None) \/
     (page = confirm_already_verified /\
      fst answer =
        mkCallback None (Some "Esta cuenta ya fue verificada anteriormente.") None)).
Proof.
  apply (confirm_link_is_understood native_text "verify-bea" (two_users_world 1000) None).
  discriminate.
Defined.
